(** * pdfParser: the asynchronous PDF analysis pipeline of [main.py]

    A shallow embedding of the task registry ([processing_tasks]), of the
    extraction pipeline ([extract_images_from_pdf_and_analyze]), of the
    background job ([process_pdf_async]) and of the task endpoints, followed
    by the properties of the pipeline and of the registry.

    Modelling choices, all taken from the source:
    - a Python [str] is the list of its code points;
    - a Python [float] is a rational that is representable in binary64, and
      every float operation rounds its exact result to nearest, ties to even;
    - a coroutine is a state-passing function over the registry; awaiting a
      coroutine of this file is a call, which does not suspend (the two model
      adapters call the blocking [ollama.generate] and contain no [await]);
      at the [await] of the upload's [read] the event loop may serve other
      requests, which are taken from an explicit schedule ([inbox]);
    - exceptions are an outcome of every step ([Raise]), [try]/[except] is
      [try_except];
    - the parsing libraries and the model runtime are inputs: a parsed upload
      carries what [fitz] and [pdfplumber] return for it, and [ollama.generate]
      is a function of the call number and of the request. *)

From Stdlib Require Import ZArith QArith Qround Qpower Lia Lqa String Ascii Decimal Sorted.
From Stdlib Require DecimalPos.
From stdpp Require Import base option list gmap sorting.

(* ================================================================= *)
(** ** Python floats *)

Module Float.

Local Open Scope Q_scope.

(** Nearest integer, ties to the even one. *)
Definition round_half_even (x : Q) : Z :=
  let f := Qfloor x in
  match Qcompare (x - inject_Z f) (1 # 2) with
  | Lt => f
  | Gt => (f + 1)%Z
  | Eq => if Z.even f then f else (f + 1)%Z
  end.

(** [floor (log2 q)] for a positive rational. *)
Definition Qlog2_floor (q : Q) : Z :=
  let l := (Z.log2 (Qnum q) - Z.log2 (Zpos (Qden q)))%Z in
  if Qle_bool (2 ^ l) q then l else (l - 1)%Z.

(** Exponent of the unit in the last place: 53 significant bits, and the
    subnormal grid [2^-1074] at the bottom. *)
Definition binade (q : Q) : Z := Z.max (Qlog2_floor q - 52) (-1074).

Definition rnd64_pos (q : Q) : Q :=
  let e := binade q in
  inject_Z (round_half_even (q / 2 ^ e)) * 2 ^ e.

(** Round to nearest binary64, ties to even.  The exponent is not bounded
    above: no value of the pipeline comes near [2^1024]. *)
Definition rnd64 (q : Q) : Q :=
  match Qnum q with
  | Z0 => 0
  | Zpos _ => rnd64_pos q
  | Zneg _ => - rnd64_pos (- q)
  end.

(** [float(a)] *)
Definition of_int (a : Z) : Q := rnd64 (inject_Z a).
(** [a / b] on two [int]s: the exact quotient, rounded once. *)
Definition truediv (a b : Z) : Q := rnd64 (inject_Z a / inject_Z b).
Definition div (x y : Q) : Q := rnd64 (x / y).
Definition mul (x y : Q) : Q := rnd64 (x * y).
Definition add (x y : Q) : Q := rnd64 (x + y).
(** [int(x)]: truncation towards zero. *)
Definition to_int (x : Q) : Z := Z.quot (Qnum x) (Zpos (Qden x)).

End Float.

(** [progress = 10 + (page_num / page_count) * 60; int(progress)] *)
Definition page_progress (page_num page_count : Z) : Z :=
  Float.to_int
    (Float.add (Float.of_int 10)
       (Float.mul (Float.truediv page_num page_count) (Float.of_int 60))).

(** [img_progress = 70 + ((page_num - 1) / page_count
       + (img_index + 1) / len(image_list) / page_count) * 20; int(img_progress)] *)
Definition img_progress (page_num page_count img_index len_image_list : Z) : Z :=
  Float.to_int
    (Float.add (Float.of_int 70)
       (Float.mul
          (Float.add (Float.truediv (page_num - 1) page_count)
             (Float.div (Float.truediv (img_index + 1) len_image_list)
                (Float.of_int page_count)))
          (Float.of_int 20))).

(* ================================================================= *)
(** ** Python strings *)

Abbreviation pystr := (list N).

(** Code points of a UTF-8 encoded literal. *)
Fixpoint utf8_decode (bs : list N) : pystr :=
  match bs with
  | [] => []
  | b0 :: r0 =>
    if (b0 <? 128)%N then b0 :: utf8_decode r0
    else if (b0 <? 224)%N then
      match r0 with
      | b1 :: r1 => ((b0 - 192) * 64 + (b1 - 128))%N :: utf8_decode r1
      | [] => []
      end
    else if (b0 <? 240)%N then
      match r0 with
      | b1 :: b2 :: r2 =>
        (((b0 - 224) * 64 + (b1 - 128)) * 64 + (b2 - 128))%N :: utf8_decode r2
      | _ => []
      end
    else
      match r0 with
      | b1 :: b2 :: b3 :: r3 =>
        ((((b0 - 240) * 64 + (b1 - 128)) * 64 + (b2 - 128)) * 64 + (b3 - 128))%N
          :: utf8_decode r3
      | _ => []
      end
  end.

Definition u (s : string) : pystr :=
  utf8_decode (map N_of_ascii (list_ascii_of_string s)).
Arguments u _%_string : simpl never.

Definition nl : pystr := [10%N].

Fixpoint uint_digits (d : Decimal.uint) : pystr :=
  match d with
  | Decimal.Nil => []
  | Decimal.D0 d => 48%N :: uint_digits d
  | Decimal.D1 d => 49%N :: uint_digits d
  | Decimal.D2 d => 50%N :: uint_digits d
  | Decimal.D3 d => 51%N :: uint_digits d
  | Decimal.D4 d => 52%N :: uint_digits d
  | Decimal.D5 d => 53%N :: uint_digits d
  | Decimal.D6 d => 54%N :: uint_digits d
  | Decimal.D7 d => 55%N :: uint_digits d
  | Decimal.D8 d => 56%N :: uint_digits d
  | Decimal.D9 d => 57%N :: uint_digits d
  end.

(** [str(z)] for an [int]. *)
Definition str_int (z : Z) : pystr :=
  match Z.to_int z with
  | Decimal.Pos d => uint_digits d
  | Decimal.Neg d => 45%N :: uint_digits d
  end.

(** The code points [str.strip()] removes ([Py_UNICODE_ISSPACE]). *)
Definition is_space (c : N) : bool :=
  ((9 <=? c) && (c <=? 13) || (28 <=? c) && (c <=? 32)
   || (c =? 133) || (c =? 160) || (c =? 5760)
   || (8192 <=? c) && (c <=? 8202)
   || (c =? 8232) || (c =? 8233) || (c =? 8239) || (c =? 8287)
   || (c =? 12288))%N.

Fixpoint lstrip (s : pystr) : pystr :=
  match s with
  | [] => []
  | c :: r => if is_space c then lstrip r else s
  end.

Definition rstrip (s : pystr) : pystr := rev (lstrip (rev s)).

(** [s.strip()] *)
Definition strip (s : pystr) : pystr := rstrip (lstrip s).

Fixpoint startswith (s p : pystr) : bool :=
  match p, s with
  | [], _ => true
  | a :: p', b :: s' => (a =? b)%N && startswith s' p'
  | _ :: _, [] => false
  end.

(** [s.endswith(suffix)] *)
Definition endswith (s suffix : pystr) : bool := startswith (rev s) (rev suffix).

(** [needle in hay] *)
Fixpoint contains (hay needle : pystr) : bool :=
  startswith hay needle
  || match hay with
     | [] => false
     | _ :: r => contains r needle
     end.

(** [s.lower()], on the ASCII letters.  Only the last four code points of a
    file name are inspected, and no other code point lowers to one of
    [.], [p], [d], [f]. *)
Definition lower (s : pystr) : pystr :=
  map (fun c => if ((65 <=? c) && (c <=? 90))%N then (c + 32)%N else c) s.

(** [sep.join(parts)] *)
Fixpoint join (sep : pystr) (parts : list pystr) : pystr :=
  match parts with
  | [] => []
  | [p] => p
  | p :: rest => p ++ sep ++ join sep rest
  end.

(* ================================================================= *)
(** ** Exceptions *)

Inductive PyExc : Type :=
| Exception (msg : pystr)
| HTTPException (status_code : Z) (detail : pystr)
| KeyError (key : pystr).

(** [str(e)].  An [HTTPException] prints as its status code and detail, a
    [KeyError] as the quoted key. *)
Definition str_exc (e : PyExc) : pystr :=
  match e with
  | Exception msg => msg
  | HTTPException status_code detail => str_int status_code ++ u ": " ++ detail
  | KeyError key => u "'" ++ key ++ u "'"
  end.

Inductive Outcome (A : Type) : Type :=
| Return (a : A)
| Raise (e : PyExc).
Arguments Return {A} a.
Arguments Raise {A} e.

(* ================================================================= *)
(** ** Data model *)

(** The four values of a task's ["status"]. *)
Inductive Status : Type := processing | completed | failed | cancelled.

Global Instance Status_eq_dec : EqDecision Status.
Proof. solve_decision. Defined.

Definition status_str (s : Status) : pystr :=
  match s with
  | processing => u "processing"
  | completed => u "completed"
  | failed => u "failed"
  | cancelled => u "cancelled"
  end.

(** [status in ["completed", "failed", "cancelled"]] *)
Definition terminal (s : Status) : bool :=
  match s with
  | processing => false
  | completed | failed | cancelled => true
  end.

Module PDFAnalysisResponse.
Record t : Type := mk {
  filename : pystr;
  text_content : pystr;
  analysis : pystr;
  model_used : pystr;
  page_count : Z;
  task_id : option pystr
}.
End PDFAnalysisResponse.

(** An entry of [processing_tasks]. *)
Module Task.
Record t : Type := mk {
  task_id : pystr;
  status : Status;
  progress : Z;
  current_step : pystr;
  result : option PDFAnalysisResponse.t;
  error : option pystr;
  filename : pystr;
  model : pystr
}.

Definition set_status (s : Status) (x : t) : t :=
  mk (task_id x) s (progress x) (current_step x) (result x) (error x)
     (filename x) (model x).
Definition set_progress (p : Z) (x : t) : t :=
  mk (task_id x) (status x) p (current_step x) (result x) (error x)
     (filename x) (model x).
Definition set_current_step (s : pystr) (x : t) : t :=
  mk (task_id x) (status x) (progress x) s (result x) (error x)
     (filename x) (model x).
Definition set_result (r : option PDFAnalysisResponse.t) (x : t) : t :=
  mk (task_id x) (status x) (progress x) (current_step x) r (error x)
     (filename x) (model x).
Definition set_error (e : option pystr) (x : t) : t :=
  mk (task_id x) (status x) (progress x) (current_step x) (result x) e
     (filename x) (model x).
End Task.

(** [TaskStatus]: what the status endpoint answers with.  Of the keys of an
    entry the model keeps these six and ignores ["filename"] and ["model"]. *)
Module TaskStatus.
Record t : Type := mk {
  task_id : pystr;
  status : Status;
  progress : Z;
  current_step : pystr;
  result : option PDFAnalysisResponse.t;
  error : option pystr
}.

(** [TaskStatus] built from the keys of [entry] (the double-star call of
    line 417) *)
Definition of_entry (entry : Task.t) : t :=
  mk (Task.task_id entry) (Task.status entry) (Task.progress entry)
     (Task.current_step entry) (Task.result entry) (Task.error entry).
End TaskStatus.

(** What the parsing libraries return for an upload. *)
Module Pixmap.
(** [fitz.Pixmap]: [n] components per pixel, [alpha] of them the alpha
    channel; [png_base64] is [base64.b64encode(pix.tobytes("png")).decode()]. *)
Record t : Type := mk {
  n : Z;
  alpha : Z;
  png_base64 : Outcome pystr
}.
End Pixmap.

(** An entry of [fitz_page.get_images()]: [img[0]] is the xref, and [pixmap]
    is what [fitz.Pixmap(pdf_document, xref)] does for it. *)
Record Image : Type := {
  xref : Z;
  pixmap : Outcome Pixmap.t
}.

Record FitzPage : Type := {
  get_images : Outcome (list Image)
}.

(** A table is a list of rows; a row may be [None], and so may a cell. *)
Abbreviation Table := (list (option (list (option pystr)))).

Record PlumberPage : Type := {
  extract_text : Outcome (option pystr);
  extract_tables : Outcome (list Table)
}.

Module UploadFile.
Record t : Type := mk {
  filename : pystr;
  (** [fitz.open(stream=content, filetype="pdf")], as the list of pages *)
  fitz_open : Outcome (list FitzPage);
  (** [pdfplumber.open(BytesIO(content))], as [pdf.pages] *)
  pdfplumber_open : Outcome (list PlumberPage)
}.
End UploadFile.

Module GenerateRequest.
(** The arguments of [ollama.generate]. *)
Record t : Type := mk {
  model : pystr;
  prompt : pystr;
  images : list pystr
}.
End GenerateRequest.

(** What is recorded of a run: every write of a task's ["progress"], with
    the task's status before the statement and at the write, and every
    request sent to the model.  The newest event comes first. *)
Inductive Event : Type :=
| ProgressWrite (task_id : pystr) (value : Z) (status_before status_at : Status)
| Generate (req : GenerateRequest.t).

(** Requests the event loop may serve while a coroutine is suspended. *)
Inductive Request : Type :=
| POST_cancel (task_id : pystr)
| DELETE_task (task_id : pystr).

Record World : Type := mkWorld {
  processing_tasks : gmap pystr Task.t;
  trace : list Event;
  inbox : list (list Request)
}.

(* ================================================================= *)
(** ** Coroutines *)

Definition M (A : Type) : Type := World -> Outcome A * World.

Global Instance M_ret : MRet M := fun A a w => (Return a, w).

Global Instance M_bind : MBind M := fun A B k m w =>
  match m w with
  | (Return a, w') => k a w'
  | (Raise e, w') => (Raise e, w')
  end.

Definition raise {A : Type} (e : PyExc) : M A := fun w => (Raise e, w).

(** [try: body  except Exception as e: handler e] *)
Definition try_except {A : Type} (body : M A) (handler : PyExc -> M A) : M A :=
  fun w =>
    match body w with
    | (Return a, w') => (Return a, w')
    | (Raise e, w') => handler e w'
    end.

(** The result of a library call. *)
Definition lift {A : Type} (o : Outcome A) : M A := fun w => (o, w).

(** [pdf_file.read()]: the content is what the two parsers are given. *)
Definition UploadFile_read (pdf_file : UploadFile.t) : M unit := mret ().

Definition log (ev : Event) : M unit := fun w =>
  (Return (), mkWorld (processing_tasks w) (ev :: trace w) (inbox w)).

(** [processing_tasks[task_id]] *)
Definition getitem (task_id : pystr) : M Task.t := fun w =>
  match processing_tasks w !! task_id with
  | Some t => (Return t, w)
  | None => (Raise (KeyError task_id), w)
  end.

(** The task dictionary is mutated in place. *)
Definition store (task_id : pystr) (t : Task.t) : M unit := fun w =>
  (Return (), mkWorld (<[task_id := t]> (processing_tasks w)) (trace w) (inbox w)).

(** [processing_tasks[task_id]["current_step"] = step] *)
Definition setitem_current_step (task_id step : pystr) : M unit :=
  t ← getitem task_id;
  store task_id (Task.set_current_step step t).

(** [processing_tasks[task_id]["progress"] = value] *)
Definition setitem_progress (task_id : pystr) (value : Z) : M unit :=
  t ← getitem task_id;
  log (ProgressWrite task_id value (Task.status t) (Task.status t));;
  store task_id (Task.set_progress value t).

(** [processing_tasks[task_id]["status"] = s] *)
Definition setitem_status (task_id : pystr) (s : Status) : M unit :=
  t ← getitem task_id;
  store task_id (Task.set_status s t).

(** [processing_tasks.get(task_id, {}).get("status")] *)
Definition get_status (task_id : pystr) : M (option Status) := fun w =>
  (Return (Task.status <$> processing_tasks w !! task_id), w).

(** [if task_id: ...] for an optional task id: [None] and the empty string
    are false. *)
Definition if_task_id (task_id : option pystr) (body : pystr -> M unit) : M unit :=
  match task_id with
  | Some (c :: s) => body (c :: s)
  | _ => mret ()
  end.

(* ================================================================= *)
(** ** The task endpoints *)

(** [POST /tasks/{task_id}/cancel] *)
Definition cancel_task (task_id : pystr) : M pystr := fun w =>
  match processing_tasks w !! task_id with
  | None => (Raise (HTTPException 404 (u "Task not found")), w)
  | Some t =>
    if terminal (Task.status t)
    then (Raise (HTTPException 400 (u "Task cannot be cancelled")), w)
    else
      (setitem_status task_id cancelled;;
       setitem_current_step task_id (u "사용자에 의해 취소됨");;
       mret (u "Task cancelled successfully")) w
  end.

(** [DELETE /tasks/{task_id}] *)
Definition delete_task (task_id : pystr) : M pystr := fun w =>
  match processing_tasks w !! task_id with
  | None => (Raise (HTTPException 404 (u "Task not found")), w)
  | Some _ =>
    (Return (u "Task deleted successfully"),
     mkWorld (delete task_id (processing_tasks w)) (trace w) (inbox w))
  end.

(** [GET /tasks/{task_id}/status] *)
Definition get_task_status (task_id : pystr) : M TaskStatus.t := fun w =>
  match processing_tasks w !! task_id with
  | None => (Raise (HTTPException 404 (u "Task not found")), w)
  | Some t => (Return (TaskStatus.of_entry t), w)
  end.

(** A request served by the event loop: its response goes to its own client. *)
Definition serve_request (r : Request) : M unit := fun w =>
  match r with
  | POST_cancel task_id => (Return (), (cancel_task task_id w).2)
  | DELETE_task task_id => (Return (), (delete_task task_id w).2)
  end.

Fixpoint serve (rs : list Request) : M unit :=
  match rs with
  | [] => mret ()
  | r :: rest => serve_request r;; serve rest
  end.

(** A suspension of the running coroutine: the requests scheduled for it are
    served before the coroutine resumes. *)
Definition await_point : M unit := fun w =>
  match inbox w with
  | [] => (Return (), w)
  | rs :: rest => serve rs (mkWorld (processing_tasks w) (trace w) rest)
  end.

(** [await m], for an awaitable [m] that suspends the coroutine *)
Definition await {A : Type} (m : M A) : M A := await_point;; m.

(* ================================================================= *)
(** ** The pipeline *)

(** [if x:] on an optional string *)
Definition truthy (x : option pystr) : bool :=
  match x with
  | Some (_ :: _) => true
  | _ => false
  end.

(** [" | ".join([str(cell) if cell else "" for cell in row])] *)
Definition row_text (row : list (option pystr)) : pystr :=
  join (u " | ") (map (fun cell => default [] cell) row).

(** [for row in table: if row: all_text += row_text + "\n"] *)
Fixpoint rows_text (table : Table) : pystr :=
  match table with
  | [] => []
  | Some (c :: r) :: rest => row_text (c :: r) ++ nl ++ rows_text rest
  | _ :: rest => rows_text rest
  end.

(** [for table_num, table in enumerate(tables, 1): ...] *)
Fixpoint tables_text (table_num : Z) (tables : list Table) : pystr :=
  match tables with
  | [] => []
  | table :: rest =>
    (nl ++ u "[표 " ++ str_int table_num ++ u "]" ++ nl)
      ++ rows_text table ++ nl ++ tables_text (table_num + 1) rest
  end.

Definition image_prompt : pystr :=
  u "이 이미지에 있는 모든 텍스트를 추출하고, 이미지의 내용을 상세히 설명해주세요. 텍스트가 있다면 정확히 추출해주세요.".

Definition summary_prompt (text : pystr) : pystr :=
  u "다음 텍스트를 분석하고 요약해주세요. 주요 내용, 핵심 포인트, 그리고 중요한 정보들을 한국어로 정리해주세요:"
    ++ nl ++ nl ++ text.

(** The number of requests sent to the model so far. *)
Fixpoint generate_count (tr : list Event) : nat :=
  match tr with
  | [] => 0
  | Generate _ :: rest => S (generate_count rest)
  | ProgressWrite _ _ _ _ :: rest => generate_count rest
  end.

(** [if task_id and processing_tasks.get(task_id, {}).get("status") == "cancelled":
       raise Exception("Task was cancelled")] *)
Definition check_cancelled (task_id : option pystr) : M unit :=
  if_task_id task_id (fun tid =>
    st ← get_status tid;
    if decide (st = Some cancelled)
    then raise (Exception (u "Task was cancelled"))
    else mret ()).

Section Pipeline.

(** [ollama.generate]: the reply to the [k]-th request of the run. *)
Variable ollama_generate : nat -> GenerateRequest.t -> Outcome pystr.

Definition generate (req : GenerateRequest.t) : M pystr := fun w =>
  (ollama_generate (generate_count (trace w)) req,
   mkWorld (processing_tasks w) (Generate req :: trace w) (inbox w)).

Definition analyze_image_with_ollama (image_base64 model : pystr) : M pystr :=
  try_except
    (generate (GenerateRequest.mk model image_prompt [image_base64]))
    (fun e => mret (u "이미지 분석 실패: " ++ str_exc e)).

Definition analyze_text_with_ollama
    (text model_name : pystr) (prompt : option pystr) : M pystr :=
  try_except
    (let prompt :=
       match prompt with
       | Some (c :: p) => c :: p
       | _ => summary_prompt text
       end in
     generate (GenerateRequest.mk model_name prompt []))
    (fun e =>
       raise (HTTPException 500
                (u "Failed to analyze text with Ollama: " ++ str_exc e))).

Section Extract.

Variables (model : pystr) (task_id : option pystr).

(** The body of [for img_index, img in enumerate(image_list)], and the
    loop over the rest of the list. *)
Fixpoint image_loop (page_num page_count len_image_list : Z)
    (img_index : Z) (image_list : list Image) (all_text : pystr) : M pystr :=
  match image_list with
  | [] => mret all_text
  | img :: rest =>
    check_cancelled task_id;;
    if_task_id task_id (fun tid =>
      setitem_progress tid
        (img_progress page_num page_count img_index len_image_list);;
      setitem_current_step tid
        (u "페이지 " ++ str_int page_num ++ u " 이미지 "
           ++ str_int (img_index + 1) ++ u "/" ++ str_int len_image_list
           ++ u " 분석 중"));;
    all_text ←
      try_except
        (pix ← lift (pixmap img);
         if decide (Pixmap.n pix - Pixmap.alpha pix < 4)%Z
         then
           img_base64 ← lift (Pixmap.png_base64 pix);
           image_analysis ← analyze_image_with_ollama img_base64 model;
           mret (all_text ++ u "이미지 " ++ str_int (img_index + 1) ++ u " 분석:"
                   ++ nl ++ image_analysis ++ nl ++ nl)
         else mret all_text)
        (fun e =>
           mret (all_text ++ u "이미지 " ++ str_int (img_index + 1)
                   ++ u ": 분석 실패 - " ++ str_exc e ++ nl));
    image_loop page_num page_count len_image_list (img_index + 1) rest all_text
  end.

(** The body of
    [for page_num, (fitz_page, plumber_page) in enumerate(zip(...), 1)]. *)
Fixpoint page_loop (page_count : Z) (page_num : Z)
    (pages : list (FitzPage * PlumberPage)) (all_text : pystr) : M pystr :=
  match pages with
  | [] => mret all_text
  | (fitz_page, plumber_page) :: rest =>
    check_cancelled task_id;;
    if_task_id task_id (fun tid =>
      setitem_progress tid (page_progress page_num page_count);;
      setitem_current_step tid
        (u "페이지 " ++ str_int page_num ++ u "/" ++ str_int page_count
           ++ u " 텍스트 추출 중"));;
    let all_text :=
      all_text ++ u "--- 페이지 " ++ str_int page_num ++ u " ---" ++ nl in
    page_text ← lift (extract_text plumber_page);
    let all_text :=
      if truthy page_text then all_text ++ default [] page_text ++ nl
      else all_text in
    tables ← lift (extract_tables plumber_page);
    let all_text := all_text ++ tables_text 1 tables in
    image_list ← lift (get_images fitz_page);
    all_text ←
      match image_list with
      | [] => mret all_text
      | _ :: _ =>
        let len_image_list := Z.of_nat (length image_list) in
        image_loop page_num page_count len_image_list 0 image_list
          (all_text ++ nl ++ u "[이미지 " ++ str_int len_image_list
             ++ u "개 분석 결과]" ++ nl)
      end;
    page_loop page_count (page_num + 1) rest (all_text ++ nl)
  end.

Definition extract_images_from_pdf_and_analyze
    (pdf_file : UploadFile.t) : M (pystr * Z) :=
  try_except
    (await (UploadFile_read pdf_file);;
     let all_text : pystr := [] in
     pdf_document ← lift (UploadFile.fitz_open pdf_file);
     let page_count := Z.of_nat (length pdf_document) in
     if_task_id task_id (fun tid =>
       setitem_current_step tid
         (u "PDF 문서 로드 완료 (" ++ str_int page_count ++ u "페이지)");;
       setitem_progress tid 10);;
     pdf_pages ← lift (UploadFile.pdfplumber_open pdf_file);
     all_text ← page_loop page_count 1 (zip pdf_document pdf_pages) all_text;
     if_task_id task_id (fun tid =>
       setitem_current_step tid (u "PDF 분석 완료");;
       setitem_progress tid 90);;
     mret (strip all_text, page_count))
    (fun e =>
       if contains (str_exc e) (u "cancelled")
       then raise e
       else raise (HTTPException 400
                     (u "Failed to extract and analyze PDF: " ++ str_exc e))).

End Extract.

(** [processing_tasks[task_id].update({"status": "completed", "progress": 100,
      "current_step": "분석 완료", "result": result})]: the keys are assigned
    in this order. *)
Definition update_completed (task_id : pystr) (result : PDFAnalysisResponse.t)
    : M unit :=
  t ← getitem task_id;
  log (ProgressWrite task_id 100 (Task.status t) completed);;
  store task_id
    (Task.set_result (Some result)
       (Task.set_current_step (u "분석 완료")
          (Task.set_progress 100 (Task.set_status completed t)))).

(** [processing_tasks[task_id].update({"status": "failed", "progress": 0,
      "current_step": "분석 실패", "error": str(e)})] *)
Definition update_failed (task_id : pystr) (e : PyExc) : M unit :=
  t ← getitem task_id;
  log (ProgressWrite task_id 0 (Task.status t) failed);;
  store task_id
    (Task.set_error (Some (str_exc e))
       (Task.set_current_step (u "분석 실패")
          (Task.set_progress 0 (Task.set_status failed t)))).

Definition process_pdf_async (task_id : pystr) (file : UploadFile.t)
    (model : pystr) (custom_prompt : option pystr) : M unit :=
  try_except
    ('(text_content, page_count) ←
       extract_images_from_pdf_and_analyze model (Some task_id) file;
     st ← get_status task_id;
     if decide (st = Some cancelled) then mret ()
     else
       setitem_current_step task_id (u "AI 분석 중");;
       setitem_progress task_id 90;;
       analysis ← analyze_text_with_ollama text_content model custom_prompt;
       let result :=
         PDFAnalysisResponse.mk (UploadFile.filename file) text_content
           analysis model page_count (Some task_id) in
       update_completed task_id result)
    (fun e => update_failed task_id e).

(** [file.filename.lower().endswith('.pdf')] *)
Definition is_pdf (file : UploadFile.t) : bool :=
  endswith (lower (UploadFile.filename file)) (u ".pdf").

(** [POST /pdf/analyze-async]; [task_id] is the fresh [uuid4]. *)
Definition analyze_pdf_async (task_id : pystr) (file : UploadFile.t)
    (model : pystr) (custom_prompt : option pystr) : M pystr :=
  try_except
    (if is_pdf file then
       log (ProgressWrite task_id 0 processing processing);;
       store task_id
         (Task.mk task_id processing 0 (u "PDF 분석 시작") None None
            (UploadFile.filename file) model);;
       mret task_id
     else raise (HTTPException 400 (u "Only PDF files are allowed")))
    (fun e => raise (HTTPException 400 (str_exc e))).

(** The request and the background task it schedules
    ([background_tasks.add_task(process_pdf_async, ...)]), which runs once
    the response is sent. *)
Definition analyze_pdf_async_and_run (task_id : pystr) (file : UploadFile.t)
    (model : pystr) (custom_prompt : option pystr) : M unit :=
  analyze_pdf_async task_id file model custom_prompt;;
  process_pdf_async task_id file model custom_prompt.

(** [POST /pdf/analyze] *)
Definition analyze_pdf (file : UploadFile.t) (model : pystr)
    (custom_prompt : option pystr) : M PDFAnalysisResponse.t :=
  try_except
    (if is_pdf file then
       '(text_content, page_count) ←
         extract_images_from_pdf_and_analyze model None file;
       if decide (strip text_content = [])
       then raise (HTTPException 400 (u "No text could be extracted from the PDF"))
       else
         analysis ← analyze_text_with_ollama text_content model custom_prompt;
         mret (PDFAnalysisResponse.mk (UploadFile.filename file) text_content
                 analysis model page_count None)
     else raise (HTTPException 400 (u "Only PDF files are allowed")))
    (fun e => raise (HTTPException 400 (str_exc e))).

End Pipeline.

(* ================================================================= *)
(** ** Vocabulary of the properties *)

(** The page-boundary marker of page [page_num], as the text shows it. *)
Definition page_marker (page_num : Z) : pystr :=
  u "--- 페이지 " ++ str_int page_num ++ u " ---".

(** A decimal digit. *)
Definition is_digit (c : N) : bool := ((48 <=? c) && (c <=? 57))%N.

(** [s] without its prefix [p], when it starts with [p]. *)
Fixpoint after_prefix (p s : pystr) : option pystr :=
  match p, s with
  | [], _ => Some s
  | a :: p', b :: s' => if (a =? b)%N then after_prefix p' s' else None
  | _ :: _, [] => None
  end.

Fixpoint skip_digits (s : pystr) : pystr :=
  match s with
  | [] => []
  | c :: r => if is_digit c then skip_digits r else s
  end.

(** A page-boundary marker starts [s]: the opening, a page number of one or
    more digits, the closing. *)
Definition marker_here (s : pystr) : bool :=
  match after_prefix (u "--- 페이지 ") s with
  | Some (c :: r) => is_digit c && startswith (skip_digits r) (u " ---")
  | _ => false
  end.

(** The number of page-boundary markers that [s] shows. *)
Fixpoint count_markers (s : pystr) : nat :=
  match s with
  | [] => 0
  | c :: r => (if marker_here (c :: r) then 1 else 0) + count_markers r
  end.

(** [segs] occur in [s] one after the other, without overlap. *)
Inductive in_order : list pystr -> pystr -> Prop :=
| in_order_nil (s : pystr) : in_order [] s
| in_order_cons (seg : pystr) (segs : list pystr) (pre rest : pystr) :
    in_order segs rest -> in_order (seg :: segs) (pre ++ seg ++ rest).

(** A segment that [strip] cannot shorten: it starts and ends with a code
    point that is not white space. *)
Definition solid (seg : pystr) : Prop :=
  (exists c r, seg = c :: r /\ is_space c = false)
  /\ (exists r c, seg = r ++ [c] /\ is_space c = false).

(** [t'] is [t] up to ["progress"] and ["current_step"]. *)
Definition same_but_progress_and_step (t t' : Task.t) : Prop :=
  Task.task_id t' = Task.task_id t /\ Task.status t' = Task.status t
  /\ Task.result t' = Task.result t /\ Task.error t' = Task.error t
  /\ Task.filename t' = Task.filename t /\ Task.model t' = Task.model t.

(** [t'] is [t] up to ["status"] and ["current_step"]. *)
Definition same_but_status_and_step (t t' : Task.t) : Prop :=
  Task.task_id t' = Task.task_id t /\ Task.progress t' = Task.progress t
  /\ Task.result t' = Task.result t /\ Task.error t' = Task.error t
  /\ Task.filename t' = Task.filename t /\ Task.model t' = Task.model t.

(** The values written to ["progress"] of [task_id] while its status was
    ["processing"], oldest first. *)
Fixpoint processing_values (task_id : pystr) (tr : list Event) : list Z :=
  match tr with
  | [] => []
  | ProgressWrite tid value _ processing :: rest =>
    if decide (tid = task_id) then value :: processing_values task_id rest
    else processing_values task_id rest
  | _ :: rest => processing_values task_id rest
  end.

Definition processing_writes (task_id : pystr) (tr : list Event) : list Z :=
  rev (processing_values task_id tr).

(** The statuses a task had when a statement wrote its ["progress"]. *)
Fixpoint statuses_at_progress_writes (task_id : pystr) (tr : list Event) : list Status :=
  match tr with
  | [] => []
  | ProgressWrite tid _ status_before _ :: rest =>
    if decide (tid = task_id)
    then status_before :: statuses_at_progress_writes task_id rest
    else statuses_at_progress_writes task_id rest
  | _ :: rest => statuses_at_progress_writes task_id rest
  end.

(** No page but the last one carries an image. *)
Fixpoint images_only_on_last_page (pages : list FitzPage) : Prop :=
  match pages with
  | [] => True
  | [_] => True
  | page :: rest =>
    (forall image_list, get_images page = Return image_list -> image_list = [])
    /\ images_only_on_last_page rest
  end.

(** The requests served at the next suspension. *)
Definition next_requests (w : World) : list Request := hd [] (inbox w).

Definition request_task_id (r : Request) : pystr :=
  match r with
  | POST_cancel task_id => task_id
  | DELETE_task task_id => task_id
  end.

(** No request that is served during the run names [task_id]. *)
Definition undisturbed (task_id : pystr) (w : World) : Prop :=
  Forall (Forall (fun r => request_task_id r <> task_id)) (inbox w).

(** The request [analyze_text_with_ollama] sends. *)
Definition summary_request (text model_name : pystr) (prompt : option pystr)
    : GenerateRequest.t :=
  GenerateRequest.mk model_name
    (match prompt with
     | Some (c :: p) => c :: p
     | _ => summary_prompt text
     end) [].

(** The request [analyze_image_with_ollama] sends. *)
Definition image_request (image_base64 model : pystr) : GenerateRequest.t :=
  GenerateRequest.mk model image_prompt [image_base64].

(** *** What a page contributes to the text *)

(** The text and the tables of a page, as the loop appends them. *)
Definition page_body (page_text : option pystr) (tables : list Table) : pystr :=
  (if truthy page_text then default [] page_text ++ nl else [])
    ++ tables_text 1 tables.

(** An image the pipeline sends to the model: its pixmap can be read, has
    fewer than four colour components and can be encoded. *)
Definition describable (img : Image) : option pystr :=
  match pixmap img with
  | Return pix =>
    if decide (Pixmap.n pix - Pixmap.alpha pix < 4)%Z
    then match Pixmap.png_base64 pix with
         | Return image_base64 => Some image_base64
         | Raise _ => None
         end
    else None
  | Raise _ => None
  end.

(** An image with four or more colour components (CMYK). *)
Definition four_or_more_components (img : Image) : Prop :=
  exists pix, pixmap img = Return pix /\ (4 <= Pixmap.n pix - Pixmap.alpha pix)%Z.

Section Rendering.

Variable ollama_generate : nat -> GenerateRequest.t -> Outcome pystr.
Variable model : pystr.

(** The section of one image, given the number [k] of requests sent
    before it; and the number of requests after it. *)
Definition image_section (k : nat) (img_index : Z) (img : Image) : pystr * nat :=
  let failed e :=
    u "이미지 " ++ str_int (img_index + 1) ++ u ": 분석 실패 - " ++ str_exc e ++ nl in
  match pixmap img with
  | Raise e => (failed e, k)
  | Return pix =>
    if decide (Pixmap.n pix - Pixmap.alpha pix < 4)%Z
    then match Pixmap.png_base64 pix with
         | Raise e => (failed e, k)
         | Return image_base64 =>
           (u "이미지 " ++ str_int (img_index + 1) ++ u " 분석:" ++ nl
              ++ match ollama_generate k (image_request image_base64 model) with
                 | Return response => response
                 | Raise e => u "이미지 분석 실패: " ++ str_exc e
                 end ++ nl ++ nl,
            S k)
         end
    else ([], k)
  end.

Fixpoint image_sections (k : nat) (img_index : Z) (image_list : list Image)
    : pystr * nat :=
  match image_list with
  | [] => ([], k)
  | img :: rest =>
    let '(s, k1) := image_section k img_index img in
    let '(ss, k2) := image_sections k1 (img_index + 1) rest in
    (s ++ ss, k2)
  end.

(** A parsed page: what the two libraries returned for it. *)
Record ParsedPage : Type := {
  page_text : option pystr;
  tables : list Table;
  image_list : list Image
}.

Definition parsed_as (page : FitzPage * PlumberPage) (pp : ParsedPage) : Prop :=
  extract_text page.2 = Return (page_text pp)
  /\ extract_tables page.2 = Return (tables pp)
  /\ get_images page.1 = Return (image_list pp).

Definition page_section (k : nat) (page_num : Z) (pp : ParsedPage) : pystr * nat :=
  let head := page_marker page_num ++ nl ++ page_body (page_text pp) (tables pp) in
  match image_list pp with
  | [] => (head ++ nl, k)
  | _ :: _ =>
    let '(ss, k') := image_sections k 0 (image_list pp) in
    (head ++ (nl ++ u "[이미지 " ++ str_int (Z.of_nat (length (image_list pp)))
                ++ u "개 분석 결과]" ++ nl) ++ ss ++ nl, k')
  end.

Fixpoint page_sections (k : nat) (page_num : Z) (pages : list ParsedPage)
    : pystr * nat :=
  match pages with
  | [] => ([], k)
  | pp :: rest =>
    let '(s, k1) := page_section k page_num pp in
    let '(ss, k2) := page_sections k1 (page_num + 1) rest in
    (s ++ ss, k2)
  end.

End Rendering.

(** The note that stands for an image the model failed on, up to the error
    text, and the note of an image that could not be read. *)
Definition model_failure_note (img_index : Z) : pystr :=
  u "이미지 " ++ str_int (img_index + 1) ++ u " 분석:" ++ nl ++ u "이미지 분석 실패:".

Definition read_failure_note (img_index : Z) : pystr :=
  u "이미지 " ++ str_int (img_index + 1) ++ u ": 분석 실패 -".

(** The failure notes of the images of a page, when the model fails on every
    image: none for an image of four or more colour components. *)
Fixpoint failure_notes (img_index : Z) (image_list : list Image) : list pystr :=
  match image_list with
  | [] => []
  | img :: rest =>
    match pixmap img with
    | Raise _ => [read_failure_note img_index]
    | Return pix =>
      if decide (Pixmap.n pix - Pixmap.alpha pix < 4)%Z
      then match Pixmap.png_base64 pix with
           | Raise _ => [read_failure_note img_index]
           | Return _ => [model_failure_note img_index]
           end
      else []
    end ++ failure_notes (img_index + 1) rest
  end.

(** [1; 2; ...; n] as page numbers, starting from [page_num]. *)
Fixpoint page_numbers (page_num : Z) (n : nat) : list Z :=
  match n with
  | O => []
  | S n' => page_num :: page_numbers (page_num + 1) n'
  end.

(** *** Invariants of a run *)

(** [m] keeps the invariant [I] of the world, whatever its outcome. *)
Definition preserves {A : Type} (I : World -> Prop) (m : M A) : Prop :=
  forall w, I w -> I (m w).2.

(** The steps of the pipeline that touch the world. *)
Record step_invariant (ollama_generate : nat -> GenerateRequest.t -> Outcome pystr)
    (task_id : option pystr) (I : World -> Prop) : Prop := {
  inv_progress : forall tid value,
    task_id = Some tid -> preserves I (setitem_progress tid value);
  inv_current_step : forall tid step,
    task_id = Some tid -> preserves I (setitem_current_step tid step);
  inv_await : preserves I await_point;
  inv_generate : forall req, preserves I (generate ollama_generate req)
}.

(** Every entry of [task_id], if there is one, satisfies [phi]. *)
Definition task_invariant (task_id : pystr) (phi : Task.t -> Prop) (w : World) : Prop :=
  forall t, processing_tasks w !! task_id = Some t -> phi t.

(** [phi] survives the writes of the pipeline's reports and of a cancel
    request. *)
Definition stable (phi : Task.t -> Prop) : Prop :=
  forall t, phi t ->
    (forall value, phi (Task.set_progress value t))
    /\ (forall step, phi (Task.set_current_step step t))
    /\ phi (Task.set_status cancelled t).

(** The values written while processing never went down, and none exceeds
    [bound].  [processing_values] lists the newest value first. *)
Definition ascending_up_to (task_id : pystr) (bound : Z) (w : World) : Prop :=
  StronglySorted Z.ge (processing_values task_id (trace w))
  /\ Forall (fun v => (v <= bound)%Z) (processing_values task_id (trace w)).

(** [m] takes a world whose values are bounded by [b] to one whose values are
    bounded by [b'], whatever its outcome. *)
Definition climbs {A : Type} (task_id : pystr) (b b' : Z) (m : M A) : Prop :=
  forall w, ascending_up_to task_id b w -> ascending_up_to task_id b' (m w).2.

(** During the extraction a task is processing or cancelled, and so it was
    at every write of its progress. *)
Definition unfinished (s : Status) : Prop := s = processing \/ s = cancelled.

Definition written_while_unfinished (task_id : pystr) (w : World) : Prop :=
  Forall unfinished (statuses_at_progress_writes task_id (trace w)).

Definition running_unfinished (task_id : pystr) (w : World) : Prop :=
  task_invariant task_id (fun t => unfinished (Task.status t)) w
  /\ written_while_unfinished task_id w.

(** Pre- and postcondition of a coroutine; the postcondition sees the outcome. *)
Definition hoare {A : Type} (P : World -> Prop) (m : M A)
    (Q : Outcome A -> World -> Prop) : Prop :=
  forall w, P w -> Q (m w).1 (m w).2.

(** *** Runs that nobody disturbs *)

(** [m] returns [a] from every world that satisfies [P], and leaves a world
    that satisfies [Q]. *)
Definition returns {A : Type} (P : World -> Prop) (m : M A) (a : A)
    (Q : World -> Prop) : Prop :=
  forall w, P w -> exists w', m w = (Return a, w') /\ Q w'.

(** [k] requests were sent to the model, and the running task, if the run has
    one, is processing and named by no pending request. *)
Definition calm (running : option pystr) (k : nat) (w : World) : Prop :=
  generate_count (trace w) = k
  /\ forall c s, running = Some (c :: s) ->
       (exists t, processing_tasks w !! (c :: s) = Some t /\ Task.status t = processing)
       /\ undisturbed (c :: s) w.

(** The text of pages without images: each page is its marker, its text and
    its tables. *)
Fixpoint plain_pages (page_num : Z) (pages : list ParsedPage) : pystr :=
  match pages with
  | [] => []
  | pp :: rest =>
    (page_marker page_num ++ nl ++ page_body (page_text pp) (tables pp) ++ nl)
      ++ plain_pages (page_num + 1) rest
  end.

Definition all_failure_notes (pages : list ParsedPage) : list pystr :=
  concat (map (fun pp => failure_notes 0 (image_list pp)) pages).

(** *** Frames *)

(** [w'] differs from [w] in the entry of [task_id] and in the trace only. *)
Definition own_write (task_id : pystr) (w w' : World) : Prop :=
  inbox w' = inbox w
  /\ forall other, other <> task_id ->
       processing_tasks w' !! other = processing_tasks w !! other.

(** The entry of a task that no request names is out of reach of another
    task's pipeline. *)
Definition untouched (task_id : pystr) (entry : option Task.t) (w : World) : Prop :=
  processing_tasks w !! task_id = entry /\ undisturbed task_id w.

(* ================================================================= *)
(** ** Sample inputs *)

Module Sample.

Definition task_id : pystr := u "8f14e45f".
Definition model : pystr := u "gemma3:4b".

(** A registry holding one task in the given status. *)
Definition task (s : Status) : Task.t :=
  Task.mk task_id s 0 (u "PDF 분석 시작") None None (u "report.pdf") model.

Definition world (s : Status) : World :=
  mkWorld {[ task_id := task s ]} [] [].

(** An empty registry with a schedule of requests. *)
Definition idle (schedule : list (list Request)) : World :=
  mkWorld ∅ [] schedule.

(** An RGB image, a CMYK image, and an image that cannot be read. *)
Definition rgb : Image :=
  {| xref := 7; pixmap := Return (Pixmap.mk 3 0 (Return (u "iVBORw0KGgo="))) |}.
Definition cmyk : Image :=
  {| xref := 8; pixmap := Return (Pixmap.mk 4 0 (Return (u "iVBORw0KGgo="))) |}.
Definition broken : Image :=
  {| xref := 9; pixmap := Raise (Exception (u "bad xref")) |}.

Definition parsed (text : string) (imgs : list Image) : ParsedPage :=
  {| page_text := Some (u text); tables := []; image_list := imgs |}.

Definition fitz_page (pp : ParsedPage) : FitzPage :=
  {| get_images := Return (image_list pp) |}.
Definition plumber_page (pp : ParsedPage) : PlumberPage :=
  {| extract_text := Return (page_text pp); extract_tables := Return (tables pp) |}.

Definition upload (pages : list ParsedPage) : UploadFile.t :=
  UploadFile.mk (u "report.pdf")
    (Return (map fitz_page pages)) (Return (map plumber_page pages)).

(** A model that answers every request. *)
Definition answers : nat -> GenerateRequest.t -> Outcome pystr :=
  fun k _ => Return (u "answer " ++ str_int (Z.of_nat k)).

(** A model that fails on images and answers text. *)
Definition fails_on_images : nat -> GenerateRequest.t -> Outcome pystr :=
  fun k req =>
    match GenerateRequest.images req with
    | [] => Return (u "summary")
    | _ :: _ => Raise (Exception (u "connection refused"))
    end.

(** A model that fails on every request. *)
Definition fails : nat -> GenerateRequest.t -> Outcome pystr :=
  fun _ _ => Raise (Exception (u "connection refused")).

Definition one_page : UploadFile.t := upload [parsed "alpha" []].
Definition three_pages : UploadFile.t :=
  upload [parsed "alpha" []; parsed "beta" []; parsed "gamma" []].
(** Two pages, the first with one image. *)
Definition image_on_first_page : UploadFile.t :=
  upload [parsed "alpha" [rgb]; parsed "beta" []].
Definition image_on_last_page : UploadFile.t :=
  upload [parsed "alpha" []; parsed "beta" [rgb; rgb]].
Definition cmyk_page : UploadFile.t := upload [parsed "alpha" [cmyk]].
Definition mixed_page : UploadFile.t := upload [parsed "alpha" [rgb; cmyk; broken]].

(** The task of one upload, from the request to the end of the job. *)
Definition run (ollama_generate : nat -> GenerateRequest.t -> Outcome pystr)
    (file : UploadFile.t) (schedule : list (list Request)) : World :=
  (analyze_pdf_async_and_run ollama_generate task_id file model None
     (idle schedule)).2.

End Sample.

(* ================================================================= *)
(** ** The other endpoints of [main.py] *)

(** [GET /tasks]: [list(processing_tasks.values())].  The registry is a
    finite map here, so the listing comes in the order of the map and not in
    the order of insertion; what is proved of it does not depend on the
    order. *)
Definition get_all_tasks : M (list Task.t) := fun w =>
  (Return ((map_to_list (processing_tasks w)).*2), w).

(** *** Text extraction with PyMuPDF alone *)

(** A page of [fitz.open(...)] of which only [page.get_text()] is used. *)
Record FitzTextPage : Type := {
  get_text : Outcome pystr
}.

(** [for page_num in range(page_count): ...], from [page_num] on. *)
Fixpoint text_loop (page_num : Z) (pages : list FitzTextPage) (text : pystr) : M pystr :=
  match pages with
  | [] => mret text
  | page :: rest =>
    page_text ← lift (get_text page);
    text_loop (page_num + 1) rest
      (text ++ u "--- 페이지 " ++ str_int (page_num + 1) ++ u " ---" ++ nl
         ++ page_text ++ nl ++ nl)
  end.

(** [extract_text_from_pdf_with_pymupdf_from_path]; [fitz_open] is what
    [fitz.open(file_path)] does. *)
Definition extract_text_from_pdf_with_pymupdf_from_path
    (fitz_open : Outcome (list FitzTextPage)) : M (pystr * Z) :=
  try_except
    (pdf_document ← lift fitz_open;
     let text : pystr := [] in
     let page_count := Z.of_nat (length pdf_document) in
     text ← text_loop 0 pdf_document text;
     mret (strip text, page_count))
    (fun e =>
       raise (HTTPException 400 (u "Failed to extract text from PDF: " ++ str_exc e))).

(** [extract_text_from_pdf_with_pymupdf]; [fitz_open] is what
    [fitz.open(stream=content, filetype="pdf")] does for the upload. *)
Definition extract_text_from_pdf_with_pymupdf
    (fitz_open : Outcome (list FitzTextPage)) : M (pystr * Z) :=
  try_except
    (await (mret ());;
     pdf_document ← lift fitz_open;
     let text : pystr := [] in
     let page_count := Z.of_nat (length pdf_document) in
     text ← text_loop 0 pdf_document text;
     mret (strip text, page_count))
    (fun e =>
       raise (HTTPException 400 (u "Failed to extract text from PDF: " ++ str_exc e))).

(** *** The item endpoints *)

Module Item.
(** The fields of [Item]; [item.dict()] has the same four keys. *)
Record t : Type := mk {
  id : option Z;
  name : pystr;
  description : option pystr;
  price : Q
}.

(** [item_dict["id"] = v] *)
Definition set_id (v : option Z) (x : t) : t :=
  mk v (name x) (description x) (price x).
End Item.

(** What an item endpoint returns: an item, the report of a deletion, or
    the dictionary [{"error": "Item not found"}]. *)
Inductive ItemReply : Type :=
| ItemDict (item : Item.t)
| ItemDeleted (message : pystr) (item : Item.t)
| ItemNotFound.

(** [GET /items] *)
Definition get_items (items_db : list Item.t) : list Item.t := items_db.

(** [GET /items/{item_id}] *)
Fixpoint get_item (item_id : Z) (items_db : list Item.t) : ItemReply :=
  match items_db with
  | [] => ItemNotFound
  | item :: rest =>
    if decide (Item.id item = Some item_id) then ItemDict item
    else get_item item_id rest
  end.

(** [POST /items]: the reply and the list after the [append]. *)
Definition create_item (item : Item.t) (items_db : list Item.t)
    : ItemReply * list Item.t :=
  let item_dict := Item.set_id (Some (Z.of_nat (length items_db) + 1)%Z) item in
  (ItemDict item_dict, items_db ++ [item_dict]).

(** [PUT /items/{item_id}] *)
Fixpoint update_item (item_id : Z) (item : Item.t) (items_db : list Item.t)
    : ItemReply * list Item.t :=
  match items_db with
  | [] => (ItemNotFound, [])
  | existing_item :: rest =>
    if decide (Item.id existing_item = Some item_id) then
      let item_dict := Item.set_id (Some item_id) item in
      (ItemDict item_dict, item_dict :: rest)
    else
      let '(reply, rest') := update_item item_id item rest in
      (reply, existing_item :: rest')
  end.

(** [DELETE /items/{item_id}] *)
Fixpoint delete_item (item_id : Z) (items_db : list Item.t)
    : ItemReply * list Item.t :=
  match items_db with
  | [] => (ItemNotFound, [])
  | item :: rest =>
    if decide (Item.id item = Some item_id) then
      (ItemDeleted (u "Item " ++ str_int item_id ++ u " deleted") item, rest)
    else
      let '(reply, rest') := delete_item item_id rest in
      (reply, item :: rest')
  end.

(** The list after one [POST /items] for each of [items]. *)
Fixpoint create_items (items : list Item.t) (items_db : list Item.t) : list Item.t :=
  match items with
  | [] => items_db
  | item :: rest => create_items rest (create_item item items_db).2
  end.

(** [items] as they are stored when the list holds [n] items before them:
    with the ids [n + 1], [n + 2], ... *)
Fixpoint numbered_from (n : nat) (items : list Item.t) : list Item.t :=
  match items with
  | [] => []
  | item :: rest =>
    Item.set_id (Some (Z.of_nat n + 1)%Z) item :: numbered_from (S n) rest
  end.

(* ================================================================= *)
(** ** Vocabulary of the further properties *)

(** The task has no entry in the registry. *)
Definition absent (task_id : pystr) (w : World) : Prop :=
  processing_tasks w !! task_id = None.

(** Every value written to a ["progress"], of whatever task. *)
Fixpoint values_written (tr : list Event) : list Z :=
  match tr with
  | [] => []
  | ProgressWrite _ value _ _ :: rest => value :: values_written rest
  | Generate _ :: rest => values_written rest
  end.

Definition percent (v : Z) : Prop := (0 <= v <= 100)%Z.

Definition within_percent (w : World) : Prop :=
  Forall percent (values_written (trace w)).

(** The requests sent to the model, oldest first. *)
Fixpoint requests_sent (tr : list Event) : list GenerateRequest.t :=
  match tr with
  | [] => []
  | Generate req :: rest => requests_sent rest ++ [req]
  | ProgressWrite _ _ _ _ :: rest => requests_sent rest
  end.

(** The trace of [w'] is the trace of [w] and requests to the model on top. *)
Definition only_requests_since (w w' : World) : Prop :=
  exists reqs, trace w' = map Generate reqs ++ trace w.

(** A request of a job: the description of one image, or the summary of a
    text. *)
Definition job_request (model : pystr) (custom_prompt : option pystr)
    (req : GenerateRequest.t) : Prop :=
  (exists image_base64, req = image_request image_base64 model)
  \/ (exists text, req = summary_request text model custom_prompt).

(** The requests sent since [w] are requests of a job. *)
Definition only_job_requests_since (model : pystr) (custom_prompt : option pystr)
    (w w' : World) : Prop :=
  exists reqs,
    requests_sent (trace w') = requests_sent (trace w) ++ reqs
    /\ Forall (job_request model custom_prompt) reqs.

(** The payloads of the images of a document that are sent to the model, in
    the order of the document. *)
Definition described_images (pages : list ParsedPage) : list pystr :=
  omap describable (concat (map image_list pages)).

(** A response of the synchronous endpoint and the result the background job
    stores are the same analysis: they differ in [task_id] only. *)
Definition same_analysis (r r' : PDFAnalysisResponse.t) : Prop :=
  PDFAnalysisResponse.filename r = PDFAnalysisResponse.filename r'
  /\ PDFAnalysisResponse.text_content r = PDFAnalysisResponse.text_content r'
  /\ PDFAnalysisResponse.analysis r = PDFAnalysisResponse.analysis r'
  /\ PDFAnalysisResponse.model_used r = PDFAnalysisResponse.model_used r'
  /\ PDFAnalysisResponse.page_count r = PDFAnalysisResponse.page_count r'.

(** A task between its registration and the end of its job: it is the task
    of this upload and has neither a result nor an error. *)
Definition pending (task_id : pystr) (file : UploadFile.t) (model : pystr)
    (t : Task.t) : Prop :=
  Task.task_id t = task_id /\ Task.filename t = UploadFile.filename file
  /\ Task.model t = model
  /\ Task.result t = None /\ Task.error t = None.

(** A task as its job leaves it: completed with a result, failed with an
    error, or cancelled with neither. *)
Definition settled (task_id : pystr) (file : UploadFile.t) (model : pystr)
    (t : Task.t) : Prop :=
  Task.task_id t = task_id /\ Task.filename t = UploadFile.filename file
  /\ Task.model t = model
  /\ ((Task.status t = completed /\ Task.progress t = 100%Z /\ Task.error t = None
       /\ exists result,
            Task.result t = Some result
            /\ PDFAnalysisResponse.task_id result = Some task_id
            /\ PDFAnalysisResponse.filename result = UploadFile.filename file
            /\ PDFAnalysisResponse.model_used result = model)
      \/ (Task.status t = failed /\ Task.progress t = 0%Z /\ Task.result t = None
          /\ exists message, Task.error t = Some message)
      \/ (Task.status t = cancelled /\ Task.result t = None /\ Task.error t = None)).

(** A text without white space at either end. *)
Definition trimmed (s : pystr) : Prop := s = [] \/ solid s.

(* ================================================================= *)
(** * Properties *)

(** ** Rounding to binary64 is monotone *)

Module FloatFacts.
Import Float.
Local Open Scope Q_scope.

Ltac Qcompare_prop H :=
  first [apply <- Qeq_alt in H | apply <- Qlt_alt in H | apply <- Qgt_alt in H].

Lemma round_half_even_bounds x :
  (Qfloor x <= round_half_even x <= Qfloor x + 1)%Z.
Proof.
  unfold round_half_even.
  destruct (Qcompare _ _); [destruct (Z.even _) | |]; lia.
Qed.

Lemma round_half_even_mono x y : x <= y -> (round_half_even x <= round_half_even y)%Z.
Proof.
  intros Hxy.
  pose proof (Qfloor_resp_le _ _ Hxy) as Hf.
  destruct (Z.eq_dec (Qfloor x) (Qfloor y)) as [E | NE].
  - unfold round_half_even. rewrite <- E.
    destruct (Qcompare (x - inject_Z (Qfloor x)) (1 # 2)) eqn:Cx;
      destruct (Qcompare (y - inject_Z (Qfloor x)) (1 # 2)) eqn:Cy;
      try (destruct (Z.even (Qfloor x))); try lia;
      Qcompare_prop Cx; Qcompare_prop Cy; exfalso; lra.
  - pose proof (round_half_even_bounds x). pose proof (round_half_even_bounds y). lia.
Qed.

Lemma round_half_even_Z (k : Z) : round_half_even (inject_Z k) = k.
Proof.
  unfold round_half_even. rewrite Qfloor_Z.
  destruct (Qcompare _ _) eqn:C; auto; Qcompare_prop C; exfalso; lra.
Qed.

Lemma two_pow_pos (e : Z) : 0 < 2 ^ e.
Proof. apply Qpower_0_lt. reflexivity. Qed.

Lemma two_pow_succ (e : Z) : 2 ^ (e + 1) == 2 * 2 ^ e.
Proof. rewrite Qpower_plus by discriminate. simpl (2 ^ 1). ring. Qed.

Lemma two_pow_le (a b : Z) : (a <= b)%Z -> 2 ^ a <= 2 ^ b.
Proof. intros. apply Qpower_le_compat_l; [assumption | discriminate]. Qed.

Lemma two_pow_lt_inv (a b : Z) : 2 ^ a < 2 ^ b -> (a < b)%Z.
Proof. intros H. apply (Qpower_lt_compat_l_inv 2); [assumption | reflexivity]. Qed.

Lemma Qlog2_floor_spec (q : Q) :
  0 < q -> 2 ^ Qlog2_floor q <= q /\ q < 2 ^ (Qlog2_floor q + 1).
Proof.
  intros Hq. destruct q as [n d]. unfold Qlog2_floor. cbn [Qnum Qden].
  assert (Hn : (0 < n)%Z) by (unfold Qlt in Hq; cbn in Hq; lia).
  pose proof (Z.log2_spec n Hn) as [Ha1 Ha2].
  pose proof (Z.log2_spec (Zpos d) eq_refl) as [Hb1 Hb2].
  pose proof (Z.log2_nonneg n) as Ha0.
  pose proof (Z.log2_nonneg (Zpos d)) as Hb0.
  set (a := Z.log2 n) in *. set (b := Z.log2 (Zpos d)) in *.
  assert (HA : inject_Z (2 ^ a) == 2 ^ a) by (apply Zpower_Qpower; lia).
  assert (HB : inject_Z (2 ^ b) == 2 ^ b) by (apply Zpower_Qpower; lia).
  assert (HA1 : 2 ^ a <= inject_Z n) by (rewrite <- HA; rewrite <- Zle_Qle; lia).
  assert (HA2 : inject_Z n < 2 * 2 ^ a).
  { rewrite <- HA. change 2 with (inject_Z 2) at 1. rewrite <- inject_Z_mult, <- Zlt_Qlt.
    rewrite Z.pow_succ_r in Ha2 by lia. lia. }
  assert (HB1 : 2 ^ b <= inject_Z (Zpos d)) by (rewrite <- HB; rewrite <- Zle_Qle; lia).
  assert (HB2 : inject_Z (Zpos d) < 2 * 2 ^ b).
  { rewrite <- HB. change 2 with (inject_Z 2) at 1. rewrite <- inject_Z_mult, <- Zlt_Qlt.
    rewrite Z.pow_succ_r in Hb2 by lia. lia. }
  assert (Hq' : (n # d) * inject_Z (Zpos d) == inject_Z n).
  { rewrite (Qmake_Qdiv n d). field. discriminate. }
  assert (HL : 2 ^ (a - b) * 2 ^ b == 2 ^ a).
  { rewrite <- Qpower_plus by discriminate. replace (a - b + b)%Z with a by lia. reflexivity. }
  pose proof (two_pow_pos a). pose proof (two_pow_pos b). pose proof (two_pow_pos (a - b)).
  destruct (Qle_bool (2 ^ (a - b)) (n # d)) eqn:C.
  - apply Qle_bool_iff in C. split; [assumption |].
    rewrite two_pow_succ. nra.
  - assert (C' : (n # d) < 2 ^ (a - b)).
    { apply Qnot_le_lt. intros H'. apply Qle_bool_iff in H'. congruence. }
    replace (a - b - 1 + 1)%Z with (a - b)%Z by lia. split; [| assumption].
    assert (E : 2 ^ (a - b) == 2 * 2 ^ (a - b - 1)).
    { rewrite <- two_pow_succ. replace (a - b - 1 + 1)%Z with (a - b)%Z by lia. reflexivity. }
    pose proof (two_pow_pos (a - b - 1)).
    nra.
Qed.

Lemma Qlog2_floor_mono (x y : Q) : 0 < x -> x <= y -> (Qlog2_floor x <= Qlog2_floor y)%Z.
Proof.
  intros Hx Hxy.
  destruct (Qlog2_floor_spec x Hx) as [Hx1 _].
  destruct (Qlog2_floor_spec y) as [_ Hy2]; [lra |].
  assert (H : 2 ^ Qlog2_floor x < 2 ^ (Qlog2_floor y + 1)) by lra.
  apply two_pow_lt_inv in H. lia.
Qed.

Lemma binade_mono (x y : Q) : 0 < x -> x <= y -> (binade x <= binade y)%Z.
Proof. intros Hx Hxy. pose proof (Qlog2_floor_mono x y Hx Hxy). unfold binade. lia. Qed.

Lemma binade_upper (x : Q) : 0 < x -> x < 2 ^ (binade x + 53).
Proof.
  intros Hx. destruct (Qlog2_floor_spec x Hx) as [_ H].
  eapply Qlt_le_trans; [exact H |]. apply two_pow_le. unfold binade. lia.
Qed.

Lemma binade_lower (x : Q) : 0 < x -> (-1074 < binade x)%Z -> 2 ^ (binade x + 52) <= x.
Proof.
  intros Hx Hb. destruct (Qlog2_floor_spec x Hx) as [H _].
  replace (binade x + 52)%Z with (Qlog2_floor x); [exact H |]. unfold binade in *. lia.
Qed.

Lemma scale_two_pow (a e : Z) : 2 ^ (a + e) / 2 ^ e == 2 ^ a.
Proof.
  rewrite Qpower_plus by discriminate. field.
  pose proof (two_pow_pos e). lra.
Qed.

Lemma two_pow_inject (a : Z) : (0 <= a)%Z -> 2 ^ a == inject_Z (2 ^ a).
Proof. intros. symmetry. apply Zpower_Qpower. assumption. Qed.

Lemma Qdiv_le_pos (x y c : Q) : 0 < c -> x <= y -> x / c <= y / c.
Proof.
  intros Hc Hxy. unfold Qdiv. apply Qmult_le_compat_r; [assumption |].
  apply Qlt_le_weak, Qinv_lt_0_compat, Hc.
Qed.

Lemma rnd64_pos_mono (x y : Q) : 0 < x -> x <= y -> rnd64_pos x <= rnd64_pos y.
Proof.
  intros Hx Hxy. assert (Hy : 0 < y) by lra.
  pose proof (binade_mono x y Hx Hxy) as He.
  unfold rnd64_pos.
  pose proof (two_pow_pos (binade x)) as Px. pose proof (two_pow_pos (binade y)) as Py.
  destruct (Z.eq_dec (binade x) (binade y)) as [E | NE].
  - rewrite E. apply Qmult_le_compat_r; [| lra].
    rewrite <- Zle_Qle. apply round_half_even_mono, Qdiv_le_pos; assumption.
  - assert (Hlt : (binade x < binade y)%Z) by lia.
    apply Qle_trans with (2 ^ (binade x + 53)).
    + rewrite (Qpower_plus 2 (binade x) 53) by discriminate.
      rewrite (Qmult_comm (2 ^ binade x)).
      apply Qmult_le_compat_r; [| lra].
      rewrite (two_pow_inject 53) by lia. rewrite <- Zle_Qle.
      rewrite <- (round_half_even_Z (2 ^ 53)) at 1.
      apply round_half_even_mono.
      rewrite <- two_pow_inject by lia. rewrite <- (scale_two_pow 53 (binade x)).
      apply Qdiv_le_pos; [assumption |].
      rewrite Z.add_comm. apply Qlt_le_weak, binade_upper, Hx.
    + apply Qle_trans with (2 ^ (binade y + 52)); [apply two_pow_le; lia |].
      rewrite (Qpower_plus 2 (binade y) 52) by discriminate.
      rewrite (Qmult_comm (2 ^ binade y)).
      apply Qmult_le_compat_r; [| lra].
      rewrite (two_pow_inject 52) by lia. rewrite <- Zle_Qle.
      rewrite <- (round_half_even_Z (2 ^ 52)) at 1.
      apply round_half_even_mono.
      rewrite <- two_pow_inject by lia. rewrite <- (scale_two_pow 52 (binade y)).
      apply Qdiv_le_pos; [assumption |].
      rewrite Z.add_comm. apply binade_lower; [assumption |].
      pose proof (Z.le_max_r (Qlog2_floor x - 52) (-1074)). unfold binade in *. lia.
Qed.

Lemma rnd64_pos_nonneg (x : Q) : 0 <= x -> 0 <= rnd64_pos x.
Proof.
  intros Hx. unfold rnd64_pos. pose proof (two_pow_pos (binade x)) as P.
  apply Qmult_le_0_compat; [| lra].
  change 0 with (inject_Z 0). rewrite <- Zle_Qle.
  rewrite <- (round_half_even_Z 0). apply round_half_even_mono.
  change (inject_Z 0) with 0. apply Qle_shift_div_l; [assumption | lra].
Qed.

Lemma Qnum_sign (x : Q) : (0 < x <-> (0 < Qnum x)%Z) /\ (x == 0 <-> Qnum x = 0%Z).
Proof.
  destruct x as [n d]. unfold Qlt, Qeq. cbn. split; split; lia.
Qed.

Lemma Qnum_neg (x : Q) p : Qnum x = Zneg p -> x < 0.
Proof. destruct x as [n d]. cbn. intros ->. reflexivity. Qed.

(** Rounding is monotone on the non-negative rationals. *)
Lemma rnd64_mono (x y : Q) : 0 <= x -> x <= y -> rnd64 x <= rnd64 y.
Proof.
  intros Hx Hxy. unfold rnd64.
  destruct (Qnum_sign x) as [Sx Zx]. destruct (Qnum_sign y) as [Sy Zy].
  destruct (Qnum x) eqn:Ex.
  - destruct (Qnum y) eqn:Ey; [lra | apply rnd64_pos_nonneg; lra |].
    apply Qnum_neg in Ey. lra.
  - assert (Px : 0 < x) by (apply Sx; lia).
    destruct (Qnum y) eqn:Ey.
    + assert (y == 0) by (apply Zy; reflexivity). lra.
    + apply rnd64_pos_mono; assumption.
    + apply Qnum_neg in Ey. lra.
  - apply Qnum_neg in Ex. lra.
Qed.

Lemma rnd64_nonneg (x : Q) : 0 <= x -> 0 <= rnd64 x.
Proof. intros H. change 0 with (rnd64 0) at 1. apply rnd64_mono; [lra | assumption]. Qed.

Lemma rnd64_Qeq (x y : Q) : 0 <= x -> x == y -> rnd64 x == rnd64 y.
Proof.
  intros Hx E. apply Qle_antisym; apply rnd64_mono; lra.
Qed.

(** *** Truncation *)

Lemma to_int_floor (x : Q) : 0 <= x -> to_int x = Qfloor x.
Proof.
  destruct x as [n d]. unfold Qle, to_int, Qfloor. cbn. intros H.
  apply Z.quot_div_nonneg; lia.
Qed.

Lemma to_int_mono (x y : Q) : 0 <= x -> x <= y -> (to_int x <= to_int y)%Z.
Proof.
  intros Hx Hxy. rewrite !to_int_floor by lra. apply Qfloor_resp_le, Hxy.
Qed.

Lemma to_int_Z (k : Z) : to_int (inject_Z k) = k.
Proof. unfold to_int. cbn. apply Z.quot_1_r. Qed.

Lemma to_int_ge (k : Z) (x : Q) : (0 <= k)%Z -> inject_Z k <= x -> (k <= to_int x)%Z.
Proof.
  intros Hk H. rewrite <- (to_int_Z k) at 1. apply to_int_mono; [| assumption].
  change 0 with (inject_Z 0). rewrite <- Zle_Qle. assumption.
Qed.

Lemma to_int_lt (k : Z) (x : Q) : 0 <= x -> x < inject_Z k -> (to_int x < k)%Z.
Proof.
  intros Hx H. rewrite to_int_floor by assumption.
  pose proof (Qfloor_le x) as Hf. rewrite Zlt_Qlt. lra.
Qed.

(** *** The constants of the two progress formulas *)

Lemma rnd64_0 : rnd64 0 == 0. Proof. reflexivity. Qed.
Lemma rnd64_1 : rnd64 1 == 1. Proof. vm_compute. reflexivity. Qed.
Lemma of_int_10 : of_int 10 == 10. Proof. vm_compute. reflexivity. Qed.
Lemma of_int_20 : of_int 20 == 20. Proof. vm_compute. reflexivity. Qed.
Lemma of_int_60 : of_int 60 == 60. Proof. vm_compute. reflexivity. Qed.
Lemma of_int_70 : of_int 70 == 70. Proof. vm_compute. reflexivity. Qed.
Lemma rnd64_70 : rnd64 70 == 70. Proof. vm_compute. reflexivity. Qed.

Lemma rnd64_10 : rnd64 10 == 10. Proof. vm_compute. reflexivity. Qed.
Lemma rnd64_60 : rnd64 60 == 60. Proof. vm_compute. reflexivity. Qed.

Lemma rnd64_le_const (x c : Q) : 0 <= x -> x <= c -> rnd64 c == c -> rnd64 x <= c.
Proof. intros Hx Hc E. rewrite <- E. apply rnd64_mono; assumption. Qed.

Lemma rnd64_ge_const (x c : Q) : 0 <= c -> c <= x -> rnd64 c == c -> c <= rnd64 x.
Proof. intros Hx Hc E. rewrite <- E at 1. apply rnd64_mono; assumption. Qed.

Lemma of_int_ge_1 (k : Z) : (1 <= k)%Z -> 1 <= of_int k.
Proof.
  intros Hk. rewrite <- rnd64_1. apply rnd64_mono; [lra |].
  change 1 with (inject_Z 1). rewrite <- Zle_Qle. assumption.
Qed.

Lemma Qplus_nonneg (x y : Q) : 0 <= x -> 0 <= y -> 0 <= x + y.
Proof. intros. lra. Qed.

Lemma Qdiv_nonneg (x y : Q) : 0 <= x -> 0 < y -> 0 <= x / y.
Proof. intros Hx Hy. apply Qle_shift_div_l; [assumption | lra]. Qed.

Lemma ratio_nonneg (a b : Z) : (0 <= a)%Z -> (1 <= b)%Z -> 0 <= inject_Z a / inject_Z b.
Proof.
  intros Ha Hb. apply Qdiv_nonneg.
  - change 0 with (inject_Z 0). rewrite <- Zle_Qle. assumption.
  - change 0 with (inject_Z 0). rewrite <- Zlt_Qlt. lia.
Qed.

Lemma ratio_mono (a a' b : Z) :
  (a <= a')%Z -> (1 <= b)%Z -> inject_Z a / inject_Z b <= inject_Z a' / inject_Z b.
Proof.
  intros Ha Hb. apply Qdiv_le_pos.
  - change 0 with (inject_Z 0). rewrite <- Zlt_Qlt. lia.
  - rewrite <- Zle_Qle. assumption.
Qed.

Lemma ratio_le_1 (a b : Z) : (a <= b)%Z -> (1 <= b)%Z -> inject_Z a / inject_Z b <= 1.
Proof.
  intros Ha Hb. apply Qle_shift_div_r.
  - change 0 with (inject_Z 0). rewrite <- Zlt_Qlt. lia.
  - rewrite Qmult_1_l, <- Zle_Qle. assumption.
Qed.

Lemma truediv_nonneg (a b : Z) : (0 <= a)%Z -> (1 <= b)%Z -> 0 <= truediv a b.
Proof. intros. apply rnd64_nonneg, ratio_nonneg; assumption. Qed.

Lemma truediv_mono (a a' b : Z) :
  (0 <= a)%Z -> (a <= a')%Z -> (1 <= b)%Z -> truediv a b <= truediv a' b.
Proof.
  intros. apply rnd64_mono; [apply ratio_nonneg | apply ratio_mono]; assumption.
Qed.

Lemma truediv_le_1 (a b : Z) : (0 <= a)%Z -> (a <= b)%Z -> (1 <= b)%Z -> truediv a b <= 1.
Proof.
  intros. rewrite <- rnd64_1. apply rnd64_mono; [apply ratio_nonneg | apply ratio_le_1]; assumption.
Qed.

(** *** A coarse bound on the rounding error *)

Lemma round_half_even_err (x : Q) :
  x - 1 <= inject_Z (round_half_even x) /\ inject_Z (round_half_even x) <= x + 1.
Proof.
  pose proof (round_half_even_bounds x) as [H1 H2].
  pose proof (Qfloor_le x) as Hf. pose proof (Qlt_floor x) as Hc.
  rewrite inject_Z_plus in Hc. change (inject_Z 1) with 1 in Hc.
  rewrite Zle_Qle in H1, H2. rewrite inject_Z_plus in H2. change (inject_Z 1) with 1 in H2.
  split; lra.
Qed.

Lemma rnd64_pos_err (x : Q) :
  x - 2 ^ binade x <= rnd64_pos x /\ rnd64_pos x <= x + 2 ^ binade x.
Proof.
  unfold rnd64_pos. pose proof (two_pow_pos (binade x)) as P.
  pose proof (round_half_even_err (x / 2 ^ binade x)) as [H1 H2].
  assert (E : x / 2 ^ binade x * 2 ^ binade x == x) by (field; lra).
  split; nra.
Qed.

Lemma ulp_bound (x : Q) : 0 < x -> 2 ^ binade x <= x * (1 # 1024) + (1 # 1024).
Proof.
  intros Hx. destruct (Qlog2_floor_spec x Hx) as [HL _].
  unfold binade. destruct (Z.max_spec (Qlog2_floor x - 52) (-1074)) as [[_ ->] | [_ ->]].
  - apply Qle_trans with (2 ^ (-10)); [apply two_pow_le; lia |].
    change (2 ^ (-10)) with (1 # 1024). lra.
  - assert (E : 2 ^ (Qlog2_floor x - 52) == 2 ^ Qlog2_floor x * 2 ^ (-52)).
    { unfold Z.sub. apply Qpower_plus. discriminate. }
    rewrite E.
    assert (H52 : 2 ^ (-52) <= 1 # 1024).
    { change (1 # 1024) with (2 ^ (-10)). apply two_pow_le. lia. }
    pose proof (two_pow_pos (-52)). pose proof (two_pow_pos (Qlog2_floor x)). nra.
Qed.

Lemma rnd64_upper (x : Q) : 0 <= x -> rnd64 x <= x * (1025 # 1024) + (1 # 1024).
Proof.
  intros Hx. unfold rnd64. destruct (Qnum x) eqn:E.
  - lra.
  - assert (Px : 0 < x) by (apply Qnum_sign; lia).
    pose proof (rnd64_pos_err x) as [_ H]. pose proof (ulp_bound x Px). lra.
  - apply Qnum_neg in E. lra.
Qed.

Lemma rnd64_lower (x : Q) : 1 <= x -> x * (1023 # 1024) <= rnd64 x.
Proof.
  intros Hx. assert (Px : 0 < x) by lra.
  unfold rnd64. destruct (Qnum x) eqn:E.
  - assert (x == 0) by (apply Qnum_sign; assumption). lra.
  - pose proof (rnd64_pos_err x) as [H _].
    destruct (Qlog2_floor_spec x Px) as [HL HU].
    assert (H0 : (0 <= Qlog2_floor x)%Z).
    { assert (2 ^ 0 < 2 ^ (Qlog2_floor x + 1)) by (change (2 ^ 0) with 1; lra).
      apply two_pow_lt_inv in H0. lia. }
    assert (B : binade x = (Qlog2_floor x - 52)%Z) by (unfold binade; lia).
    assert (E' : 2 ^ binade x == 2 ^ Qlog2_floor x * 2 ^ (-52)).
    { rewrite B. unfold Z.sub. apply Qpower_plus. discriminate. }
    assert (H52 : 2 ^ (-52) <= 1 # 1024).
    { change (1 # 1024) with (2 ^ (-10)). apply two_pow_le. lia. }
    pose proof (two_pow_pos (-52)). pose proof (two_pow_pos (Qlog2_floor x)). nra.
  - apply Qnum_neg in E. lra.
Qed.

End FloatFacts.

(** ** The two progress formulas *)

Section Progress.
Import Float FloatFacts.
Local Open Scope Q_scope.

Lemma page_progress_mono (p q page_count : Z) :
  (0 <= p)%Z -> (p <= q)%Z -> (1 <= page_count)%Z ->
  (page_progress p page_count <= page_progress q page_count)%Z.
Proof.
  intros Hp Hpq HP. unfold page_progress, add, mul.
  pose proof (truediv_nonneg p page_count Hp HP).
  pose proof (truediv_mono p q page_count Hp Hpq HP).
  pose proof of_int_60. pose proof of_int_10.
  assert (0 <= truediv p page_count * of_int 60) by nra.
  assert (truediv p page_count * of_int 60 <= truediv q page_count * of_int 60) by nra.
  pose proof (rnd64_nonneg _ H3).
  pose proof (rnd64_mono _ _ H3 H4).
  apply to_int_mono; [apply rnd64_nonneg; lra |].
  apply rnd64_mono; lra.
Qed.

Lemma page_progress_bounds (p page_count : Z) :
  (0 <= p)%Z -> (p <= page_count)%Z -> (1 <= page_count)%Z ->
  (10 <= page_progress p page_count <= 70)%Z.
Proof.
  intros Hp HpP HP. unfold page_progress, add, mul.
  pose proof (truediv_nonneg p page_count Hp HP).
  pose proof (truediv_le_1 p page_count Hp HpP HP).
  pose proof of_int_60. pose proof of_int_10.
  assert (0 <= truediv p page_count * of_int 60) by nra.
  assert (truediv p page_count * of_int 60 <= 60) by nra.
  pose proof (rnd64_nonneg _ H3).
  pose proof (rnd64_le_const _ 60 H3 H4 rnd64_60).
  split.
  - apply to_int_ge; [lia |]. change (inject_Z 10) with 10.
    apply rnd64_ge_const; [discriminate | lra | exact rnd64_10].
  - apply Z.lt_succ_r, to_int_lt; [apply rnd64_nonneg; lra |].
    eapply Qle_lt_trans; [apply (rnd64_le_const _ 70); [lra | lra | exact rnd64_70] |].
    reflexivity.
Qed.

Lemma img_progress_lower (page_num page_count img_index len_image_list : Z) :
  (1 <= page_num)%Z -> (1 <= page_count)%Z ->
  (0 <= img_index)%Z -> (1 <= len_image_list)%Z ->
  (70 <= img_progress page_num page_count img_index len_image_list)%Z.
Proof.
  intros Hp HP Hi Hn. unfold img_progress, add, mul, div.
  assert (Ha : 0 <= truediv (page_num - 1) page_count) by (apply truediv_nonneg; lia).
  assert (Hc : 0 <= truediv (img_index + 1) len_image_list) by (apply truediv_nonneg; lia).
  pose proof (of_int_ge_1 page_count HP) as HD.
  assert (Hb : 0 <= rnd64 (truediv (img_index + 1) len_image_list / of_int page_count)).
  { apply rnd64_nonneg, Qdiv_nonneg; lra. }
  pose proof (rnd64_nonneg _ (Qplus_nonneg _ _ Ha Hb)) as Hs.
  pose proof of_int_20 as H20. pose proof of_int_70 as H70.
  match goal with |- context [rnd64 (?s * of_int 20)] =>
    assert (Ht : 0 <= rnd64 (s * of_int 20)) by (apply rnd64_nonneg; nra) end.
  apply to_int_ge; [lia |]. change (inject_Z 70) with 70.
  apply rnd64_ge_const; [discriminate | lra | exact rnd64_70].
Qed.

Lemma img_progress_mono (page_num page_count i j len_image_list : Z) :
  (1 <= page_num)%Z -> (1 <= page_count)%Z ->
  (0 <= i)%Z -> (i <= j)%Z -> (1 <= len_image_list)%Z ->
  (img_progress page_num page_count i len_image_list
   <= img_progress page_num page_count j len_image_list)%Z.
Proof.
  intros Hp HP Hi Hij Hn. unfold img_progress, add, mul, div.
  assert (Ha : 0 <= truediv (page_num - 1) page_count) by (apply truediv_nonneg; lia).
  assert (Hc : 0 <= truediv (i + 1) len_image_list) by (apply truediv_nonneg; lia).
  assert (Hcc : truediv (i + 1) len_image_list <= truediv (j + 1) len_image_list)
    by (apply truediv_mono; lia).
  pose proof (of_int_ge_1 page_count HP) as HD.
  assert (HD0 : 0 < of_int page_count) by lra.
  pose proof (Qdiv_nonneg _ _ Hc HD0) as Hq.
  pose proof (Qdiv_le_pos _ _ _ HD0 Hcc) as Hqq.
  pose proof (rnd64_nonneg _ Hq) as Hb.
  pose proof (rnd64_mono _ _ Hq Hqq) as Hbb.
  pose proof (rnd64_nonneg _ (Qplus_nonneg _ _ Ha Hb)) as Hs.
  assert (Hss : rnd64 (truediv (page_num - 1) page_count
                       + rnd64 (truediv (i + 1) len_image_list / of_int page_count))
                <= rnd64 (truediv (page_num - 1) page_count
                          + rnd64 (truediv (j + 1) len_image_list / of_int page_count)))
    by (apply rnd64_mono; lra).
  pose proof of_int_20 as H20. pose proof of_int_70 as H70.
  match type of Hss with ?s <= ?s' =>
    assert (Ht0 : 0 <= s * of_int 20) by nra;
    assert (Htt : s * of_int 20 <= s' * of_int 20) by nra
  end.
  pose proof (rnd64_nonneg _ Ht0) as Ht. pose proof (rnd64_mono _ _ Ht0 Htt) as Htm.
  apply to_int_mono; [apply rnd64_nonneg; lra |].
  apply rnd64_mono; lra.
Qed.

Lemma img_progress_upper (page_num page_count img_index len_image_list : Z) :
  (1 <= page_num)%Z -> (page_num <= page_count)%Z ->
  (0 <= img_index)%Z -> (img_index < len_image_list)%Z ->
  (img_progress page_num page_count img_index len_image_list <= 90)%Z.
Proof.
  intros Hp HpP Hi Hn. unfold img_progress, add, mul, div.
  assert (HP : (1 <= page_count)%Z) by lia.
  set (P := inject_Z page_count).
  assert (HP1 : 1 <= P) by (subst P; change 1 with (inject_Z 1); rewrite <- Zle_Qle; lia).
  set (q := / P).
  assert (Hq : q * P == 1) by (subst q; field; lra).
  assert (Hq0 : 0 < q) by (subst q; apply Qinv_lt_0_compat; lra).
  assert (Hq1 : q <= 1) by nra.
  (* a = (page_num - 1) / page_count *)
  assert (Ha0 : 0 <= inject_Z (page_num - 1) / P) by (apply ratio_nonneg; lia).
  assert (Hax : inject_Z (page_num - 1) / P <= 1 - q).
  { apply Qle_trans with (inject_Z (page_count - 1) / P); [apply ratio_mono; lia |].
    assert (E : inject_Z (page_count - 1) == P - 1).
    { unfold Z.sub. rewrite inject_Z_plus. reflexivity. }
    apply Qle_shift_div_r; [lra |]. nra. }
  pose proof (rnd64_nonneg _ Ha0) as Ha. pose proof (rnd64_upper _ Ha0) as Hau.
  change (rnd64 (inject_Z (page_num - 1) / P)) with (truediv (page_num - 1) page_count) in Ha, Hau.
  (* c = (img_index + 1) / len(image_list), D = float(page_count) *)
  assert (Hc : 0 <= truediv (img_index + 1) len_image_list) by (apply truediv_nonneg; lia).
  assert (Hc1 : truediv (img_index + 1) len_image_list <= 1) by (apply truediv_le_1; lia).
  pose proof (rnd64_lower P HP1) as HD. change (rnd64 P) with (of_int page_count) in HD.
  assert (HD0 : 0 < of_int page_count) by lra.
  set (y := truediv (img_index + 1) len_image_list / of_int page_count).
  assert (Hy0 : 0 <= y) by (apply Qdiv_nonneg; assumption).
  assert (Hy : y * of_int page_count == truediv (img_index + 1) len_image_list)
    by (subst y; field; lra).
  assert (Hyq : y <= q * (1024 # 1023)).
  { apply Qmult_le_r with (of_int page_count); [assumption |]. nra. }
  pose proof (rnd64_nonneg _ Hy0) as Hb. pose proof (rnd64_upper _ Hy0) as Hbu.
  (* the sum, the product and the final addition *)
  pose proof (Qplus_nonneg _ _ Ha Hb) as Hs0.
  pose proof (rnd64_nonneg _ Hs0) as Hs. pose proof (rnd64_upper _ Hs0) as Hsu.
  pose proof of_int_20 as H20. pose proof of_int_70 as H70.
  match type of Hs with 0 <= ?s =>
    assert (Ht0 : 0 <= s * of_int 20) by nra;
    pose proof (rnd64_nonneg _ Ht0) as Ht; pose proof (rnd64_upper _ Ht0) as Htu;
    assert (Hu0 : 0 <= of_int 70 + rnd64 (s * of_int 20)) by lra;
    pose proof (rnd64_nonneg _ Hu0) as Hu; pose proof (rnd64_upper _ Hu0) as Huu
  end.
  apply Z.lt_succ_r, to_int_lt; [assumption |].
  change (inject_Z (Z.succ 90)) with 91.
  nra.
Qed.

End Progress.

(** ** Running a coroutine step by step *)

Lemma bind_run {A B : Type} (m : M A) (k : A -> M B) (w : World) :
  (m ≫= k) w =
  match m w with
  | (Return a, w') => k a w'
  | (Raise e, w') => (Raise e, w')
  end.
Proof. reflexivity. Qed.

Lemma bind_return {A B : Type} (m : M A) (k : A -> M B) (w w' : World) (a : A) :
  m w = (Return a, w') -> (m ≫= k) w = k a w'.
Proof. intros H. rewrite bind_run, H. reflexivity. Qed.

Lemma bind_raise {A B : Type} (m : M A) (k : A -> M B) (w w' : World) (e : PyExc) :
  m w = (Raise e, w') -> (m ≫= k) w = (Raise e, w').
Proof. intros H. rewrite bind_run, H. reflexivity. Qed.

Lemma mret_run {A : Type} (a : A) (w : World) : (mret a : M A) w = (Return a, w).
Proof. reflexivity. Qed.

Lemma try_except_return {A : Type} (body : M A) (h : PyExc -> M A) (w w' : World) (a : A) :
  body w = (Return a, w') -> try_except body h w = (Return a, w').
Proof. intros H. unfold try_except. rewrite H. reflexivity. Qed.

Lemma try_except_raise {A : Type} (body : M A) (h : PyExc -> M A) (w w' : World) (e : PyExc) :
  body w = (Raise e, w') -> try_except body h w = h e w'.
Proof. intros H. unfold try_except. rewrite H. reflexivity. Qed.

Lemma getitem_run (w : World) (task_id : pystr) (t : Task.t) :
  processing_tasks w !! task_id = Some t -> getitem task_id w = (Return t, w).
Proof. intros H. unfold getitem. rewrite H. reflexivity. Qed.

Lemma getitem_missing (w : World) (task_id : pystr) :
  processing_tasks w !! task_id = None -> getitem task_id w = (Raise (KeyError task_id), w).
Proof. intros H. unfold getitem. rewrite H. reflexivity. Qed.

Lemma setitem_current_step_run (w : World) (task_id step : pystr) (t : Task.t) :
  processing_tasks w !! task_id = Some t ->
  setitem_current_step task_id step w =
    (Return (),
     mkWorld (<[task_id := Task.set_current_step step t]> (processing_tasks w))
       (trace w) (inbox w)).
Proof.
  intros H. unfold setitem_current_step. rewrite (bind_return _ _ _ _ _ (getitem_run _ _ _ H)).
  reflexivity.
Qed.

Lemma setitem_progress_run (w : World) (task_id : pystr) (value : Z) (t : Task.t) :
  processing_tasks w !! task_id = Some t ->
  setitem_progress task_id value w =
    (Return (),
     mkWorld (<[task_id := Task.set_progress value t]> (processing_tasks w))
       (ProgressWrite task_id value (Task.status t) (Task.status t) :: trace w)
       (inbox w)).
Proof.
  intros H. unfold setitem_progress. rewrite (bind_return _ _ _ _ _ (getitem_run _ _ _ H)).
  reflexivity.
Qed.

Lemma setitem_status_run (w : World) (task_id : pystr) (s : Status) (t : Task.t) :
  processing_tasks w !! task_id = Some t ->
  setitem_status task_id s w =
    (Return (),
     mkWorld (<[task_id := Task.set_status s t]> (processing_tasks w))
       (trace w) (inbox w)).
Proof.
  intros H. unfold setitem_status. rewrite (bind_return _ _ _ _ _ (getitem_run _ _ _ H)).
  reflexivity.
Qed.

Lemma setitem_current_step_missing (w : World) (task_id step : pystr) :
  processing_tasks w !! task_id = None ->
  setitem_current_step task_id step w = (Raise (KeyError task_id), w).
Proof.
  intros H. unfold setitem_current_step.
  rewrite (bind_raise _ _ _ _ _ (getitem_missing _ _ H)). reflexivity.
Qed.

Lemma setitem_progress_missing (w : World) (task_id : pystr) (value : Z) :
  processing_tasks w !! task_id = None ->
  setitem_progress task_id value w = (Raise (KeyError task_id), w).
Proof.
  intros H. unfold setitem_progress.
  rewrite (bind_raise _ _ _ _ _ (getitem_missing _ _ H)). reflexivity.
Qed.

Lemma cancel_task_run (w : World) (task_id : pystr) (t : Task.t) :
  processing_tasks w !! task_id = Some t -> Task.status t = processing ->
  cancel_task task_id w =
    (Return (u "Task cancelled successfully"),
     mkWorld
       (<[task_id := Task.set_current_step (u "사용자에 의해 취소됨")
                       (Task.set_status cancelled t)]> (processing_tasks w))
       (trace w) (inbox w)).
Proof.
  intros Ht Hs. unfold cancel_task. rewrite Ht, Hs. cbn [terminal].
  rewrite bind_run, (setitem_status_run _ _ _ _ Ht).
  rewrite bind_run, (setitem_current_step_run _ _ _ (Task.set_status cancelled t))
    by apply lookup_insert_eq.
  rewrite mret_run. cbn [processing_tasks trace inbox]. rewrite insert_insert_eq. reflexivity.
Qed.

Lemma cancel_task_refused (w : World) (task_id : pystr) (t : Task.t) :
  processing_tasks w !! task_id = Some t -> Task.status t <> processing ->
  cancel_task task_id w = (Raise (HTTPException 400 (u "Task cannot be cancelled")), w).
Proof.
  intros Ht Hs. unfold cancel_task. rewrite Ht.
  destruct (Task.status t); [contradiction | reflexivity ..].
Qed.

Lemma cancel_task_missing (w : World) (task_id : pystr) :
  processing_tasks w !! task_id = None ->
  cancel_task task_id w = (Raise (HTTPException 404 (u "Task not found")), w).
Proof. intros H. unfold cancel_task. rewrite H. reflexivity. Qed.

(** ** Invariants of a run *)

Lemma preserves_bind {A B : Type} (I : World -> Prop) (m : M A) (k : A -> M B) :
  preserves I m -> (forall a, preserves I (k a)) -> preserves I (m ≫= k).
Proof.
  intros Hm Hk w Hw. rewrite bind_run. specialize (Hm w Hw).
  destruct (m w) as [[a | e] w']; cbn in *; [apply Hk |]; assumption.
Qed.

Lemma preserves_try {A : Type} (I : World -> Prop) (body : M A) (h : PyExc -> M A) :
  preserves I body -> (forall e, preserves I (h e)) -> preserves I (try_except body h).
Proof.
  intros Hm Hh w Hw. unfold try_except. specialize (Hm w Hw).
  destruct (body w) as [[a | e] w']; cbn in *; [| apply Hh]; assumption.
Qed.

Lemma preserves_mret {A : Type} (I : World -> Prop) (a : A) : preserves I (mret a : M A).
Proof. intros w Hw. exact Hw. Qed.

Lemma preserves_raise {A : Type} (I : World -> Prop) (e : PyExc) : preserves I (raise e : M A).
Proof. intros w Hw. exact Hw. Qed.

Lemma preserves_lift {A : Type} (I : World -> Prop) (o : Outcome A) : preserves I (lift o).
Proof. intros w Hw. exact Hw. Qed.

Lemma preserves_get_status (I : World -> Prop) (task_id : pystr) :
  preserves I (get_status task_id).
Proof. intros w Hw. exact Hw. Qed.

Lemma preserves_getitem (I : World -> Prop) (task_id : pystr) :
  preserves I (getitem task_id).
Proof. intros w Hw. unfold getitem. destruct (_ !! _); exact Hw. Qed.

Lemma preserves_check_cancelled (I : World -> Prop) (task_id : option pystr) :
  preserves I (check_cancelled task_id).
Proof.
  destruct task_id as [[| c s] |]; try apply preserves_mret.
  apply preserves_bind; [apply preserves_get_status |].
  intros st. destruct (decide _); [apply preserves_raise | apply preserves_mret].
Qed.

Lemma preserves_if_task_id (I : World -> Prop) (task_id : option pystr) (body : pystr -> M unit) :
  (forall tid, task_id = Some tid -> tid <> [] -> preserves I (body tid)) ->
  preserves I (if_task_id task_id body).
Proof.
  intros H. destruct task_id as [[| c s] |]; try apply preserves_mret.
  apply H; [reflexivity | discriminate].
Qed.

Lemma preserves_serve (I : World -> Prop) (rs : list Request) :
  (forall r, r ∈ rs -> preserves I (serve_request r)) -> preserves I (serve rs).
Proof.
  induction rs as [| r rs IH]; intros H; [apply preserves_mret |].
  cbn [serve]. apply preserves_bind; [apply H; left |].
  intros _. apply IH. intros r' Hr'. apply H. right. assumption.
Qed.

Section Preserved.

Variable ollama_generate : nat -> GenerateRequest.t -> Outcome pystr.
Variables (model : pystr) (task_id : option pystr).
Variable I : World -> Prop.
Hypothesis HI : step_invariant ollama_generate task_id I.

Lemma preserves_await {A : Type} (m : M A) : preserves I m -> preserves I (await m).
Proof.
  intros Hm. unfold await. apply preserves_bind; [apply (inv_await _ _ _ HI) | intros _; exact Hm].
Qed.

Lemma preserves_analyze_image (image_base64 : pystr) :
  preserves I (analyze_image_with_ollama ollama_generate image_base64 model).
Proof.
  apply preserves_try; [apply (inv_generate _ _ _ HI) | intros e; apply preserves_mret].
Qed.

Lemma preserves_analyze_text (text model_name : pystr) (prompt : option pystr) :
  preserves I (analyze_text_with_ollama ollama_generate text model_name prompt).
Proof.
  apply preserves_try; [apply (inv_generate _ _ _ HI) | intros e; apply preserves_raise].
Qed.

Lemma preserves_image_loop (page_num page_count len_image_list : Z)
    (image_list : list Image) :
  forall (img_index : Z) (all_text : pystr),
    preserves I
      (image_loop ollama_generate model task_id page_num page_count len_image_list
         img_index image_list all_text).
Proof.
  induction image_list as [| img rest IH]; intros img_index all_text; cbn [image_loop].
  - apply preserves_mret.
  - apply preserves_bind; [apply preserves_check_cancelled | intros _].
    apply preserves_bind.
    { apply preserves_if_task_id. intros tid Ht Hne.
      apply preserves_bind; [apply (inv_progress _ _ _ HI); assumption | intros _].
      apply (inv_current_step _ _ _ HI); assumption. }
    intros _. apply preserves_bind; [| intros txt; apply IH].
    apply preserves_try; [| intros e; apply preserves_mret].
    apply preserves_bind; [apply preserves_lift | intros pix].
    destruct (decide _); [| apply preserves_mret].
    apply preserves_bind; [apply preserves_lift | intros b64].
    apply preserves_bind; [| intros a; apply preserves_mret].
    apply preserves_analyze_image.
Qed.

Lemma preserves_page_loop (page_count : Z) (pages : list (FitzPage * PlumberPage)) :
  forall (page_num : Z) (all_text : pystr),
    preserves I
      (page_loop ollama_generate model task_id page_count page_num pages all_text).
Proof.
  induction pages as [| [fitz_page plumber_page] rest IH]; intros page_num all_text;
    cbn [page_loop].
  - apply preserves_mret.
  - apply preserves_bind; [apply preserves_check_cancelled | intros _].
    apply preserves_bind.
    { apply preserves_if_task_id. intros tid Ht Hne.
      apply preserves_bind; [apply (inv_progress _ _ _ HI); assumption | intros _].
      apply (inv_current_step _ _ _ HI); assumption. }
    intros _. apply preserves_bind; [apply preserves_lift | intros page_text].
    apply preserves_bind; [apply preserves_lift | intros tables].
    apply preserves_bind; [apply preserves_lift | intros image_list].
    apply preserves_bind; [| intros txt; apply IH].
    destruct image_list; [apply preserves_mret | apply preserves_image_loop].
Qed.

Lemma preserves_extract (pdf_file : UploadFile.t) :
  preserves I
    (extract_images_from_pdf_and_analyze ollama_generate model task_id pdf_file).
Proof.
  unfold extract_images_from_pdf_and_analyze.
  apply preserves_try.
  - apply preserves_bind; [apply preserves_await, preserves_mret | intros _].
    apply preserves_bind; [apply preserves_lift | intros pdf_document].
    apply preserves_bind.
    { apply preserves_if_task_id. intros tid Ht Hne.
      apply preserves_bind; [apply (inv_current_step _ _ _ HI); assumption | intros _].
      apply (inv_progress _ _ _ HI); assumption. }
    intros _. apply preserves_bind; [apply preserves_lift | intros pdf_pages].
    apply preserves_bind; [apply preserves_page_loop | intros txt].
    apply preserves_bind; [| intros _; apply preserves_mret].
    apply preserves_if_task_id. intros tid Ht Hne.
    apply preserves_bind; [apply (inv_current_step _ _ _ HI); assumption | intros _].
    apply (inv_progress _ _ _ HI); assumption.
  - intros e. destruct (contains _ _); apply preserves_raise.
Qed.

End Preserved.

Lemma preserves_process (ollama_generate : nat -> GenerateRequest.t -> Outcome pystr)
    (I : World -> Prop) (task_id : pystr) (file : UploadFile.t) (model : pystr)
    (custom_prompt : option pystr) :
  step_invariant ollama_generate (Some task_id) I ->
  (forall result, preserves I (update_completed task_id result)) ->
  (forall e, preserves I (update_failed task_id e)) ->
  preserves I (process_pdf_async ollama_generate task_id file model custom_prompt).
Proof.
  intros HI Hc Hf. unfold process_pdf_async.
  apply preserves_try; [| exact Hf].
  apply preserves_bind; [apply preserves_extract; exact HI | intros [text_content page_count]].
  apply preserves_bind; [apply preserves_get_status | intros st].
  destruct (decide _); [apply preserves_mret |].
  apply preserves_bind; [apply (inv_current_step _ _ _ HI); reflexivity | intros _].
  apply preserves_bind; [apply (inv_progress _ _ _ HI); reflexivity | intros _].
  apply preserves_bind; [| intros analysis; apply Hc].
  apply (preserves_analyze_text _ _ _ HI).
Qed.

(** ** The task endpoints *)

(** C5. Cancelling a task that is present: while it is processing the task
    becomes cancelled; once it is completed, failed or cancelled the request
    is refused with status 400 and nothing changes. *)
Theorem cancel_task_transitions (w : World) (task_id : pystr) (t : Task.t) :
  processing_tasks w !! task_id = Some t ->
  (Task.status t = processing ->
   exists w' t',
     cancel_task task_id w = (Return (u "Task cancelled successfully"), w')
     /\ processing_tasks w' !! task_id = Some t'
     /\ Task.status t' = cancelled)
  /\ (terminal (Task.status t) = true ->
      cancel_task task_id w
      = (Raise (HTTPException 400 (u "Task cannot be cancelled")), w)).
Proof.
  intros Ht. split; intros Hs.
  - eexists _, _. split; [apply (cancel_task_run w task_id t Ht Hs) |].
    cbn [processing_tasks]. split; [apply lookup_insert_eq | reflexivity].
  - apply (cancel_task_refused w task_id t Ht).
    intros E. rewrite E in Hs. discriminate.
Qed.

Lemma cancel_task_transitions_witness :
  (exists w' t',
     cancel_task Sample.task_id (Sample.world processing)
     = (Return (u "Task cancelled successfully"), w')
     /\ processing_tasks w' !! Sample.task_id = Some t'
     /\ Task.status t' = cancelled)
  /\ cancel_task Sample.task_id (Sample.world completed)
     = (Raise (HTTPException 400 (u "Task cannot be cancelled")), Sample.world completed).
Proof.
  split.
  - apply (cancel_task_transitions (Sample.world processing) Sample.task_id
             (Sample.task processing)); [vm_compute; reflexivity | reflexivity].
  - apply (cancel_task_transitions (Sample.world completed) Sample.task_id
             (Sample.task completed)); [vm_compute; reflexivity | reflexivity].
Defined.

(** C4, as the code has it. The two statements with which the pipeline
    reports progress overwrite ["progress"] and ["current_step"] of a task
    that is present, whatever its status, and leave every other key and every
    other task alone; on a task that is absent they raise [KeyError] and
    change nothing. *)
Theorem progress_update_overwrites (w : World) (task_id step : pystr) (value : Z) :
  let update := setitem_current_step task_id step;; setitem_progress task_id value in
  let update' := setitem_progress task_id value;; setitem_current_step task_id step in
  match processing_tasks w !! task_id with
  | None =>
    update w = (Raise (KeyError task_id), w) /\ update' w = (Raise (KeyError task_id), w)
  | Some t =>
    exists w' t',
      update w = (Return (), w') /\ update' w = (Return (), w')
      /\ processing_tasks w' !! task_id = Some t'
      /\ Task.progress t' = value /\ Task.current_step t' = step
      /\ same_but_progress_and_step t t'
      /\ (forall other, other <> task_id ->
          processing_tasks w' !! other = processing_tasks w !! other)
  end.
Proof.
  cbn zeta. destruct (processing_tasks w !! task_id) as [t |] eqn:Ht.
  - eexists _, (Task.set_progress value (Task.set_current_step step t)).
    split; [| split; [| split; [| split; [| split; [| split]]]]].
    + rewrite bind_run, (setitem_current_step_run _ _ _ _ Ht).
      rewrite (setitem_progress_run _ _ _ (Task.set_current_step step t))
        by apply lookup_insert_eq.
      cbn [processing_tasks trace inbox]. rewrite insert_insert_eq. reflexivity.
    + rewrite bind_run, (setitem_progress_run _ _ _ _ Ht).
      rewrite (setitem_current_step_run _ _ _ (Task.set_progress value t))
        by apply lookup_insert_eq.
      cbn [processing_tasks trace inbox]. rewrite insert_insert_eq. reflexivity.
    + cbn [processing_tasks]. apply lookup_insert_eq.
    + reflexivity.
    + reflexivity.
    + repeat split.
    + intros other Hne. cbn [processing_tasks]. apply lookup_insert_ne. congruence.
  - split.
    + rewrite bind_run, (setitem_current_step_missing _ _ _ Ht). reflexivity.
    + rewrite bind_run, (setitem_progress_missing _ _ _ Ht). reflexivity.
Qed.

(** C4, as stated, fails: the update is not a no-op on a cancelled task. *)
Lemma progress_update_on_cancelled_task :
  terminal (Task.status (Sample.task cancelled)) = true
  /\ ((setitem_current_step Sample.task_id (u "PDF 문서 로드 완료 (1페이지)");;
       setitem_progress Sample.task_id 10) (Sample.world cancelled)).2
     <> Sample.world cancelled.
Proof.
  split; [reflexivity |]. intros H.
  apply (f_equal (fun w => Task.progress <$> processing_tasks w !! Sample.task_id)) in H.
  vm_compute in H. discriminate.
Qed.

(** *** What a served request changes *)

Lemma cancel_task_effect (w : World) (task_id : pystr) :
  let w' := (cancel_task task_id w).2 in
  trace w' = trace w /\ inbox w' = inbox w
  /\ (forall other, other <> task_id ->
      processing_tasks w' !! other = processing_tasks w !! other)
  /\ match processing_tasks w !! task_id with
     | None => processing_tasks w' !! task_id = None
     | Some t =>
       exists t', processing_tasks w' !! task_id = Some t'
                  /\ same_but_status_and_step t t'
                  /\ (Task.status t' = Task.status t \/ Task.status t' = cancelled)
     end.
Proof.
  cbn zeta. destruct (processing_tasks w !! task_id) as [t |] eqn:Ht.
  - destruct (decide (Task.status t = processing)) as [Hs | Hs].
    + rewrite (cancel_task_run _ _ _ Ht Hs). cbn [snd trace inbox processing_tasks].
      repeat split; [intros other Hne; apply lookup_insert_ne; congruence |].
      eexists. split; [apply lookup_insert_eq |]. split; [repeat split | right; reflexivity].
    + rewrite (cancel_task_refused _ _ _ Ht Hs). cbn [snd].
      repeat split. exists t. split; [assumption |]. split; [repeat split | left; reflexivity].
  - rewrite (cancel_task_missing _ _ Ht). cbn [snd]. repeat split. assumption.
Qed.

Lemma delete_task_effect (w : World) (task_id : pystr) :
  let w' := (delete_task task_id w).2 in
  trace w' = trace w /\ inbox w' = inbox w
  /\ (forall other, other <> task_id ->
      processing_tasks w' !! other = processing_tasks w !! other)
  /\ processing_tasks w' !! task_id = None.
Proof.
  cbn zeta. unfold delete_task.
  destruct (processing_tasks w !! task_id) as [t |] eqn:Ht;
    cbn [snd trace inbox processing_tasks].
  - repeat split; [intros other Hne; apply lookup_delete_ne; congruence | apply lookup_delete_eq].
  - repeat split. assumption.
Qed.

Lemma serve_request_frame (r : Request) (w : World) :
  let w' := (serve_request r w).2 in
  trace w' = trace w /\ inbox w' = inbox w
  /\ (forall other, other <> request_task_id r ->
      processing_tasks w' !! other = processing_tasks w !! other).
Proof.
  destruct r as [task_id | task_id]; cbn [serve_request request_task_id snd].
  - pose proof (cancel_task_effect w task_id) as (? & ? & ? & _). auto.
  - pose proof (delete_task_effect w task_id) as (? & ? & ? & _). auto.
Qed.

Lemma serve_frame (rs : list Request) (w : World) :
  let w' := (serve rs w).2 in
  (serve rs w).1 = Return ()
  /\ trace w' = trace w /\ inbox w' = inbox w
  /\ (forall other, Forall (fun r => request_task_id r <> other) rs ->
      processing_tasks w' !! other = processing_tasks w !! other).
Proof.
  revert w. induction rs as [| r rs IH]; intros w; cbn zeta.
  - cbn [serve]. rewrite mret_run. cbn [fst snd]. auto.
  - cbn [serve]. rewrite bind_run.
    pose proof (serve_request_frame r w) as (Ht & Hi & Hf). cbn zeta in *.
    assert (E : (serve_request r w).1 = Return ()) by (destruct r; reflexivity).
    destruct (serve_request r w) as [o w1]. cbn [fst snd] in E, Ht, Hi, Hf. subst o.
    destruct (IH w1) as (Ho & Ht' & Hi' & Hf'). cbn zeta in *.
    repeat split; [assumption | congruence | congruence |].
    intros other Hall. inversion Hall; subst.
    rewrite Hf' by assumption. apply Hf. congruence.
Qed.

Lemma await_point_frame (w : World) :
  let w' := (await_point w).2 in
  (await_point w).1 = Return ()
  /\ trace w' = trace w /\ inbox w' = tl (inbox w)
  /\ (forall other, Forall (fun r => request_task_id r <> other) (next_requests w) ->
      processing_tasks w' !! other = processing_tasks w !! other).
Proof.
  cbn zeta. unfold await_point, next_requests.
  destruct (inbox w) as [| rs rest] eqn:E; cbn [hd tl].
  - cbn [fst snd]. auto.
  - pose proof (serve_frame rs (mkWorld (processing_tasks w) (trace w) rest)) as H.
    cbn zeta in H. cbn [processing_tasks trace inbox] in H. exact H.
Qed.

(** *** What the pipeline's own writes change *)

Lemma own_write_refl (task_id : pystr) (w : World) : own_write task_id w w.
Proof. split; auto. Qed.

Lemma own_write_store (task_id : pystr) (w : World) (t : Task.t) (tr : list Event) :
  own_write task_id w (mkWorld (<[task_id := t]> (processing_tasks w)) tr (inbox w)).
Proof.
  split; [reflexivity |]. intros other Hne. cbn [processing_tasks].
  apply lookup_insert_ne. congruence.
Qed.

Lemma setitem_progress_own (task_id : pystr) (value : Z) (w : World) :
  own_write task_id w (setitem_progress task_id value w).2.
Proof.
  destruct (processing_tasks w !! task_id) as [t |] eqn:Ht.
  - rewrite (setitem_progress_run _ _ _ _ Ht). apply own_write_store.
  - rewrite (setitem_progress_missing _ _ _ Ht). apply own_write_refl.
Qed.

Lemma setitem_current_step_own (task_id step : pystr) (w : World) :
  own_write task_id w (setitem_current_step task_id step w).2.
Proof.
  destruct (processing_tasks w !! task_id) as [t |] eqn:Ht.
  - rewrite (setitem_current_step_run _ _ _ _ Ht). apply own_write_store.
  - rewrite (setitem_current_step_missing _ _ _ Ht). apply own_write_refl.
Qed.

Lemma update_completed_run (w : World) (task_id : pystr)
    (result : PDFAnalysisResponse.t) (t : Task.t) :
  processing_tasks w !! task_id = Some t ->
  update_completed task_id result w =
    (Return (),
     mkWorld
       (<[task_id := Task.set_result (Some result)
                       (Task.set_current_step (u "분석 완료")
                          (Task.set_progress 100 (Task.set_status completed t)))]>
          (processing_tasks w))
       (ProgressWrite task_id 100 (Task.status t) completed :: trace w) (inbox w)).
Proof.
  intros H. unfold update_completed.
  rewrite (bind_return _ _ _ _ _ (getitem_run _ _ _ H)). reflexivity.
Qed.

Lemma update_completed_missing (w : World) (task_id : pystr)
    (result : PDFAnalysisResponse.t) :
  processing_tasks w !! task_id = None ->
  update_completed task_id result w = (Raise (KeyError task_id), w).
Proof.
  intros H. unfold update_completed.
  rewrite (bind_raise _ _ _ _ _ (getitem_missing _ _ H)). reflexivity.
Qed.

Lemma update_failed_run (w : World) (task_id : pystr) (e : PyExc) (t : Task.t) :
  processing_tasks w !! task_id = Some t ->
  update_failed task_id e w =
    (Return (),
     mkWorld
       (<[task_id := Task.set_error (Some (str_exc e))
                       (Task.set_current_step (u "분석 실패")
                          (Task.set_progress 0 (Task.set_status failed t)))]>
          (processing_tasks w))
       (ProgressWrite task_id 0 (Task.status t) failed :: trace w) (inbox w)).
Proof.
  intros H. unfold update_failed.
  rewrite (bind_return _ _ _ _ _ (getitem_run _ _ _ H)). reflexivity.
Qed.

Lemma update_failed_missing (w : World) (task_id : pystr) (e : PyExc) :
  processing_tasks w !! task_id = None ->
  update_failed task_id e w = (Raise (KeyError task_id), w).
Proof.
  intros H. unfold update_failed.
  rewrite (bind_raise _ _ _ _ _ (getitem_missing _ _ H)). reflexivity.
Qed.

Lemma update_completed_own (task_id : pystr) (result : PDFAnalysisResponse.t) (w : World) :
  own_write task_id w (update_completed task_id result w).2.
Proof.
  destruct (processing_tasks w !! task_id) as [t |] eqn:Ht.
  - rewrite (update_completed_run _ _ _ _ Ht). apply own_write_store.
  - rewrite (update_completed_missing _ _ _ Ht). apply own_write_refl.
Qed.

Lemma update_failed_own (task_id : pystr) (e : PyExc) (w : World) :
  own_write task_id w (update_failed task_id e w).2.
Proof.
  destruct (processing_tasks w !! task_id) as [t |] eqn:Ht.
  - rewrite (update_failed_run _ _ _ _ Ht). apply own_write_store.
  - rewrite (update_failed_missing _ _ _ Ht). apply own_write_refl.
Qed.

Lemma untouched_own_write (task_id owner : pystr) (entry : option Task.t) (w w' : World) :
  owner <> task_id -> own_write owner w w' -> untouched task_id entry w ->
  untouched task_id entry w'.
Proof.
  intros Hne [Hi Hf] [He Hu]. split.
  - rewrite Hf by congruence. exact He.
  - unfold undisturbed. rewrite Hi. exact Hu.
Qed.

Lemma untouched_await (task_id : pystr) (entry : option Task.t) :
  preserves (untouched task_id entry) await_point.
Proof.
  intros w [He Hu]. pose proof (await_point_frame w) as (_ & _ & Hi & Hf). cbn zeta in *.
  split.
  - rewrite Hf; [exact He |]. unfold undisturbed, next_requests in *.
    destruct (inbox w); [constructor | inversion Hu; assumption].
  - unfold undisturbed in *. rewrite Hi. destruct (inbox w); [constructor | inversion Hu; assumption].
Qed.

Lemma untouched_step_invariant
    (ollama_generate : nat -> GenerateRequest.t -> Outcome pystr)
    (task_id owner : pystr) (entry : option Task.t) :
  owner <> task_id ->
  step_invariant ollama_generate (Some owner) (untouched task_id entry).
Proof.
  intros Hne. split.
  - intros tid value [= <-] w Hw.
    exact (untouched_own_write _ _ _ _ _ Hne (setitem_progress_own owner value w) Hw).
  - intros tid step [= <-] w Hw.
    exact (untouched_own_write _ _ _ _ _ Hne (setitem_current_step_own owner step w) Hw).
  - apply untouched_await.
  - intros req w Hw. exact Hw.
Qed.

(** C9, as the code has it. ["progress"] of a task is written by the pipeline
    that owns the task only: a cancel request writes ["status"] and
    ["current_step"] and no other key, it logs no progress write, and the
    pipeline of another task leaves the entry as it is. *)
Theorem progress_written_by_owner_only
    (ollama_generate : nat -> GenerateRequest.t -> Outcome pystr)
    (w : World) (task_id : pystr) :
  (let w' := (cancel_task task_id w).2 in
   trace w' = trace w
   /\ match processing_tasks w !! task_id with
      | None => processing_tasks w' !! task_id = None
      | Some t =>
        exists t', processing_tasks w' !! task_id = Some t'
                   /\ same_but_status_and_step t t'
      end)
  /\ (forall owner file model custom_prompt,
        owner <> task_id -> undisturbed task_id w ->
        processing_tasks
          (process_pdf_async ollama_generate owner file model custom_prompt w).2
          !! task_id
        = processing_tasks w !! task_id).
Proof.
  split.
  - pose proof (cancel_task_effect w task_id) as (Ht & _ & _ & H). cbn zeta in *.
    split; [exact Ht |].
    destruct (processing_tasks w !! task_id); [| exact H].
    destruct H as (t' & ? & ? & _). eauto.
  - intros owner file model custom_prompt Hne Hu.
    assert (H : untouched task_id (processing_tasks w !! task_id) w) by (split; auto).
    apply (preserves_process ollama_generate _ owner file model custom_prompt) in H.
    + apply H.
    + apply untouched_step_invariant, Hne.
    + intros result w1 Hw1.
      exact (untouched_own_write _ _ _ _ _ Hne (update_completed_own owner result w1) Hw1).
    + intros e w1 Hw1.
      exact (untouched_own_write _ _ _ _ _ Hne (update_failed_own owner e w1) Hw1).
Qed.

Lemma progress_written_by_owner_only_witness :
  processing_tasks
    (process_pdf_async Sample.answers (u "another") Sample.one_page Sample.model None
       (Sample.world processing)).2
    !! Sample.task_id
  = processing_tasks (Sample.world processing) !! Sample.task_id.
Proof.
  apply (progress_written_by_owner_only Sample.answers (Sample.world processing)
           Sample.task_id).
  - vm_compute. discriminate.
  - constructor.
Defined.

(** C9, as stated, fails: a cancel request writes ["current_step"]. *)
Lemma cancel_task_writes_current_step :
  Task.current_step <$> processing_tasks (Sample.world processing) !! Sample.task_id
  = Some (u "PDF 분석 시작")
  /\ Task.current_step
       <$> processing_tasks (cancel_task Sample.task_id (Sample.world processing)).2
             !! Sample.task_id
     = Some (u "사용자에 의해 취소됨").
Proof. split; vm_compute; reflexivity. Qed.

(** ** Images of four or more colour components *)

Lemma setitem_progress_calls (task_id : pystr) (value : Z) (w : World) :
  generate_count (trace (setitem_progress task_id value w).2) = generate_count (trace w)
  /\ inbox (setitem_progress task_id value w).2 = inbox w.
Proof.
  destruct (processing_tasks w !! task_id) as [t |] eqn:Ht.
  - rewrite (setitem_progress_run _ _ _ _ Ht). split; reflexivity.
  - rewrite (setitem_progress_missing _ _ _ Ht). split; reflexivity.
Qed.

Lemma setitem_current_step_calls (task_id step : pystr) (w : World) :
  trace (setitem_current_step task_id step w).2 = trace w
  /\ inbox (setitem_current_step task_id step w).2 = inbox w.
Proof.
  destruct (processing_tasks w !! task_id) as [t |] eqn:Ht.
  - rewrite (setitem_current_step_run _ _ _ _ Ht). split; reflexivity.
  - rewrite (setitem_current_step_missing _ _ _ Ht). split; reflexivity.
Qed.

(** C10. An image whose pixmap has four or more colour components beside
    alpha is skipped: its iteration is the cancellation check and the progress
    report, the text is handed on as it is, no request is sent to the model and
    the coroutine is not suspended; the loop goes on with the next image. *)
Theorem four_component_image_is_skipped
    (ollama_generate : nat -> GenerateRequest.t -> Outcome pystr)
    (model : pystr) (task_id : option pystr)
    (page_num page_count len_image_list img_index : Z)
    (img : Image) (rest : list Image) (all_text : pystr) (w : World) :
  four_or_more_components img ->
  let report :=
    if_task_id task_id (fun tid =>
      setitem_progress tid (img_progress page_num page_count img_index len_image_list);;
      setitem_current_step tid
        (u "페이지 " ++ str_int page_num ++ u " 이미지 "
           ++ str_int (img_index + 1) ++ u "/" ++ str_int len_image_list
           ++ u " 분석 중")) in
  image_loop ollama_generate model task_id page_num page_count len_image_list
    img_index (img :: rest) all_text w
  = (check_cancelled task_id;; report;;
     image_loop ollama_generate model task_id page_num page_count len_image_list
       (img_index + 1) rest all_text) w
  /\ (let w' := ((check_cancelled task_id;; report) w).2 in
      generate_count (trace w') = generate_count (trace w) /\ inbox w' = inbox w).
Proof.
  intros (pix & Hpix & Hn). cbn zeta. split.
  - cbn [image_loop]. rewrite !bind_run.
    destruct (check_cancelled task_id w) as [[[] | e] w1]; [| reflexivity].
    rewrite !bind_run.
    destruct (if_task_id task_id _ w1) as [[[] | e] w2]; [| reflexivity].
    rewrite bind_run. unfold try_except. rewrite bind_run, Hpix. unfold lift.
    destruct (decide (Pixmap.n pix - Pixmap.alpha pix < 4)%Z); [lia |].
    reflexivity.
  - rewrite bind_run.
    assert (Hc : (check_cancelled task_id w).2 = w).
    { destruct task_id as [[| c s] |]; try reflexivity.
      cbn [check_cancelled if_task_id]. rewrite bind_run. unfold get_status.
      destruct (decide _); reflexivity. }
    destruct (check_cancelled task_id w) as [[[] | e] w1]; cbn [snd] in Hc; subst w1;
      [| split; reflexivity].
    destruct task_id as [[| c s] |]; try (split; reflexivity).
    cbn [if_task_id]. rewrite bind_run.
    pose proof (setitem_progress_calls (c :: s)
                  (img_progress page_num page_count img_index len_image_list) w) as [H1 H2].
    destruct (setitem_progress (c :: s) _ w) as [[[] | e] w1]; cbn [snd] in H1, H2; [| auto].
    pose proof (setitem_current_step_calls (c :: s)
                  (u "페이지 " ++ str_int page_num ++ u " 이미지 "
                     ++ str_int (img_index + 1) ++ u "/" ++ str_int len_image_list
                     ++ u " 분석 중") w1) as [H3 H4].
    split; congruence.
Qed.

Lemma four_component_image_is_skipped_witness :
  image_loop Sample.answers Sample.model (Some Sample.task_id) 1 1 1 0
    [Sample.cmyk] (u "--- 페이지 1 ---") (Sample.world processing)
  = (check_cancelled (Some Sample.task_id);;
     if_task_id (Some Sample.task_id) (fun tid =>
       setitem_progress tid (img_progress 1 1 0 1);;
       setitem_current_step tid
         (u "페이지 " ++ str_int 1 ++ u " 이미지 "
            ++ str_int (0 + 1) ++ u "/" ++ str_int 1 ++ u " 분석 중"));;
     image_loop Sample.answers Sample.model (Some Sample.task_id) 1 1 1 (0 + 1)
       [] (u "--- 페이지 1 ---")) (Sample.world processing).
Proof.
  apply (four_component_image_is_skipped Sample.answers Sample.model
           (Some Sample.task_id) 1 1 1 0 Sample.cmyk [] (u "--- 페이지 1 ---")
           (Sample.world processing)).
  eexists. split; [reflexivity |]. cbn [Pixmap.n Pixmap.alpha]. lia.
Defined.

(** ** Cancellation and the background job *)

Lemma check_cancelled_raises (w : World) (task_id : pystr) (t : Task.t) :
  task_id <> [] -> processing_tasks w !! task_id = Some t -> Task.status t = cancelled ->
  check_cancelled (Some task_id) w = (Raise (Exception (u "Task was cancelled")), w).
Proof.
  intros Hne Ht Hs. destruct task_id as [| c s]; [contradiction |].
  cbn [check_cancelled if_task_id]. rewrite bind_run. unfold get_status. rewrite Ht. cbn.
  rewrite Hs. destruct (decide _); [reflexivity | contradiction].
Qed.

Lemma check_cancelled_passes (w : World) (task_id : option pystr) :
  (forall tid t, task_id = Some tid -> processing_tasks w !! tid = Some t ->
                 Task.status t <> cancelled) ->
  check_cancelled task_id w = (Return (), w).
Proof.
  intros H. destruct task_id as [[| c s] |]; try reflexivity.
  cbn [check_cancelled if_task_id]. rewrite bind_run. unfold get_status.
  destruct (processing_tasks w !! (c :: s)) as [t |] eqn:Ht; cbn.
  - destruct (decide _) as [E | _]; [| reflexivity].
    injection E as E. exfalso. exact (H _ _ eq_refl Ht E).
  - destruct (decide _) as [E | _]; [discriminate | reflexivity].
Qed.

Lemma report_step_progress_run (w : World) (task_id step : pystr) (value : Z) (t : Task.t) :
  task_id <> [] -> processing_tasks w !! task_id = Some t ->
  if_task_id (Some task_id) (fun tid =>
    setitem_current_step tid step;; setitem_progress tid value) w
  = (Return (),
     mkWorld
       (<[task_id := Task.set_progress value (Task.set_current_step step t)]>
          (processing_tasks w))
       (ProgressWrite task_id value (Task.status t) (Task.status t) :: trace w)
       (inbox w)).
Proof.
  intros Hne Ht. destruct task_id as [| c s]; [contradiction |]. cbn [if_task_id].
  rewrite bind_run, (setitem_current_step_run _ _ _ _ Ht).
  rewrite (setitem_progress_run _ _ _ (Task.set_current_step step t)) by apply lookup_insert_eq.
  cbn [processing_tasks trace inbox]. rewrite insert_insert_eq. reflexivity.
Qed.

Lemma report_progress_step_run (w : World) (task_id step : pystr) (value : Z) (t : Task.t) :
  task_id <> [] -> processing_tasks w !! task_id = Some t ->
  if_task_id (Some task_id) (fun tid =>
    setitem_progress tid value;; setitem_current_step tid step) w
  = (Return (),
     mkWorld
       (<[task_id := Task.set_current_step step (Task.set_progress value t)]>
          (processing_tasks w))
       (ProgressWrite task_id value (Task.status t) (Task.status t) :: trace w)
       (inbox w)).
Proof.
  intros Hne Ht. destruct task_id as [| c s]; [contradiction |]. cbn [if_task_id].
  rewrite bind_run, (setitem_progress_run _ _ _ _ Ht).
  rewrite (setitem_current_step_run _ _ _ (Task.set_progress value t)) by apply lookup_insert_eq.
  cbn [processing_tasks trace inbox]. rewrite insert_insert_eq. reflexivity.
Qed.

(** *** Requests served at a suspension *)

Lemma serve_request_keeps (r : Request) (w : World) (task_id : pystr) (t : Task.t) :
  r <> DELETE_task task_id -> processing_tasks w !! task_id = Some t ->
  exists t', processing_tasks (serve_request r w).2 !! task_id = Some t'
             /\ same_but_status_and_step t t'
             /\ (Task.status t' = Task.status t
                 \/ Task.status t = processing /\ Task.status t' = cancelled)
             /\ (r = POST_cancel task_id -> Task.status t = processing ->
                 Task.status t' = cancelled).
Proof.
  intros Hr Ht.
  destruct (decide (request_task_id r = task_id)) as [E | NE].
  - destruct r as [tid | tid]; cbn in E; subst tid; [| contradiction].
    cbn [serve_request snd].
    destruct (decide (Task.status t = processing)) as [Hs | Hs].
    + rewrite (cancel_task_run _ _ _ Ht Hs). cbn. eexists. split; [apply lookup_insert_eq |].
      split; [repeat split |]. split; [right; split; [assumption | reflexivity] | reflexivity].
    + rewrite (cancel_task_refused _ _ _ Ht Hs). cbn. exists t. split; [assumption |].
      split; [repeat split |]. split; [left; reflexivity | intros _ ?; contradiction].
  - pose proof (serve_request_frame r w) as (_ & _ & Hf). cbn zeta in Hf.
    exists t. rewrite Hf by congruence.
    split; [assumption |]. split; [repeat split |].
    split; [left; reflexivity |]. intros ->. cbn in NE. contradiction.
Qed.

Lemma same_but_status_and_step_trans (t1 t2 t3 : Task.t) :
  same_but_status_and_step t1 t2 -> same_but_status_and_step t2 t3 ->
  same_but_status_and_step t1 t3.
Proof. unfold same_but_status_and_step. intuition congruence. Qed.

Lemma serve_keeps (rs : list Request) (w : World) (task_id : pystr) (t : Task.t) :
  DELETE_task task_id ∉ rs -> processing_tasks w !! task_id = Some t ->
  exists t', processing_tasks (serve rs w).2 !! task_id = Some t'
             /\ same_but_status_and_step t t'
             /\ (Task.status t' = Task.status t
                 \/ Task.status t = processing /\ Task.status t' = cancelled)
             /\ (POST_cancel task_id ∈ rs -> Task.status t = processing ->
                 Task.status t' = cancelled).
Proof.
  revert w t. induction rs as [| r rs IH]; intros w t Hd Ht.
  - exists t. cbn. split; [assumption |]. split; [repeat split |].
    split; [left; reflexivity |]. intros H. inversion H.
  - cbn [serve]. rewrite bind_run.
    assert (Hr : r <> DELETE_task task_id) by (intros ->; apply Hd; left).
    assert (Hd' : DELETE_task task_id ∉ rs) by (intros H; apply Hd; right; exact H).
    destruct (serve_request_keeps r w task_id t Hr Ht) as (t1 & Ht1 & Hsame1 & Hst1 & Hc1).
    assert (E : (serve_request r w).1 = Return ()) by (destruct r; reflexivity).
    destruct (serve_request r w) as [o w1]. cbn in E, Ht1. subst o.
    destruct (IH w1 t1 Hd' Ht1) as (t2 & Ht2 & Hsame2 & Hst2 & Hc2).
    exists t2. split; [assumption |].
    split; [eapply same_but_status_and_step_trans; eassumption |].
    split.
    + destruct Hst1 as [E1 | [E1 E1']], Hst2 as [E2 | [E2 E2']]; try (left; congruence);
        right; split; congruence.
    + intros Hin Hs. apply elem_of_cons in Hin as [<- | Hin].
      * specialize (Hc1 eq_refl Hs). destruct Hst2 as [E2 | [E2 _]]; congruence.
      * destruct Hst1 as [E1 | [_ E1']].
        -- apply Hc2; [assumption | congruence].
        -- destruct Hst2 as [E2 | [E2 _]]; congruence.
Qed.

Lemma await_point_run (w : World) :
  await_point w
  = (Return (),
     (serve (next_requests w) (mkWorld (processing_tasks w) (trace w) (tl (inbox w)))).2).
Proof.
  unfold await_point, next_requests. destruct (inbox w) as [| rs rest] eqn:E; cbn [hd tl].
  - cbn. destruct w; cbn in *; subst; reflexivity.
  - pose proof (serve_frame rs (mkWorld (processing_tasks w) (trace w) rest)) as [H _].
    destruct (serve rs _) as [o w']. cbn in H. subst o. reflexivity.
Qed.

Lemma await_point_keeps (w : World) (task_id : pystr) (t : Task.t) :
  DELETE_task task_id ∉ next_requests w -> processing_tasks w !! task_id = Some t ->
  exists w' t',
    await_point w = (Return (), w')
    /\ trace w' = trace w /\ inbox w' = tl (inbox w)
    /\ processing_tasks w' !! task_id = Some t'
    /\ same_but_status_and_step t t'
    /\ (Task.status t' = Task.status t
        \/ Task.status t = processing /\ Task.status t' = cancelled)
    /\ (POST_cancel task_id ∈ next_requests w -> Task.status t = processing ->
        Task.status t' = cancelled).
Proof.
  intros Hd Ht. rewrite await_point_run.
  set (w0 := mkWorld (processing_tasks w) (trace w) (tl (inbox w))).
  destruct (serve_keeps (next_requests w) w0 task_id t Hd Ht) as (t' & H1 & H2 & H3 & H4).
  pose proof (serve_frame (next_requests w) w0) as (_ & Htr & Hin & _). cbn zeta in *.
  eexists _, t'. split; [reflexivity |].
  split; [exact Htr |]. split; [exact Hin |]. split; [exact H1 |].
  split; [exact H2 |]. split; [exact H3 | exact H4].
Qed.

Lemma analyze_pdf_async_run
    (ollama_generate : nat -> GenerateRequest.t -> Outcome pystr)
    (w : World) (task_id : pystr) (file : UploadFile.t) (model : pystr)
    (custom_prompt : option pystr) :
  is_pdf file = true ->
  analyze_pdf_async task_id file model custom_prompt w
  = (Return task_id,
     mkWorld
       (<[task_id := Task.mk task_id processing 0 (u "PDF 분석 시작") None None
                       (UploadFile.filename file) model]> (processing_tasks w))
       (ProgressWrite task_id 0 processing processing :: trace w) (inbox w)).
Proof. intros H. unfold analyze_pdf_async, try_except. rewrite H. reflexivity. Qed.

Lemma page_loop_cancelled
    (ollama_generate : nat -> GenerateRequest.t -> Outcome pystr)
    (model task_id : pystr) (page_count page_num : Z)
    (page : FitzPage * PlumberPage) (pages : list (FitzPage * PlumberPage))
    (all_text : pystr) (w : World) (t : Task.t) :
  task_id <> [] -> processing_tasks w !! task_id = Some t -> Task.status t = cancelled ->
  page_loop ollama_generate model (Some task_id) page_count page_num (page :: pages)
    all_text w
  = (Raise (Exception (u "Task was cancelled")), w).
Proof.
  intros Hne Ht Hs. destruct page as [fitz_page plumber_page]. cbn [page_loop].
  rewrite bind_run, (check_cancelled_raises _ _ _ Hne Ht Hs). reflexivity.
Qed.

Lemma cancelled_message : contains (u "Task was cancelled") (u "cancelled") = true.
Proof. vm_compute. reflexivity. Qed.

Lemma extract_cancelled_at_first_checkpoint
    (ollama_generate : nat -> GenerateRequest.t -> Outcome pystr)
    (model task_id : pystr) (file : UploadFile.t) (w : World) (t : Task.t)
    (fp : FitzPage) (fps : list FitzPage) (pp : PlumberPage) (pps : list PlumberPage) :
  task_id <> [] ->
  UploadFile.fitz_open file = Return (fp :: fps) ->
  UploadFile.pdfplumber_open file = Return (pp :: pps) ->
  processing_tasks w !! task_id = Some t -> Task.status t = processing ->
  POST_cancel task_id ∈ next_requests w -> DELETE_task task_id ∉ next_requests w ->
  exists w' t',
    extract_images_from_pdf_and_analyze ollama_generate model (Some task_id) file w
    = (Raise (Exception (u "Task was cancelled")), w')
    /\ processing_tasks w' !! task_id = Some t'
    /\ Task.status t' = cancelled
    /\ Task.result t' = Task.result t /\ Task.error t' = Task.error t
    /\ trace w' = ProgressWrite task_id 10 cancelled cancelled :: trace w.
Proof.
  intros Hne Hf Hp Ht Hs Hc Hd.
  destruct (await_point_keeps w task_id t Hd Ht)
    as (w1 & t1 & Ha & Htr & _ & Ht1 & Hsame & _ & Hcan).
  specialize (Hcan Hc Hs).
  destruct Hsame as (_ & _ & Hres & Herr & _).
  set (step := u "PDF 문서 로드 완료 (" ++ str_int (Z.of_nat (length (fp :: fps)))
                 ++ u "페이지)").
  set (t2 := Task.set_progress 10 (Task.set_current_step step t1)).
  set (w2 := mkWorld (<[task_id := t2]> (processing_tasks w1))
               (ProgressWrite task_id 10 (Task.status t1) (Task.status t1) :: trace w1)
               (inbox w1)).
  exists w2, t2. split.
  - unfold extract_images_from_pdf_and_analyze.
    match goal with
    | |- try_except ?body ?h w = _ =>
      assert (Hbody : body w = (Raise (Exception (u "Task was cancelled")), w2))
    end.
    { unfold await. rewrite !bind_run, Ha. unfold UploadFile_read. rewrite mret_run.
      rewrite bind_run, Hf. unfold lift at 1.
      rewrite bind_run, (report_step_progress_run _ _ _ _ _ Hne Ht1).
      fold step. fold t2. fold w2.
      rewrite bind_run, Hp. unfold lift at 1. cbn [zip zip_with].
      rewrite bind_run.
      rewrite (page_loop_cancelled ollama_generate model task_id _ _ _ _ _ w2 t2 Hne);
        [reflexivity | apply lookup_insert_eq | exact Hcan]. }
    rewrite (try_except_raise _ _ _ _ _ Hbody). cbn [str_exc].
    rewrite cancelled_message. reflexivity.
  - subst w2 t2. cbn [processing_tasks trace]. split; [apply lookup_insert_eq |].
    split; [exact Hcan |]. split; [exact Hres |]. split; [exact Herr |].
    rewrite Hcan, Htr. reflexivity.
Qed.

(** C1, as the code behaves. A task that is cancelled while the upload is
    read, before the pipeline's first checkpoint, does not stay cancelled: the
    checkpoint raises, the background job handles the exception like any
    failure, and the task ends failed, with the error ["Task was cancelled"]
    and its progress reset to 0. *)
Theorem cancel_before_first_checkpoint_ends_failed
    (ollama_generate : nat -> GenerateRequest.t -> Outcome pystr)
    (task_id : pystr) (file : UploadFile.t) (model : pystr)
    (custom_prompt : option pystr) (w : World)
    (fp : FitzPage) (fps : list FitzPage) (pp : PlumberPage) (pps : list PlumberPage) :
  task_id <> [] -> is_pdf file = true ->
  UploadFile.fitz_open file = Return (fp :: fps) ->
  UploadFile.pdfplumber_open file = Return (pp :: pps) ->
  POST_cancel task_id ∈ next_requests w -> DELETE_task task_id ∉ next_requests w ->
  exists t,
    processing_tasks
      (analyze_pdf_async_and_run ollama_generate task_id file model custom_prompt w).2
      !! task_id = Some t
    /\ Task.status t = failed
    /\ Task.error t = Some (u "Task was cancelled")
    /\ Task.result t = None
    /\ Task.progress t = 0%Z.
Proof.
  intros Hne Hpdf Hf Hp Hc Hd. unfold analyze_pdf_async_and_run.
  rewrite bind_run, (analyze_pdf_async_run ollama_generate _ _ _ _ _ Hpdf).
  set (t0 := Task.mk task_id processing 0 (u "PDF 분석 시작") None None
               (UploadFile.filename file) model).
  set (w0 := mkWorld _ _ _).
  destruct (extract_cancelled_at_first_checkpoint ollama_generate model task_id file
              w0 t0 fp fps pp pps Hne Hf Hp)
    as (w1 & t1 & He & Ht1 & Hs1 & Hres & Herr & _);
    [apply lookup_insert_eq | reflexivity | exact Hc | exact Hd |].
  unfold process_pdf_async.
  erewrite try_except_raise; [| rewrite bind_run, He; reflexivity].
  rewrite (update_failed_run _ _ _ _ Ht1). cbn [snd processing_tasks].
  eexists. split; [apply lookup_insert_eq |]. cbn. rewrite Hres. auto.
Qed.

Lemma cancel_before_first_checkpoint_ends_failed_witness :
  exists t,
    processing_tasks
      (Sample.run Sample.answers Sample.one_page [[POST_cancel Sample.task_id]])
      !! Sample.task_id = Some t
    /\ Task.status t = failed
    /\ Task.error t = Some (u "Task was cancelled")
    /\ Task.result t = None
    /\ Task.progress t = 0%Z.
Proof.
  apply (cancel_before_first_checkpoint_ends_failed Sample.answers Sample.task_id
           Sample.one_page Sample.model None
           (Sample.idle [[POST_cancel Sample.task_id]])
           (Sample.fitz_page (Sample.parsed "alpha" [])) []
           (Sample.plumber_page (Sample.parsed "alpha" [])) []).
  - vm_compute. discriminate.
  - vm_compute. reflexivity.
  - reflexivity.
  - reflexivity.
  - left.
  - intros H. apply list_elem_of_singleton in H. discriminate.
Defined.

(** *** Properties of a task that the pipeline and the requests keep *)

Section TaskInvariant.

Variable ollama_generate : nat -> GenerateRequest.t -> Outcome pystr.
Variable task_id : pystr.
Variable phi : Task.t -> Prop.
Hypothesis Hphi : stable phi.

Lemma task_invariant_insert (w : World) (tid : pystr) (t t' : Task.t) (tr : list Event) :
  processing_tasks w !! tid = Some t -> (phi t -> phi t') ->
  task_invariant task_id phi w ->
  task_invariant task_id phi (mkWorld (<[tid := t']> (processing_tasks w)) tr (inbox w)).
Proof.
  intros Ht Hstep Hw x. cbn [processing_tasks].
  destruct (decide (tid = task_id)) as [-> | Hne].
  - rewrite lookup_insert_eq. intros [= <-]. apply Hstep, Hw, Ht.
  - rewrite lookup_insert_ne by assumption. apply Hw.
Qed.

Lemma task_invariant_progress (tid : pystr) (value : Z) :
  preserves (task_invariant task_id phi) (setitem_progress tid value).
Proof.
  intros w Hw. destruct (processing_tasks w !! tid) as [t |] eqn:Ht.
  - rewrite (setitem_progress_run _ _ _ _ Ht).
    apply (task_invariant_insert w tid t); [assumption | | assumption].
    intros H. apply Hphi, H.
  - rewrite (setitem_progress_missing _ _ _ Ht). exact Hw.
Qed.

Lemma task_invariant_current_step (tid step : pystr) :
  preserves (task_invariant task_id phi) (setitem_current_step tid step).
Proof.
  intros w Hw. destruct (processing_tasks w !! tid) as [t |] eqn:Ht.
  - rewrite (setitem_current_step_run _ _ _ _ Ht).
    apply (task_invariant_insert w tid t); [assumption | | assumption].
    intros H. apply Hphi, H.
  - rewrite (setitem_current_step_missing _ _ _ Ht). exact Hw.
Qed.

Lemma task_invariant_serve_request (r : Request) :
  preserves (task_invariant task_id phi) (serve_request r).
Proof.
  intros w Hw. destruct r as [tid | tid]; cbn [serve_request snd].
  - destruct (processing_tasks w !! tid) as [t |] eqn:Ht.
    + destruct (decide (Task.status t = processing)) as [Hs | Hs].
      * rewrite (cancel_task_run _ _ _ Ht Hs).
        apply (task_invariant_insert w tid t); [assumption | | assumption].
        intros H. apply Hphi, Hphi, H.
      * rewrite (cancel_task_refused _ _ _ Ht Hs). exact Hw.
    + rewrite (cancel_task_missing _ _ Ht). exact Hw.
  - pose proof (delete_task_effect w tid) as (_ & _ & Hf & Hnone). cbn zeta in *.
    intros x Hx. destruct (decide (task_id = tid)) as [-> | Hne].
    + rewrite Hnone in Hx. discriminate.
    + rewrite Hf in Hx by assumption. apply Hw, Hx.
Qed.

Lemma task_invariant_await : preserves (task_invariant task_id phi) await_point.
Proof.
  intros w Hw. unfold await_point. destruct (inbox w) as [| rs rest]; [exact Hw |].
  apply preserves_serve; [| exact Hw].
  intros r _. apply task_invariant_serve_request.
Qed.

Lemma task_invariant_steps (running : option pystr) :
  step_invariant ollama_generate running (task_invariant task_id phi).
Proof.
  split.
  - intros tid value _. apply task_invariant_progress.
  - intros tid step _. apply task_invariant_current_step.
  - apply task_invariant_await.
  - intros req w Hw. exact Hw.
Qed.

End TaskInvariant.

Lemma no_result_no_error_stable :
  stable (fun t => Task.result t = None /\ Task.error t = None).
Proof. intros t H. repeat split; apply H. Qed.

(** *** The job after the extraction *)

Lemma process_after_extract
    (ollama_generate : nat -> GenerateRequest.t -> Outcome pystr)
    (task_id : pystr) (file : UploadFile.t) (model : pystr)
    (custom_prompt : option pystr) (w w1 : World)
    (text_content : pystr) (page_count : Z) (t1 : Task.t) :
  extract_images_from_pdf_and_analyze ollama_generate model (Some task_id) file w
  = (Return (text_content, page_count), w1) ->
  processing_tasks w1 !! task_id = Some t1 ->
  Task.status t1 <> cancelled ->
  exists w3 t3,
    processing_tasks w3 !! task_id = Some t3
    /\ (Task.result t3 = Task.result t1 /\ Task.error t3 = Task.error t1)
    /\ Task.status t3 = Task.status t1
    /\ inbox w3 = inbox w1
    /\ trace w3
       = Generate (summary_request text_content model custom_prompt)
           :: ProgressWrite task_id 90 (Task.status t1) (Task.status t1) :: trace w1
    /\ process_pdf_async ollama_generate task_id file model custom_prompt w
       = match ollama_generate (generate_count (trace w1))
                 (summary_request text_content model custom_prompt) with
         | Return analysis =>
           update_completed task_id
             (PDFAnalysisResponse.mk (UploadFile.filename file) text_content analysis
                model page_count (Some task_id)) w3
         | Raise e =>
           update_failed task_id
             (HTTPException 500 (u "Failed to analyze text with Ollama: " ++ str_exc e)) w3
         end.
Proof.
  intros He Ht1 Hs.
  set (t2 := Task.set_progress 90 (Task.set_current_step (u "AI 분석 중") t1)).
  set (w2 := mkWorld (<[task_id := t2]> (processing_tasks w1))
               (ProgressWrite task_id 90 (Task.status t1) (Task.status t1) :: trace w1)
               (inbox w1)).
  assert (Ht2 : processing_tasks w2 !! task_id = Some t2) by apply lookup_insert_eq.
  set (req := summary_request text_content model custom_prompt).
  exists (mkWorld (processing_tasks w2) (Generate req :: trace w2) (inbox w2)), t2.
  split; [exact Ht2 |]. split; [split; reflexivity |].
  split; [reflexivity |]. split; [reflexivity |]. split; [reflexivity |].
  unfold process_pdf_async, try_except at 1.
  rewrite bind_run, He. rewrite bind_run. unfold get_status at 1. rewrite Ht1. cbn [fmap option_fmap option_map].
  destruct (decide (Some (Task.status t1) = Some cancelled)) as [E | _];
    [injection E as E; contradiction |].
  rewrite bind_run, (setitem_current_step_run _ _ _ _ Ht1).
  rewrite bind_run.
  rewrite (setitem_progress_run _ _ _ (Task.set_current_step (u "AI 분석 중") t1))
    by apply lookup_insert_eq.
  cbn [processing_tasks trace inbox]. rewrite insert_insert_eq.
  change (Task.status (Task.set_current_step (u "AI 분석 중") t1)) with (Task.status t1).
  fold t2. fold w2.
  rewrite bind_run.
  unfold analyze_text_with_ollama, try_except, generate.
  fold (summary_request text_content model custom_prompt). fold req.
  change (generate_count (trace w2)) with (generate_count (trace w1)).
  destruct (ollama_generate (generate_count (trace w1)) req) as [analysis | e].
  - rewrite (update_completed_run _ _ _ t2) by exact Ht2. reflexivity.
  - reflexivity.
Qed.

(** *** The last check and the completion write *)

Lemma no_completion_over_cancellation_steps
    (ollama_generate : nat -> GenerateRequest.t -> Outcome pystr)
    (task_id : pystr) (running : option pystr) (w0 : World) :
  step_invariant ollama_generate running
    (fun w => forall value,
       ProgressWrite task_id value cancelled completed ∈ trace w ->
       ProgressWrite task_id value cancelled completed ∈ trace w0).
Proof.
  split.
  - intros tid value _ w Hw v. destruct (processing_tasks w !! tid) as [t |] eqn:Ht.
    + rewrite (setitem_progress_run _ _ _ _ Ht). cbn [snd trace].
      intros Hin. apply elem_of_cons in Hin as [Heq | Hin]; [| apply Hw, Hin].
      inversion Heq; congruence.
    + rewrite (setitem_progress_missing _ _ _ Ht). apply Hw.
  - intros tid step _ w Hw v. destruct (processing_tasks w !! tid) as [t |] eqn:Ht.
    + rewrite (setitem_current_step_run _ _ _ _ Ht). apply Hw.
    + rewrite (setitem_current_step_missing _ _ _ Ht). apply Hw.
  - intros w Hw v. destruct (await_point_frame w) as (_ & Htr & _).
    rewrite Htr. apply Hw.
  - intros req w Hw v. unfold generate. cbn [snd trace].
    intros Hin. apply elem_of_cons in Hin as [Heq | Hin]; [discriminate | apply Hw, Hin].
Qed.

(** C3. Between the job's last cancellation check and its completion write
    nothing suspends the job, so no request is served there.  In every run,
    whatever the requests that arrive and whenever they are served: no write
    that completes the task finds it cancelled.  A task that the last check
    finds cancelled is left as it is, with no completion.  After a check
    that finds the task not cancelled, the schedule of requests is untouched
    up to the end of the job, and the job's final write, the completion or
    the failure, finds the status the check has seen. *)
Theorem completion_never_overwrites_a_cancellation
    (ollama_generate : nat -> GenerateRequest.t -> Outcome pystr)
    (task_id : pystr) (file : UploadFile.t) (model : pystr)
    (custom_prompt : option pystr) (w : World) :
  let w' := (process_pdf_async ollama_generate task_id file model custom_prompt w).2 in
  (forall value,
     ProgressWrite task_id value cancelled completed ∈ trace w' ->
     ProgressWrite task_id value cancelled completed ∈ trace w)
  /\ forall (text_content : pystr) (page_count : Z) (w1 : World) (t1 : Task.t),
       extract_images_from_pdf_and_analyze ollama_generate model (Some task_id) file w
       = (Return (text_content, page_count), w1) ->
       processing_tasks w1 !! task_id = Some t1 ->
       (Task.status t1 = cancelled ->
        process_pdf_async ollama_generate task_id file model custom_prompt w
        = (Return (), w1))
       /\ (Task.status t1 <> cancelled ->
           inbox w' = inbox w1
           /\ exists value status_at,
                trace w'
                = ProgressWrite task_id value (Task.status t1) status_at
                    :: Generate (summary_request text_content model custom_prompt)
                    :: ProgressWrite task_id 90 (Task.status t1) (Task.status t1)
                    :: trace w1).
Proof.
  intros w'. subst w'.
  assert (Hcancelled :
    forall text_content page_count w1 t1,
      extract_images_from_pdf_and_analyze ollama_generate model (Some task_id) file w
      = (Return (text_content, page_count), w1) ->
      processing_tasks w1 !! task_id = Some t1 -> Task.status t1 = cancelled ->
      process_pdf_async ollama_generate task_id file model custom_prompt w
      = (Return (), w1)).
  { intros text_content page_count w1 t1 He Ht1 Hs.
    unfold process_pdf_async, try_except.
    rewrite bind_run, He. rewrite bind_run. unfold get_status. rewrite Ht1.
    cbn [fmap option_fmap option_map]. rewrite Hs.
    destruct (decide _); [reflexivity | contradiction]. }
  assert (Hrunning :
    forall text_content page_count w1 t1,
      extract_images_from_pdf_and_analyze ollama_generate model (Some task_id) file w
      = (Return (text_content, page_count), w1) ->
      processing_tasks w1 !! task_id = Some t1 -> Task.status t1 <> cancelled ->
      let w' :=
        (process_pdf_async ollama_generate task_id file model custom_prompt w).2 in
      inbox w' = inbox w1
      /\ exists value status_at,
           trace w'
           = ProgressWrite task_id value (Task.status t1) status_at
               :: Generate (summary_request text_content model custom_prompt)
               :: ProgressWrite task_id 90 (Task.status t1) (Task.status t1)
               :: trace w1).
  { intros text_content page_count w1 t1 He Ht1 Hs.
    destruct (process_after_extract ollama_generate task_id file model custom_prompt
                w w1 text_content page_count t1 He Ht1 Hs)
      as (w3 & t3 & Ht3 & _ & Hst & Hin & Htr & Hrun).
    cbn zeta. rewrite Hrun.
    destruct (ollama_generate _ _) as [analysis | e].
    - rewrite (update_completed_run _ _ _ _ Ht3). cbn [snd inbox trace].
      split; [exact Hin |]. exists 100%Z, completed. rewrite Hst, Htr. reflexivity.
    - rewrite (update_failed_run _ _ _ _ Ht3). cbn [snd inbox trace].
      split; [exact Hin |]. exists 0%Z, failed. rewrite Hst, Htr. reflexivity. }
  split.
  - intros value.
    pose proof (preserves_extract ollama_generate model (Some task_id) _
                  (no_completion_over_cancellation_steps ollama_generate task_id
                     (Some task_id) w) file w (fun _ H => H)) as Hext.
    destruct (extract_images_from_pdf_and_analyze ollama_generate model (Some task_id)
                file w) as [[[text_content page_count] | e] w1] eqn:He;
      cbn [snd] in Hext.
    + destruct (processing_tasks w1 !! task_id) as [t1 |] eqn:Ht1.
      * destruct (decide (Task.status t1 = cancelled)) as [Hs | Hs].
        { rewrite (Hcancelled _ _ _ _ eq_refl Ht1 Hs). apply Hext. }
        destruct (Hrunning _ _ _ _ eq_refl Ht1 Hs) as (_ & v & st & Htr).
        rewrite Htr. intros Hin.
        apply elem_of_cons in Hin as [Heq | Hin].
        { inversion Heq; congruence. }
        apply elem_of_cons in Hin as [Heq | Hin]; [discriminate |].
        apply elem_of_cons in Hin as [Heq | Hin]; [| apply Hext, Hin].
        inversion Heq; congruence.
      * unfold process_pdf_async, try_except.
        rewrite bind_run, He. rewrite bind_run. unfold get_status. rewrite Ht1.
        cbn [fmap option_fmap option_map].
        destruct (decide _) as [E | _]; [discriminate |].
        rewrite bind_run, (setitem_current_step_missing _ _ _ Ht1).
        rewrite (update_failed_missing _ _ _ Ht1). apply Hext.
    + unfold process_pdf_async, try_except. rewrite bind_run, He.
      destruct (processing_tasks w1 !! task_id) as [t1 |] eqn:Ht1.
      * rewrite (update_failed_run _ _ _ _ Ht1). cbn [snd trace]. intros Hin.
        apply elem_of_cons in Hin as [Heq | Hin]; [discriminate | apply Hext, Hin].
      * rewrite (update_failed_missing _ _ _ Ht1). apply Hext.
  - intros text_content page_count w1 t1 He Ht1. split.
    + apply (Hcancelled _ _ _ _ He Ht1).
    + apply (Hrunning _ _ _ _ He Ht1).
Qed.

(** A task whose upload has no page and that is cancelled while the upload
    is read reaches the last check cancelled, and stays cancelled. *)
Lemma completion_never_overwrites_a_cancellation_witness :
  let w := mkWorld {[ Sample.task_id := Sample.task processing ]} []
             [[POST_cancel Sample.task_id]] in
  let w' := (process_pdf_async Sample.answers Sample.task_id (Sample.upload [])
               Sample.model None w).2 in
  Task.status <$> processing_tasks w' !! Sample.task_id = Some cancelled
  /\ (forall value, ProgressWrite Sample.task_id value cancelled completed ∉ trace w')
  /\ generate_count (trace w') = 0%nat.
Proof.
  intros w w'.
  destruct (completion_never_overwrites_a_cancellation Sample.answers Sample.task_id
              (Sample.upload []) Sample.model None w) as [Hnone Hcheck].
  destruct (Hcheck [] 0%Z
              (extract_images_from_pdf_and_analyze Sample.answers Sample.model
                 (Some Sample.task_id) (Sample.upload []) w).2
              (Task.set_progress 90
                 (Task.set_current_step (u "PDF 분석 완료")
                    (Task.set_progress 10
                       (Task.set_current_step (u "PDF 문서 로드 완료 (0페이지)")
                          (Task.set_current_step (u "사용자에 의해 취소됨")
                             (Task.set_status cancelled (Sample.task processing)))))))
              ltac:(vm_compute; reflexivity) ltac:(vm_compute; reflexivity))
    as [Hskip _].
  specialize (Hskip eq_refl).
  split; [| split].
  - subst w'. rewrite Hskip. vm_compute. reflexivity.
  - intros value Hin. apply Hnone in Hin. cbn [w trace] in Hin. inversion Hin.
  - subst w'. rewrite Hskip. vm_compute. reflexivity.
Defined.

(** C8. When the request for the summary raises, the job of a task created
    by the asynchronous endpoint ends failed, with a non-empty error and no
    result, provided the task is not deleted meanwhile. *)
Theorem summarization_failure_fails_task
    (ollama_generate : nat -> GenerateRequest.t -> Outcome pystr)
    (task_id : pystr) (file : UploadFile.t) (model : pystr)
    (custom_prompt : option pystr) (w w1 : World)
    (text_content : pystr) (page_count : Z) (t1 : Task.t) (e : PyExc) :
  is_pdf file = true ->
  extract_images_from_pdf_and_analyze ollama_generate model (Some task_id) file
    (analyze_pdf_async task_id file model custom_prompt w).2
  = (Return (text_content, page_count), w1) ->
  processing_tasks w1 !! task_id = Some t1 ->
  Task.status t1 <> cancelled ->
  DELETE_task task_id ∉ next_requests w1 ->
  ollama_generate (generate_count (trace w1))
    (summary_request text_content model custom_prompt) = Raise e ->
  exists t message,
    processing_tasks
      (analyze_pdf_async_and_run ollama_generate task_id file model custom_prompt w).2
      !! task_id = Some t
    /\ Task.status t = failed
    /\ Task.error t = Some message /\ message <> []
    /\ Task.result t = None.
Proof.
  intros Hpdf He Ht1 Hs Hd Ho.
  unfold analyze_pdf_async_and_run. rewrite bind_run.
  rewrite (analyze_pdf_async_run ollama_generate _ _ _ _ _ Hpdf) in *.
  cbn [snd] in He.
  match type of He with _ _ _ _ _ ?w0 = _ => set (w0' := w0) in * end.
  assert (Hinv : task_invariant task_id
                   (fun t => Task.result t = None /\ Task.error t = None) w1).
  { pose proof (preserves_extract ollama_generate model (Some task_id) _
                  (task_invariant_steps ollama_generate task_id _
                     no_result_no_error_stable (Some task_id)) file w0') as H.
    rewrite He in H. apply H.
    intros t. subst w0'. cbn [processing_tasks]. rewrite lookup_insert_eq.
    intros [= <-]. split; reflexivity. }
  destruct (Hinv _ Ht1) as [Hres _].
  destruct (process_after_extract ollama_generate task_id file model custom_prompt
              w0' w1 text_content page_count t1 He Ht1 Hs)
    as (w3 & t3 & Ht3 & Hsame & _ & _ & _ & Hrun).
  rewrite Ho in Hrun. rewrite (update_failed_run _ _ _ _ Ht3) in Hrun.
  rewrite Hrun. cbn [snd processing_tasks].
  eexists _, _. split; [apply lookup_insert_eq |]. cbn.
  split; [reflexivity |]. split; [reflexivity |].
  split; [| destruct Hsame as [-> _]; exact Hres].
  unfold str_int. cbn. discriminate.
Qed.

Lemma summarization_failure_fails_task_witness :
  exists t message,
    processing_tasks (Sample.run Sample.fails Sample.one_page []) !! Sample.task_id
    = Some t
    /\ Task.status t = failed
    /\ Task.error t = Some message /\ message <> []
    /\ Task.result t = None.
Proof.
  apply (summarization_failure_fails_task Sample.fails Sample.task_id Sample.one_page
           Sample.model None (Sample.idle [])
           (extract_images_from_pdf_and_analyze Sample.fails Sample.model
              (Some Sample.task_id) Sample.one_page
              (analyze_pdf_async Sample.task_id Sample.one_page Sample.model None
                 (Sample.idle [])).2).2
           (u "--- 페이지 1 ---" ++ nl ++ u "alpha") 1
           (Task.set_progress 90
              (Task.set_current_step (u "PDF 분석 완료") (Sample.task processing)))
           (Exception (u "connection refused"))).
  - vm_compute. reflexivity.
  - vm_compute. reflexivity.
  - vm_compute. reflexivity.
  - discriminate.
  - vm_compute. intros H. inversion H.
  - reflexivity.
Defined.

(** ** The sequence of progress values *)

Lemma hoare_bind {A B : Type} (P : World -> Prop) (R : Outcome A -> World -> Prop)
    (Q : Outcome B -> World -> Prop) (m : M A) (k : A -> M B) :
  hoare P m R ->
  (forall a, hoare (R (Return a)) (k a) Q) ->
  (forall e w, R (Raise e) w -> Q (Raise e) w) ->
  hoare P (m ≫= k) Q.
Proof.
  intros Hm Hk He w Hw. rewrite bind_run. specialize (Hm w Hw).
  destruct (m w) as [[a | e] w']; cbn in *; [apply Hk | apply He]; assumption.
Qed.

Lemma hoare_try {A : Type} (P : World -> Prop) (R Q : Outcome A -> World -> Prop)
    (body : M A) (h : PyExc -> M A) :
  hoare P body R ->
  (forall a w, R (Return a) w -> Q (Return a) w) ->
  (forall e, hoare (R (Raise e)) (h e) Q) ->
  hoare P (try_except body h) Q.
Proof.
  intros Hm Hr Hh w Hw. unfold try_except. specialize (Hm w Hw).
  destruct (body w) as [[a | e] w']; cbn in *; [apply Hr | apply Hh]; assumption.
Qed.

Lemma hoare_bind_invariant {A B : Type} (I : World -> Prop)
    (Q : Outcome B -> World -> Prop) (m : M A) (k : A -> M B) :
  preserves I m ->
  (forall e w, I w -> Q (Raise e) w) ->
  (forall a, hoare I (k a) Q) ->
  hoare I (m ≫= k) Q.
Proof.
  intros Hm He Hk. apply (hoare_bind I (fun _ => I)); [intros w Hw; apply Hm, Hw | exact Hk | exact He].
Qed.

Lemma hoare_preserves {A : Type} (I : World -> Prop) (m : M A) :
  preserves I m -> hoare I m (fun _ => I).
Proof. intros H w Hw. apply H, Hw. Qed.

Section Ascending.

Variable ollama_generate : nat -> GenerateRequest.t -> Outcome pystr.
Variable task_id : pystr.

Lemma ascending_weaken (b b' : Z) (w : World) :
  (b <= b')%Z -> ascending_up_to task_id b w -> ascending_up_to task_id b' w.
Proof.
  intros Hb [Hs Hf]. split; [exact Hs |].
  eapply Forall_impl; [exact Hf |]. intros v Hv. cbn in *. lia.
Qed.

Lemma ascending_same_trace (b : Z) (w w' : World) :
  processing_values task_id (trace w') = processing_values task_id (trace w) ->
  ascending_up_to task_id b w -> ascending_up_to task_id b w'.
Proof. unfold ascending_up_to. intros ->. auto. Qed.

Lemma ascending_write (b value : Z) (w : World) (tasks : gmap pystr Task.t)
    (tid : pystr) (before at_write : Status) (ib : list (list Request)) :
  (b <= value)%Z -> ascending_up_to task_id b w ->
  ascending_up_to task_id value
    (mkWorld tasks (ProgressWrite tid value before at_write :: trace w) ib).
Proof.
  intros Hb Hw. unfold ascending_up_to. cbn [trace processing_values].
  destruct at_write; try (apply (ascending_weaken b value w Hb Hw)).
  destruct (decide (tid = task_id)); [| apply (ascending_weaken b value w Hb Hw)].
  destruct Hw as [Hs Hf]. split.
  - constructor; [exact Hs |].
    eapply Forall_impl; [exact Hf |]. intros v Hv. cbn in *. lia.
  - constructor; [lia |].
    eapply Forall_impl; [exact Hf |]. intros v Hv. cbn in *. lia.
Qed.

Lemma climbs_weaken {A : Type} (b b1 b2 : Z) (m : M A) :
  (b1 <= b2)%Z -> climbs task_id b b1 m -> climbs task_id b b2 m.
Proof. intros Hb Hm w Hw. eapply ascending_weaken; [exact Hb | apply Hm, Hw]. Qed.

Lemma climbs_bind {A B : Type} (b b1 b2 : Z) (m : M A) (k : A -> M B) :
  (b1 <= b2)%Z -> climbs task_id b b1 m -> (forall a, climbs task_id b1 b2 (k a)) ->
  climbs task_id b b2 (m ≫= k).
Proof.
  intros Hb Hm Hk w Hw. rewrite bind_run. specialize (Hm w Hw).
  destruct (m w) as [[a | e] w']; cbn in *; [apply Hk; assumption |].
  eapply ascending_weaken; eassumption.
Qed.

Lemma climbs_try {A : Type} (b b1 b2 : Z) (body : M A) (h : PyExc -> M A) :
  (b1 <= b2)%Z -> climbs task_id b b1 body -> (forall e, climbs task_id b1 b2 (h e)) ->
  climbs task_id b b2 (try_except body h).
Proof.
  intros Hb Hm Hh w Hw. unfold try_except. specialize (Hm w Hw).
  destruct (body w) as [[a | e] w']; cbn in *; [| apply Hh; assumption].
  eapply ascending_weaken; eassumption.
Qed.

(** The steps that log no progress value. *)
Lemma climbs_same_trace {A : Type} (b : Z) (m : M A) :
  (forall w, processing_values task_id (trace (m w).2)
             = processing_values task_id (trace w)) ->
  climbs task_id b b m.
Proof. intros H w Hw. eapply ascending_same_trace; [apply H | exact Hw]. Qed.

Lemma climbs_mret {A : Type} (b : Z) (a : A) : climbs task_id b b (mret a : M A).
Proof. apply climbs_same_trace. reflexivity. Qed.

Lemma climbs_raise {A : Type} (b : Z) (e : PyExc) : climbs task_id b b (raise e : M A).
Proof. apply climbs_same_trace. reflexivity. Qed.

Lemma climbs_lift {A : Type} (b : Z) (o : Outcome A) : climbs task_id b b (lift o).
Proof. apply climbs_same_trace. reflexivity. Qed.

Lemma climbs_check_cancelled (b : Z) (running : option pystr) :
  climbs task_id b b (check_cancelled running).
Proof.
  apply climbs_same_trace. intros w.
  destruct running as [[| c s] |]; try reflexivity.
  cbn [check_cancelled if_task_id]. rewrite bind_run. unfold get_status.
  destruct (decide _); reflexivity.
Qed.

Lemma climbs_await_point (b : Z) : climbs task_id b b await_point.
Proof.
  apply climbs_same_trace. intros w.
  pose proof (await_point_frame w) as (_ & H & _). cbn zeta in H. rewrite H. reflexivity.
Qed.

Lemma climbs_current_step (b : Z) (tid step : pystr) :
  climbs task_id b b (setitem_current_step tid step).
Proof.
  apply climbs_same_trace. intros w.
  pose proof (setitem_current_step_calls tid step w) as [H _]. rewrite H. reflexivity.
Qed.

Lemma climbs_progress (b value : Z) (tid : pystr) :
  (b <= value)%Z -> climbs task_id b value (setitem_progress tid value).
Proof.
  intros Hb w Hw. destruct (processing_tasks w !! tid) as [t |] eqn:Ht.
  - rewrite (setitem_progress_run _ _ _ _ Ht). cbn [snd].
    apply (ascending_write b); assumption.
  - rewrite (setitem_progress_missing _ _ _ Ht). cbn [snd].
    eapply ascending_weaken; eassumption.
Qed.

Lemma climbs_generate (b : Z) (req : GenerateRequest.t) :
  climbs task_id b b (generate ollama_generate req).
Proof. apply climbs_same_trace. reflexivity. Qed.

Lemma climbs_analyze_image (b : Z) (image_base64 model : pystr) :
  climbs task_id b b (analyze_image_with_ollama ollama_generate image_base64 model).
Proof.
  eapply climbs_try; [reflexivity | apply climbs_generate | intros e; apply climbs_mret].
Qed.

Lemma climbs_analyze_text (b : Z) (text model : pystr) (prompt : option pystr) :
  climbs task_id b b (analyze_text_with_ollama ollama_generate text model prompt).
Proof.
  eapply climbs_try; [reflexivity | apply climbs_generate | intros e; apply climbs_raise].
Qed.

Lemma climbs_update_completed (b : Z) (tid : pystr) (result : PDFAnalysisResponse.t) :
  climbs task_id b b (update_completed tid result).
Proof.
  apply climbs_same_trace. intros w.
  destruct (processing_tasks w !! tid) as [t |] eqn:Ht.
  - rewrite (update_completed_run _ _ _ _ Ht). reflexivity.
  - rewrite (update_completed_missing _ _ _ Ht). reflexivity.
Qed.

Lemma climbs_update_failed (b : Z) (tid : pystr) (e : PyExc) :
  climbs task_id b b (update_failed tid e).
Proof.
  apply climbs_same_trace. intros w.
  destruct (processing_tasks w !! tid) as [t |] eqn:Ht.
  - rewrite (update_failed_run _ _ _ _ Ht). reflexivity.
  - rewrite (update_failed_missing _ _ _ Ht). reflexivity.
Qed.

Lemma climbs_bind_lift {A B : Type} (b b2 : Z) (o : Outcome A) (k : A -> M B) :
  (forall a, o = Return a -> climbs task_id b b2 (k a)) -> (b <= b2)%Z ->
  climbs task_id b b2 (lift o ≫= k).
Proof.
  intros Hk Hb w Hw. rewrite bind_run. unfold lift.
  destruct o as [a | e]; [apply (Hk a eq_refl), Hw |].
  eapply ascending_weaken; eassumption.
Qed.

Lemma climbs_report (b value : Z) (running : option pystr) (step : pystr -> pystr) :
  (b <= value)%Z ->
  climbs task_id b value
    (if_task_id running (fun tid =>
       setitem_progress tid value;; setitem_current_step tid (step tid))).
Proof.
  intros Hb. destruct running as [[| c s] |];
    try (eapply climbs_weaken; [exact Hb | apply climbs_mret]).
  cbn [if_task_id].
  eapply climbs_bind; [reflexivity | apply climbs_progress, Hb | intros _].
  apply climbs_current_step.
Qed.

Lemma climbs_report' (b value : Z) (running : option pystr) (step : pystr) :
  (b <= value)%Z ->
  climbs task_id b value
    (if_task_id running (fun tid =>
       setitem_current_step tid step;; setitem_progress tid value)).
Proof.
  intros Hb. destruct running as [[| c s] |];
    try (eapply climbs_weaken; [exact Hb | apply climbs_mret]).
  cbn [if_task_id].
  eapply climbs_bind; [exact Hb | apply climbs_current_step | intros _].
  apply climbs_progress, Hb.
Qed.

Variables (model : pystr) (running : option pystr).

Lemma climbs_image_loop (page_num page_count len_image_list : Z) :
  (1 <= page_num)%Z -> (page_num <= page_count)%Z ->
  forall (image_list : list Image) (img_index : Z) (all_text : pystr) (b : Z),
    (0 <= img_index)%Z ->
    (img_index + Z.of_nat (length image_list) <= len_image_list)%Z ->
    (image_list <> [] ->
     (b <= img_progress page_num page_count img_index len_image_list)%Z) ->
    (b <= 90)%Z ->
    climbs task_id b 90
      (image_loop ollama_generate model running page_num page_count len_image_list
         img_index image_list all_text).
Proof.
  intros Hp HpP image_list. induction image_list as [| img rest IH];
    intros img_index all_text b Hi Hlen Hb Hb90; cbn [image_loop].
  - eapply climbs_weaken; [exact Hb90 | apply climbs_mret].
  - cbn [length] in Hlen.
    set (v := img_progress page_num page_count img_index len_image_list).
    assert (Hbv : (b <= v)%Z) by (apply Hb; discriminate).
    assert (Hv90 : (v <= 90)%Z) by (apply img_progress_upper; lia).
    eapply climbs_bind; [exact Hb90 | apply climbs_check_cancelled | intros _].
    eapply climbs_bind; [exact Hv90 | | intros _].
    { apply (climbs_report b v running
               (fun _ => u "페이지 " ++ str_int page_num ++ u " 이미지 "
                           ++ str_int (img_index + 1) ++ u "/"
                           ++ str_int len_image_list ++ u " 분석 중")), Hbv. }
    eapply climbs_bind; [exact Hv90 | | intros txt].
    + eapply climbs_try; [reflexivity | | intros e; apply climbs_mret].
      apply climbs_bind_lift; [| reflexivity]. intros pix _.
      destruct (decide _); [| apply climbs_mret].
      apply climbs_bind_lift; [| reflexivity]. intros b64 _.
      eapply climbs_bind; [reflexivity | apply climbs_analyze_image | intros a].
      apply climbs_mret.
    + apply IH; [lia | lia | | exact Hv90].
      intros _. apply img_progress_mono; lia.
Qed.

Lemma climbs_page_loop (page_count : Z) :
  forall (pages : list (FitzPage * PlumberPage)) (page_num : Z) (all_text : pystr)
         (b : Z),
    (1 <= page_num)%Z ->
    (page_num + Z.of_nat (length pages) - 1 <= page_count)%Z ->
    images_only_on_last_page (map fst pages) ->
    (pages <> [] -> (b <= page_progress page_num page_count)%Z) ->
    (b <= 90)%Z ->
    climbs task_id b 90
      (page_loop ollama_generate model running page_count page_num pages all_text).
Proof.
  induction pages as [| [fitz_page plumber_page] rest IH];
    intros page_num all_text b Hp Hlen Himg Hb Hb90; cbn [page_loop].
  - eapply climbs_weaken; [exact Hb90 | apply climbs_mret].
  - cbn [length] in Hlen.
    set (v := page_progress page_num page_count).
    assert (Hbv : (b <= v)%Z) by (apply Hb; discriminate).
    assert (Hv : (10 <= v <= 70)%Z) by (apply page_progress_bounds; lia).
    eapply climbs_bind; [exact Hb90 | apply climbs_check_cancelled | intros _].
    eapply (climbs_bind _ v); [lia | | intros _].
    { apply (climbs_report b v running
               (fun _ => u "페이지 " ++ str_int page_num ++ u "/"
                           ++ str_int page_count ++ u " 텍스트 추출 중")), Hbv. }
    apply climbs_bind_lift; [| lia]. intros page_text _.
    apply climbs_bind_lift; [| lia]. intros tables _.
    apply climbs_bind_lift; [| lia]. intros image_list Himages.
    destruct rest as [| page' rest'].
    + (* the last page *)
      eapply (climbs_bind _ 90); [reflexivity | | intros txt; apply climbs_mret].
      destruct image_list as [| img imgs];
        [eapply climbs_weaken; [| apply climbs_mret]; lia |].
      apply climbs_image_loop; try lia.
      intros _. pose proof (img_progress_lower page_num page_count 0
                              (Z.of_nat (length (img :: imgs)))) as H.
      cbn [length] in *. lia.
    + (* a page before the last: it has no image *)
      cbn [map fst images_only_on_last_page] in Himg. destruct Himg as [Hnone Himg].
      rewrite (Hnone _ Himages).
      eapply (climbs_bind _ v); [lia | apply climbs_mret | intros txt].
      apply IH; [lia | cbn [length] in *; lia | exact Himg | | lia].
      intros _. apply page_progress_mono; lia.
Qed.

End Ascending.

Lemma descending_rev (l : list Z) : StronglySorted Z.ge l -> Sorted Z.le (rev l).
Proof.
  intros H. apply StronglySorted_Sorted. induction H as [| a l Hs IH Hf]; [constructor |].
  cbn [rev]. apply StronglySorted_app. split; [| split; [exact IH | repeat constructor]].
  intros x1 x2 Hx1 Hx2. apply list_elem_of_singleton in Hx2 as ->.
  rewrite Forall_forall in Hf. apply list_elem_of_In, in_rev, list_elem_of_In in Hx1.
  specialize (Hf _ Hx1). lia.
Qed.

Lemma images_only_on_last_page_zip (fps : list FitzPage) :
  forall pps : list PlumberPage,
    images_only_on_last_page fps -> images_only_on_last_page (map fst (zip fps pps)).
Proof.
  induction fps as [| f fs IH]; intros pps H; [exact I |].
  destruct pps as [| p ps]; [exact I |].
  destruct fs as [| f' fs']; [exact I |].
  destruct H as [Hnone H]. specialize (IH ps H).
  destruct ps as [| p' ps']; [exact I |].
  cbn in *. split; [exact Hnone | exact IH].
Qed.

Lemma no_write_no_processing_value (task_id : pystr) (tr : list Event) :
  statuses_at_progress_writes task_id tr = [] -> processing_values task_id tr = [].
Proof.
  induction tr as [| ev tr IH]; [reflexivity |]. destruct ev as [tid v before at_write | req].
  - cbn. destruct (decide (tid = task_id)); [discriminate |].
    intros H. destruct at_write; auto.
  - cbn. exact IH.
Qed.

Section AscendingRun.

Variable ollama_generate : nat -> GenerateRequest.t -> Outcome pystr.
Variable task_id : pystr.

Lemma climbs_extract (model : pystr) (running : option pystr) (file : UploadFile.t)
    (b : Z) :
  (b <= 10)%Z ->
  (forall fps, UploadFile.fitz_open file = Return fps -> images_only_on_last_page fps) ->
  climbs task_id b 90
    (extract_images_from_pdf_and_analyze ollama_generate model running file).
Proof.
  intros Hb Himg. unfold extract_images_from_pdf_and_analyze.
  eapply climbs_try; [reflexivity | | intros e; destruct (contains _ _); apply climbs_raise].
  eapply (climbs_bind _ _ b); [lia | | intros _].
  { unfold await. eapply climbs_bind; [reflexivity | apply climbs_await_point | intros _].
    apply climbs_mret. }
  apply climbs_bind_lift; [| lia]. intros fps Hfps.
  eapply (climbs_bind _ _ 10); [lia | apply climbs_report'; exact Hb | intros _].
  apply climbs_bind_lift; [| lia]. intros pps _.
  eapply (climbs_bind _ _ 90); [lia | | intros txt].
  - apply climbs_page_loop; try lia.
    + rewrite length_zip. lia.
    + apply images_only_on_last_page_zip, Himg, Hfps.
    + intros Hne.
      assert (HP : (1 <= Z.of_nat (length fps))%Z)
        by (destruct fps; [contradiction | cbn [length]; lia]).
      apply (page_progress_bounds 1 (Z.of_nat (length fps))); lia.
  - eapply (climbs_bind _ _ 90); [lia | apply climbs_report'; lia | intros _].
    apply climbs_mret.
Qed.

Lemma climbs_process (file : UploadFile.t) (model : pystr)
    (custom_prompt : option pystr) (b : Z) :
  (b <= 10)%Z ->
  (forall fps, UploadFile.fitz_open file = Return fps -> images_only_on_last_page fps) ->
  climbs task_id b 90
    (process_pdf_async ollama_generate task_id file model custom_prompt).
Proof.
  intros Hb Himg. unfold process_pdf_async.
  eapply climbs_try; [reflexivity | | intros e; apply climbs_update_failed].
  eapply (climbs_bind _ _ 90); [lia | apply climbs_extract; assumption |].
  intros [text_content page_count].
  eapply (climbs_bind _ _ 90);
    [lia | apply climbs_same_trace; reflexivity | intros st].
  destruct (decide _); [apply climbs_mret |].
  eapply (climbs_bind _ _ 90); [lia | apply climbs_current_step | intros _].
  eapply (climbs_bind _ _ 90); [lia | apply climbs_progress; lia | intros _].
  eapply (climbs_bind _ _ 90); [lia | apply climbs_analyze_text | intros analysis].
  apply climbs_update_completed.
Qed.

(** *** No write after completion or failure *)

Lemma unfinished_stable : stable (fun t => unfinished (Task.status t)).
Proof.
  intros t H. split; [intros value; exact H |]. split; [intros step; exact H |].
  right. reflexivity.
Qed.

Lemma running_unfinished_progress (tid : pystr) (value : Z) :
  preserves (running_unfinished task_id) (setitem_progress tid value).
Proof.
  intros w [Ht Hw]. split.
  - apply (task_invariant_progress task_id _ unfinished_stable), Ht.
  - unfold written_while_unfinished in *.
    destruct (processing_tasks w !! tid) as [t |] eqn:E.
    + rewrite (setitem_progress_run _ _ _ _ E). cbn [snd trace statuses_at_progress_writes].
      destruct (decide (tid = task_id)) as [-> | _]; [| exact Hw].
      constructor; [apply Ht, E | exact Hw].
    + rewrite (setitem_progress_missing _ _ _ E). exact Hw.
Qed.

Lemma running_unfinished_same_trace {A : Type} (m : M A) :
  preserves (task_invariant task_id (fun t => unfinished (Task.status t))) m ->
  (forall w, trace (m w).2 = trace w) ->
  preserves (running_unfinished task_id) m.
Proof.
  intros Hm Htr w [Ht Hw]. split; [apply Hm, Ht |].
  unfold written_while_unfinished. rewrite Htr. exact Hw.
Qed.

Lemma running_unfinished_steps (running : option pystr) :
  step_invariant ollama_generate running (running_unfinished task_id).
Proof.
  split.
  - intros tid value _. apply running_unfinished_progress.
  - intros tid step _. apply running_unfinished_same_trace.
    + apply (task_invariant_current_step task_id _ unfinished_stable).
    + intros w. apply setitem_current_step_calls.
  - apply running_unfinished_same_trace.
    + apply (task_invariant_await task_id _ unfinished_stable).
    + intros w. apply await_point_frame.
  - intros req w [Ht Hw]. split; [exact Ht | exact Hw].
Qed.

Lemma unfinished_process (file : UploadFile.t) (model : pystr)
    (custom_prompt : option pystr) :
  hoare (running_unfinished task_id)
    (process_pdf_async ollama_generate task_id file model custom_prompt)
    (fun _ => written_while_unfinished task_id).
Proof.
  pose proof (running_unfinished_steps (Some task_id)) as HI.
  unfold process_pdf_async.
  set (R := fun (o : Outcome ()) w =>
              match o with
              | Return _ => written_while_unfinished task_id w
              | Raise _ => running_unfinished task_id w
              end).
  assert (HR : forall e w, running_unfinished task_id w -> R (Raise e) w)
    by (intros e w H; exact H).
  apply (hoare_try _ R).
  - apply hoare_bind_invariant; [apply (preserves_extract _ _ _ _ HI) | exact HR |].
    intros [text_content page_count].
    apply hoare_bind_invariant; [apply preserves_get_status | exact HR |].
    intros st. destruct (decide _); [intros w H; apply H |].
    apply hoare_bind_invariant;
      [apply (inv_current_step _ _ _ HI); reflexivity | exact HR |].
    intros _.
    apply hoare_bind_invariant;
      [apply (inv_progress _ _ _ HI); reflexivity | exact HR |].
    intros _.
    apply hoare_bind_invariant;
      [apply (preserves_analyze_text _ _ _ HI) | exact HR |].
    intros analysis w [Ht Hw].
    destruct (processing_tasks w !! task_id) as [t |] eqn:E.
    + rewrite (update_completed_run _ _ _ _ E). cbn [fst snd R].
      unfold written_while_unfinished. cbn [trace statuses_at_progress_writes].
      destruct (decide (task_id = task_id)); [| contradiction].
      constructor; [apply Ht, E | exact Hw].
    + rewrite (update_completed_missing _ _ _ E). cbn [fst snd R]. split; assumption.
  - intros a w H. exact H.
  - intros e w [Ht Hw].
    destruct (processing_tasks w !! task_id) as [t |] eqn:E.
    + rewrite (update_failed_run _ _ _ _ E). cbn [fst snd].
      unfold written_while_unfinished. cbn [trace statuses_at_progress_writes].
      destruct (decide (task_id = task_id)); [| contradiction].
      constructor; [apply Ht, E | exact Hw].
    + rewrite (update_failed_missing _ _ _ E). exact Hw.
Qed.

End AscendingRun.

(** X28 ([analyze_pdf_async], [process_pdf_async],
    [extract_images_from_pdf_and_analyze]): for a task created by the
    asynchronous endpoint, whatever requests are served meanwhile:
    - when no page but the last carries an image, the values written to
      ["progress"] while the status is ["processing"] never go down, for
      every number of pages;
    - at every write of ["progress"] the task was processing or cancelled: no
      value is written once the job has marked the task completed or failed. *)
Theorem progress_ascends
    (ollama_generate : nat -> GenerateRequest.t -> Outcome pystr)
    (task_id : pystr) (file : UploadFile.t) (model : pystr)
    (custom_prompt : option pystr) (w : World) :
  statuses_at_progress_writes task_id (trace w) = [] ->
  let w' :=
    (analyze_pdf_async_and_run ollama_generate task_id file model custom_prompt w).2 in
  ((forall fps, UploadFile.fitz_open file = Return fps -> images_only_on_last_page fps) ->
   Sorted Z.le (processing_writes task_id (trace w')))
  /\ Forall unfinished (statuses_at_progress_writes task_id (trace w')).
Proof.
  intros Hfresh. cbn zeta. unfold analyze_pdf_async_and_run. rewrite bind_run.
  destruct (is_pdf file) eqn:Hpdf.
  - rewrite (analyze_pdf_async_run ollama_generate _ _ _ _ _ Hpdf).
    set (w0 := mkWorld _ _ _). split.
    + intros Himg. apply descending_rev.
      apply (climbs_process ollama_generate task_id file model custom_prompt 0
               ltac:(lia) Himg w0).
      unfold ascending_up_to. subst w0. cbn [trace processing_values].
      destruct (decide (task_id = task_id)); [| contradiction].
      rewrite (no_write_no_processing_value _ _ Hfresh).
      split; [repeat constructor | constructor; [lia | constructor]].
    + apply (unfinished_process ollama_generate task_id file model custom_prompt w0).
      split.
      * intros t. subst w0. cbn [processing_tasks]. rewrite lookup_insert_eq.
        intros [= <-]. left. reflexivity.
      * unfold written_while_unfinished. subst w0. cbn [trace statuses_at_progress_writes].
        destruct (decide (task_id = task_id)); [| contradiction].
        rewrite Hfresh. repeat constructor.
  - unfold analyze_pdf_async, try_except. rewrite Hpdf. cbn [raise snd].
    rewrite Hfresh. unfold processing_writes.
    rewrite (no_write_no_processing_value _ _ Hfresh). split; constructor.
Qed.

Lemma progress_ascends_witness :
  Sorted Z.le
    (processing_writes Sample.task_id
       (trace (Sample.run Sample.answers Sample.image_on_last_page [])))
  /\ Forall unfinished
       (statuses_at_progress_writes Sample.task_id
          (trace (Sample.run Sample.answers Sample.image_on_last_page []))).
Proof.
  pose proof (progress_ascends Sample.answers Sample.task_id Sample.image_on_last_page
                Sample.model None (Sample.idle []) eq_refl) as [H1 H2].
  split; [apply H1 | exact H2].
  intros fps [= <-]. cbn. split; [| exact I]. intros image_list [= <-]. reflexivity.
Defined.

(** C2. The job misses the bands it aims at (10 to 70 for the pages, as
    its comment says; 70 to 90 for the images, by their formula), because it
    reports pages and images in turn: with an image on the first of two
    pages the values written while processing are 0, 10, 40, 80, 70, 90, 90,
    and the second page falls back from 80 to 70.  And a task that is
    cancelled while the upload is read is still written to: 10 when the
    document is loaded, before the first check, then 0 by the failure
    handler. *)
Lemma progress_falls_back :
  processing_writes Sample.task_id
    (trace (Sample.run Sample.answers Sample.image_on_first_page []))
  = [0; 10; 40; 80; 70; 90; 90]%Z
  /\ ~ Sorted Z.le
       (processing_writes Sample.task_id
          (trace (Sample.run Sample.answers Sample.image_on_first_page [])))
  /\ rev (trace (Sample.run Sample.answers Sample.one_page
                   [[POST_cancel Sample.task_id]]))
     = [ProgressWrite Sample.task_id 0 processing processing;
        ProgressWrite Sample.task_id 10 cancelled cancelled;
        ProgressWrite Sample.task_id 0 cancelled failed].
Proof.
  split; [vm_compute; reflexivity |]. split; [| vm_compute; reflexivity].
  assert (E : processing_writes Sample.task_id
                (trace (Sample.run Sample.answers Sample.image_on_first_page []))
              = [0; 10; 40; 80; 70; 90; 90]%Z) by (vm_compute; reflexivity).
  rewrite E. intros H.
  repeat match goal with
         | H : Sorted _ (_ :: _) |- _ => inversion H; clear H; subst
         | H : HdRel _ _ (_ :: _) |- _ => inversion H; clear H; subst
         end.
  lia.
Qed.

(** ** The text of an undisturbed run *)

(** *** Segments in order *)

Lemma in_order_prefix (segs : list pystr) (pre s : pystr) :
  in_order segs s -> in_order segs (pre ++ s).
Proof.
  intros H. destruct H as [s | seg segs pre' rest H]; [constructor |].
  rewrite app_assoc. constructor. exact H.
Qed.

Lemma in_order_suffix (segs : list pystr) (s post : pystr) :
  in_order segs s -> in_order segs (s ++ post).
Proof.
  intros H. induction H as [s | seg segs pre rest H IH]; [constructor |].
  rewrite <- !app_assoc. constructor. exact IH.
Qed.

Lemma in_order_app (segs1 segs2 : list pystr) (s1 s2 : pystr) :
  in_order segs1 s1 -> in_order segs2 s2 -> in_order (segs1 ++ segs2) (s1 ++ s2).
Proof.
  intros H1 H2. induction H1 as [s | seg segs pre rest H IH].
  - apply in_order_prefix, H2.
  - cbn [app]. rewrite <- !app_assoc. constructor. exact IH.
Qed.

Lemma in_order_one (seg post : pystr) : in_order [seg] (seg ++ post).
Proof. apply (in_order_cons seg [] [] post). constructor. Qed.

Lemma in_order_rev (segs : list pystr) (s : pystr) :
  in_order segs s -> in_order (rev (map (@rev N) segs)) (rev s).
Proof.
  intros H. induction H as [s | seg segs pre rest H IH]; [constructor |].
  cbn [map rev]. rewrite !rev_app_distr, <- app_assoc.
  apply in_order_app; [exact IH | apply in_order_one].
Qed.

Lemma rev_map_rev_involutive (segs : list pystr) :
  rev (map (@rev N) (rev (map (@rev N) segs))) = segs.
Proof.
  rewrite map_rev, rev_involutive, map_map.
  induction segs as [| seg segs IH]; [reflexivity |].
  cbn [map]. rewrite rev_involutive, IH. reflexivity.
Qed.

Lemma lstrip_keeps (pre seg rest : pystr) (c : N) (r : pystr) :
  seg = c :: r -> is_space c = false ->
  exists pre', lstrip (pre ++ seg ++ rest) = pre' ++ seg ++ rest.
Proof.
  intros -> Hc. induction pre as [| a pre IH].
  - exists []. cbn [app lstrip]. rewrite Hc. reflexivity.
  - cbn [app lstrip]. destruct (is_space a); [exact IH |].
    exists (a :: pre). reflexivity.
Qed.

Lemma in_order_lstrip (segs : list pystr) (s : pystr) :
  Forall solid segs -> in_order segs s -> in_order segs (lstrip s).
Proof.
  intros Hsolid H. destruct H as [s | seg segs pre rest H]; [constructor |].
  inversion Hsolid as [| ? ? [(c & r & Hseg & Hc) _] _]; subst.
  destruct (lstrip_keeps pre (c :: r) rest c r eq_refl Hc) as [pre' ->].
  constructor. exact H.
Qed.

Lemma solid_rev (seg : pystr) : solid seg -> solid (rev seg).
Proof.
  intros [(c & r & -> & Hc) (r' & c' & E & Hc')]. split.
  - rewrite E, rev_app_distr. eauto.
  - exists (rev r), c. split; [reflexivity | exact Hc].
Qed.

Lemma in_order_strip (segs : list pystr) (s : pystr) :
  Forall solid segs -> in_order segs s -> in_order segs (strip s).
Proof.
  intros Hsolid H. unfold strip, rstrip.
  rewrite <- (rev_map_rev_involutive segs). apply in_order_rev.
  apply in_order_lstrip.
  - apply Forall_rev, Forall_map. eapply Forall_impl; [exact Hsolid |].
    intros seg. apply solid_rev.
  - apply in_order_rev, in_order_lstrip; assumption.
Qed.

(** *** Steps of an undisturbed run *)

Lemma returns_bind {A B : Type} (P R Q : World -> Prop) (m : M A) (k : A -> M B)
    (a : A) (b : B) :
  returns P m a R -> returns R (k a) b Q -> returns P (m ≫= k) b Q.
Proof.
  intros Hm Hk w Hw. destruct (Hm w Hw) as (w1 & E1 & H1).
  destruct (Hk w1 H1) as (w2 & E2 & H2).
  exists w2. split; [| exact H2]. rewrite bind_run, E1. exact E2.
Qed.

Lemma returns_mret {A : Type} (P : World -> Prop) (a : A) : returns P (mret a) a P.
Proof. intros w Hw. exists w. split; [reflexivity | exact Hw]. Qed.

Lemma returns_lift {A : Type} (P : World -> Prop) (o : Outcome A) (a : A) :
  o = Return a -> returns P (lift o) a P.
Proof. intros -> w Hw. exists w. split; [reflexivity | exact Hw]. Qed.

Lemma returns_try {A : Type} (P Q : World -> Prop) (body : M A) (h : PyExc -> M A) (a : A) :
  returns P body a Q -> returns P (try_except body h) a Q.
Proof.
  intros Hm w Hw. destruct (Hm w Hw) as (w1 & E1 & H1).
  exists w1. split; [| exact H1]. unfold try_except. rewrite E1. reflexivity.
Qed.

Lemma returns_handler {A : Type} (P R Q : World -> Prop) (body : M A) (h : PyExc -> M A)
    (e : PyExc) (a : A) :
  (forall w, P w -> exists w', body w = (Raise e, w') /\ R w') ->
  returns R (h e) a Q -> returns P (try_except body h) a Q.
Proof.
  intros Hm Hh w Hw. destruct (Hm w Hw) as (w1 & E1 & H1).
  destruct (Hh w1 H1) as (w2 & E2 & H2).
  exists w2. split; [| exact H2]. unfold try_except. rewrite E1. exact E2.
Qed.

Opaque u.

Section Calm.

Variable ollama_generate : nat -> GenerateRequest.t -> Outcome pystr.
Variable model : pystr.

Lemma calm_check (running : option pystr) (k : nat) :
  returns (calm running k) (check_cancelled running) () (calm running k).
Proof.
  intros w Hw. exists w. split; [| exact Hw].
  destruct running as [[| c s] |]; try reflexivity.
  destruct Hw as [_ Hw]. destruct (Hw c s eq_refl) as [(t & Ht & Hs) _].
  cbn [check_cancelled if_task_id]. rewrite bind_run. unfold get_status. rewrite Ht.
  cbn [fmap option_fmap option_map]. rewrite Hs.
  destruct (decide _) as [E' | _]; [discriminate | reflexivity].
Qed.

Lemma calm_store (running : option pystr) (k : nat) (w : World) (tid : pystr) (t : Task.t) (tr : list Event) :
  calm running k w -> running = Some tid ->
  Task.status t = processing -> generate_count tr = k ->
  calm running k (mkWorld (<[tid := t]> (processing_tasks w)) tr (inbox w)).
Proof.
  intros [_ Hw] Hr Hs Hk. split; [exact Hk |].
  intros c s E. rewrite Hr in E. injection E as ->.
  destruct (Hw c s Hr) as [_ Hu]. split; [| exact Hu].
  exists t. cbn [processing_tasks]. split; [apply lookup_insert_eq | exact Hs].
Qed.

Lemma calm_report (running : option pystr) (k : nat) (value : Z) (step : pystr) :
  returns (calm running k)
    (if_task_id running (fun tid =>
       setitem_progress tid value;; setitem_current_step tid step))
    () (calm running k).
Proof.
  intros w Hw. destruct running as [[| c s] |];
    try (exists w; split; [reflexivity | exact Hw]).
  destruct (proj2 Hw c s eq_refl) as [(t & Ht & Hs) _].
  eexists. split.
  - apply (report_progress_step_run w (c :: s) step value t); [discriminate | exact Ht].
  - apply (calm_store _ k w (c :: s)); [exact Hw | reflexivity | exact Hs |].
    cbn [generate_count]. apply Hw.
Qed.

Lemma calm_report' (running : option pystr) (k : nat) (value : Z) (step : pystr) :
  returns (calm running k)
    (if_task_id running (fun tid =>
       setitem_current_step tid step;; setitem_progress tid value))
    () (calm running k).
Proof.
  intros w Hw. destruct running as [[| c s] |];
    try (exists w; split; [reflexivity | exact Hw]).
  destruct (proj2 Hw c s eq_refl) as [(t & Ht & Hs) _].
  eexists. split.
  - apply (report_step_progress_run w (c :: s) step value t); [discriminate | exact Ht].
  - apply (calm_store _ k w (c :: s)); [exact Hw | reflexivity | exact Hs |].
    cbn [generate_count]. apply Hw.
Qed.

Lemma undisturbed_next (task_id : pystr) (w : World) :
  undisturbed task_id w ->
  Forall (fun r => request_task_id r <> task_id) (next_requests w)
  /\ Forall (Forall (fun r => request_task_id r <> task_id)) (tl (inbox w)).
Proof.
  unfold undisturbed, next_requests. intros H.
  destruct (inbox w); [split; constructor | inversion H; split; assumption].
Qed.

Lemma calm_await_point (running : option pystr) (k : nat) :
  returns (calm running k) await_point () (calm running k).
Proof.
  intros w Hw. pose proof (await_point_frame w) as (Ho & Htr & Hin & Hf). cbn zeta in *.
  exists (await_point w).2. split; [rewrite <- Ho; apply surjective_pairing |].
  split; [rewrite Htr; apply Hw |].
  intros c s E. destruct (proj2 Hw c s E) as [(t & Ht & Hs) Hu].
  destruct (undisturbed_next _ _ Hu) as [Hn Htl].
  split.
  - exists t. rewrite (Hf _ Hn). split; assumption.
  - unfold undisturbed. rewrite Hin. exact Htl.
Qed.

Lemma calm_analyze_image (running : option pystr) (k : nat) (image_base64 : pystr) :
  returns (calm running k)
    (analyze_image_with_ollama ollama_generate image_base64 model)
    (match ollama_generate k (image_request image_base64 model) with
     | Return response => response
     | Raise e => u "이미지 분석 실패: " ++ str_exc e
     end)
    (calm running (S k)).
Proof.
  intros w [Hk Hw].
  exists (mkWorld (processing_tasks w)
            (Generate (image_request image_base64 model) :: trace w) (inbox w)).
  split.
  - unfold analyze_image_with_ollama, try_except, generate. rewrite Hk.
    fold (image_request image_base64 model).
    destruct (ollama_generate k (image_request image_base64 model)); reflexivity.
  - split; [cbn [trace generate_count]; rewrite Hk; reflexivity | exact Hw].
Qed.

(** The iteration of the image loop appends the section of the image. *)
Lemma calm_image_loop (running : option pystr) (page_num page_count len_image_list : Z)
    (images : list Image) :
  forall (img_index : Z) (all_text : pystr) (k : nat),
    returns (calm running k)
      (image_loop ollama_generate model running page_num page_count len_image_list
         img_index images all_text)
      (all_text ++ (image_sections ollama_generate model k img_index images).1)
      (calm running (image_sections ollama_generate model k img_index images).2).
Proof.
  induction images as [| img rest IH]; intros img_index all_text k; cbn [image_loop].
  - cbn [image_sections fst snd]. rewrite app_nil_r. apply returns_mret.
  - cbn [image_sections].
    destruct (image_section ollama_generate model k img_index img) as [s k1] eqn:Es.
    specialize (IH (img_index + 1)%Z (all_text ++ s) k1).
    destruct (image_sections ollama_generate model k1 (img_index + 1) rest) as [ss k2].
    cbn [fst snd] in *. rewrite <- app_assoc in IH.
    eapply returns_bind; [apply calm_check |].
    eapply returns_bind; [apply calm_report |].
    eapply returns_bind; [| exact IH].
    unfold image_section in Es.
    destruct (pixmap img) as [pix | e] eqn:Epix.
    + destruct (decide (Pixmap.n pix - Pixmap.alpha pix < 4)%Z) as [Hn | Hn].
      * destruct (Pixmap.png_base64 pix) as [b64 | e] eqn:Epng.
        -- injection Es as <- <-. apply returns_try.
           eapply returns_bind; [apply returns_lift; reflexivity |].
           destruct (decide _); [| contradiction].
           eapply returns_bind; [apply returns_lift, Epng |].
           eapply returns_bind; [apply calm_analyze_image |].
           apply returns_mret.
        -- injection Es as <- <-.
           eapply (returns_handler _ (calm running k)); [| apply returns_mret].
           intros w Hw. exists w. split; [| exact Hw].
           rewrite bind_run. unfold lift at 1.
           destruct (decide _); [| contradiction].
           rewrite bind_run, Epng. reflexivity.
      * injection Es as <- <-. rewrite app_nil_r. apply returns_try.
        eapply returns_bind; [apply returns_lift; reflexivity |].
        destruct (decide _); [contradiction |]. apply returns_mret.
    + injection Es as <- <-.
      eapply (returns_handler _ (calm running k)); [| apply returns_mret].
      intros w Hw. exists w. split; [| exact Hw]. reflexivity.
Qed.

Lemma returns_eq {A : Type} (P Q : World -> Prop) (m : M A) (a a' : A) :
  a = a' -> returns P m a Q -> returns P m a' Q.
Proof. intros ->. exact id. Qed.

Lemma page_sections_cons (k : nat) (page_num : Z) (pp : ParsedPage)
    (rest : list ParsedPage) :
  let s := page_section ollama_generate model k page_num pp in
  let ss := page_sections ollama_generate model s.2 (page_num + 1) rest in
  page_sections ollama_generate model k page_num (pp :: rest) = (s.1 ++ ss.1, ss.2).
Proof.
  cbn zeta. cbn [page_sections].
  destruct (page_section ollama_generate model k page_num pp) as [s k1]. cbn [fst snd].
  destruct (page_sections ollama_generate model k1 (page_num + 1) rest). reflexivity.
Qed.

Lemma page_section_plain (k : nat) (page_num : Z) (pp : ParsedPage) :
  image_list pp = [] ->
  page_section ollama_generate model k page_num pp
  = (page_marker page_num ++ nl ++ page_body (page_text pp) (tables pp) ++ nl, k).
Proof.
  intros E. unfold page_section. rewrite E. rewrite <- !app_assoc. reflexivity.
Qed.

Lemma page_section_images (k : nat) (page_num : Z) (pp : ParsedPage) :
  image_list pp <> [] ->
  page_section ollama_generate model k page_num pp
  = (page_marker page_num ++ nl ++ page_body (page_text pp) (tables pp)
       ++ (nl ++ u "[이미지 " ++ str_int (Z.of_nat (length (image_list pp)))
             ++ u "개 분석 결과]" ++ nl)
       ++ (image_sections ollama_generate model k 0 (image_list pp)).1 ++ nl,
     (image_sections ollama_generate model k 0 (image_list pp)).2).
Proof.
  intros E. unfold page_section. destruct (image_list pp) as [| img imgs]; [contradiction |].
  destruct (image_sections ollama_generate model k 0 (img :: imgs)) as [ss k'].
  cbn [fst snd]. rewrite <- !app_assoc. reflexivity.
Qed.

(** The iteration of the page loop appends the section of the page. *)
Lemma calm_page_loop (running : option pystr) (page_count : Z)
    (pages : list (FitzPage * PlumberPage)) (parsed : list ParsedPage) :
  Forall2 parsed_as pages parsed ->
  forall (page_num : Z) (all_text : pystr) (k : nat),
    returns (calm running k)
      (page_loop ollama_generate model running page_count page_num pages all_text)
      (all_text ++ (page_sections ollama_generate model k page_num parsed).1)
      (calm running (page_sections ollama_generate model k page_num parsed).2).
Proof.
  induction 1 as [| [fitz_page plumber_page] pp pages parsed (Htext & Htables & Himages) _ IH];
    intros page_num all_text k; cbn [page_loop].
  - cbn [page_sections fst snd]. rewrite app_nil_r. apply returns_mret.
  - cbn [fst snd] in Htext, Htables, Himages.
    rewrite page_sections_cons. cbn [fst snd].
    eapply returns_bind; [apply calm_check |].
    eapply returns_bind; [apply calm_report |].
    eapply returns_bind; [apply returns_lift, Htext |].
    eapply returns_bind; [apply returns_lift, Htables |].
    eapply returns_bind; [apply returns_lift, Himages |].
    destruct (image_list pp) as [| img imgs] eqn:Eimg.
    + rewrite (page_section_plain k page_num pp Eimg). cbn [fst snd].
      eapply returns_bind; [apply returns_mret |].
      eapply returns_eq; [| apply IH].
      unfold page_body, page_marker.
      destruct (truthy (page_text pp)); rewrite <- ?app_assoc; reflexivity.
    + assert (Hne : image_list pp <> []) by (rewrite Eimg; discriminate).
      rewrite (page_section_images k page_num pp Hne). cbn [fst snd]. rewrite Eimg.
      eapply returns_bind; [apply calm_image_loop |].
      eapply returns_eq; [| apply IH].
      unfold page_body, page_marker.
      destruct (truthy (page_text pp)); rewrite <- ?app_assoc; reflexivity.
Qed.

Lemma calm_extract (running : option pystr) (file : UploadFile.t)
    (fps : list FitzPage) (pps : list PlumberPage) (parsed : list ParsedPage) (k : nat) :
  UploadFile.fitz_open file = Return fps ->
  UploadFile.pdfplumber_open file = Return pps ->
  Forall2 parsed_as (zip fps pps) parsed ->
  returns (calm running k)
    (extract_images_from_pdf_and_analyze ollama_generate model running file)
    (strip (page_sections ollama_generate model k 1 parsed).1, Z.of_nat (length fps))
    (calm running (page_sections ollama_generate model k 1 parsed).2).
Proof.
  intros Hf Hp Hparsed. unfold extract_images_from_pdf_and_analyze.
  apply returns_try.
  eapply returns_bind.
  { unfold await. eapply returns_bind; [apply calm_await_point | apply returns_mret]. }
  eapply returns_bind; [apply returns_lift, Hf |].
  eapply returns_bind; [apply calm_report' |].
  eapply returns_bind; [apply returns_lift, Hp |].
  eapply returns_bind; [apply (calm_page_loop running _ _ _ Hparsed 1 [] k) |].
  eapply returns_bind; [apply calm_report' |].
  cbn [app]. apply returns_mret.
Qed.

End Calm.

(** *** Markers and notes are solid *)

Lemma solid_between (a mid b : pystr) (c c' : N) (r r' : pystr) :
  a = c :: r -> is_space c = false -> b = r' ++ [c'] -> is_space c' = false ->
  solid (a ++ mid ++ b).
Proof.
  intros -> Hc -> Hc'. split.
  - exists c, (r ++ mid ++ r' ++ [c']). split; [reflexivity | exact Hc].
  - exists ((c :: r) ++ mid ++ r'), c'. split; [| exact Hc'].
    rewrite <- !app_assoc. reflexivity.
Qed.

Lemma page_marker_solid (page_num : Z) : solid (page_marker page_num).
Proof.
  unfold page_marker.
  apply (solid_between _ _ _ 45%N 45%N (u "-- 페이지 ") (u " --")); vm_compute; reflexivity.
Qed.

Lemma model_failure_note_solid (img_index : Z) : solid (model_failure_note img_index).
Proof.
  unfold model_failure_note.
  rewrite (app_assoc (str_int (img_index + 1))), (app_assoc _ nl).
  apply (solid_between _ _ _ 51060%N 58%N (u "미지 ") (u "이미지 분석 실패"));
    vm_compute; reflexivity.
Qed.

Lemma read_failure_note_solid (img_index : Z) : solid (read_failure_note img_index).
Proof.
  unfold read_failure_note.
  apply (solid_between _ _ _ 51060%N 45%N (u "미지 ") (u ": 분석 실패 "));
    vm_compute; reflexivity.
Qed.

Lemma failure_notes_solid (images : list Image) :
  forall img_index, Forall solid (failure_notes img_index images).
Proof.
  induction images as [| img rest IH]; intros img_index; cbn [failure_notes]; [constructor |].
  apply Forall_app. split; [| apply IH].
  destruct (pixmap img) as [pix | e];
    [| constructor; [apply read_failure_note_solid | constructor]].
  destruct (decide _); [| constructor].
  destruct (Pixmap.png_base64 pix); constructor;
    [apply model_failure_note_solid | constructor
     | apply read_failure_note_solid | constructor].
Qed.

Lemma all_failure_notes_solid (pages : list ParsedPage) :
  Forall solid (all_failure_notes pages).
Proof.
  unfold all_failure_notes. induction pages as [| pp rest IH]; [constructor |].
  cbn [map concat]. apply Forall_app. split; [apply failure_notes_solid | exact IH].
Qed.

(** *** Pages without images *)

Lemma page_sections_plain (ollama_generate : nat -> GenerateRequest.t -> Outcome pystr)
    (model : pystr) (pages : list ParsedPage) :
  Forall (fun pp => image_list pp = []) pages ->
  forall (k : nat) (page_num : Z),
    page_sections ollama_generate model k page_num pages = (plain_pages page_num pages, k).
Proof.
  induction 1 as [| pp rest Hpp _ IH]; intros k page_num; [reflexivity |].
  rewrite page_sections_cons. cbn zeta.
  rewrite (page_section_plain ollama_generate model k page_num pp Hpp). cbn [fst snd].
  rewrite IH. cbn [fst snd plain_pages]. rewrite <- !app_assoc. reflexivity.
Qed.

Lemma plain_pages_markers (pages : list ParsedPage) :
  forall page_num,
    in_order (map page_marker (page_numbers page_num (length pages)))
      (plain_pages page_num pages).
Proof.
  induction pages as [| pp rest IH]; intros page_num; [constructor |].
  cbn [length page_numbers map plain_pages]. rewrite <- !app_assoc.
  apply (in_order_cons _ _ []). apply in_order_prefix, in_order_prefix, in_order_prefix, IH.
Qed.

(** *** A model that fails on every image *)

Section FailingModel.

Variable ollama_generate : nat -> GenerateRequest.t -> Outcome pystr.
Variable model : pystr.
Hypothesis Hfails :
  forall k req, GenerateRequest.images req <> [] -> exists e, ollama_generate k req = Raise e.

Lemma failure_prefix : u "이미지 분석 실패: " = u "이미지 분석 실패:" ++ [32%N].
Proof. vm_compute. reflexivity. Qed.

Lemma read_failure_prefix : u ": 분석 실패 - " = u ": 분석 실패 -" ++ [32%N].
Proof. vm_compute. reflexivity. Qed.

Lemma image_sections_notes (images : list Image) :
  forall (k : nat) (img_index : Z),
    in_order (failure_notes img_index images)
      (image_sections ollama_generate model k img_index images).1.
Proof.
  induction images as [| img rest IH]; intros k img_index;
    cbn [image_sections failure_notes]; [constructor |].
  destruct (image_section ollama_generate model k img_index img) as [s k1] eqn:Es.
  specialize (IH k1 (img_index + 1)%Z).
  destruct (image_sections ollama_generate model k1 (img_index + 1) rest) as [ss k2].
  cbn [fst snd] in *. apply in_order_app; [| exact IH].
  unfold image_section in Es.
  destruct (pixmap img) as [pix | e].
  - destruct (decide _); [| constructor].
    destruct (Pixmap.png_base64 pix) as [b64 | e].
    + destruct (Hfails k (image_request b64 model)) as [e He]; [discriminate |].
      rewrite He in Es. apply (f_equal fst) in Es. cbn [fst] in Es. subst s.
      rewrite failure_prefix. unfold model_failure_note.
      rewrite <- !app_assoc.
      match goal with
      | |- in_order [?a ++ ?b ++ ?c ++ ?d ++ ?e] _ =>
        rewrite (app_assoc a), (app_assoc _ c), (app_assoc _ d), (app_assoc _ e)
      end.
      rewrite <- !app_assoc.
      match goal with
      | |- in_order [?n] (?a ++ ?b ++ ?c ++ ?d ++ ?e ++ ?rest) =>
        replace (a ++ b ++ c ++ d ++ e ++ rest) with (n ++ rest);
          [apply in_order_one | rewrite <- !app_assoc; reflexivity]
      end.
    + apply (f_equal fst) in Es. cbn [fst] in Es. subst s.
      unfold read_failure_note. rewrite read_failure_prefix, <- !app_assoc.
      match goal with
      | |- in_order [?n] (?a ++ ?b ++ ?c ++ ?rest) =>
        replace (a ++ b ++ c ++ rest) with (n ++ rest);
          [apply in_order_one | rewrite <- !app_assoc; reflexivity]
      end.
  - apply (f_equal fst) in Es. cbn [fst] in Es. subst s.
    unfold read_failure_note. rewrite read_failure_prefix, <- !app_assoc.
    match goal with
    | |- in_order [?n] (?a ++ ?b ++ ?c ++ ?rest) =>
      replace (a ++ b ++ c ++ rest) with (n ++ rest);
        [apply in_order_one | rewrite <- !app_assoc; reflexivity]
    end.
Qed.

Lemma page_sections_notes (pages : list ParsedPage) :
  forall (k : nat) (page_num : Z),
    in_order (all_failure_notes pages)
      (page_sections ollama_generate model k page_num pages).1.
Proof.
  unfold all_failure_notes.
  induction pages as [| pp rest IH]; intros k page_num; [constructor |].
  rewrite page_sections_cons. cbn [fst snd map concat].
  apply in_order_app; [| apply IH].
  destruct (image_list pp) as [| img imgs] eqn:E.
  - constructor.
  - rewrite page_section_images by (rewrite E; discriminate). cbn [fst]. rewrite E.
    apply in_order_prefix, in_order_prefix, in_order_prefix, in_order_prefix,
      in_order_suffix, image_sections_notes.
Qed.

End FailingModel.

(** *** The job of an undisturbed task *)

Lemma undisturbed_run_completes
    (ollama_generate : nat -> GenerateRequest.t -> Outcome pystr)
    (task_id : pystr) (file : UploadFile.t) (model : pystr)
    (custom_prompt : option pystr) (w : World)
    (fps : list FitzPage) (pps : list PlumberPage) (parsed : list ParsedPage)
    (analysis : pystr) :
  task_id <> [] -> is_pdf file = true -> undisturbed task_id w ->
  UploadFile.fitz_open file = Return fps ->
  UploadFile.pdfplumber_open file = Return pps ->
  Forall2 parsed_as (zip fps pps) parsed ->
  let sections := page_sections ollama_generate model (generate_count (trace w)) 1 parsed in
  ollama_generate sections.2 (summary_request (strip sections.1) model custom_prompt)
  = Return analysis ->
  exists t,
    processing_tasks
      (analyze_pdf_async_and_run ollama_generate task_id file model custom_prompt w).2
      !! task_id = Some t
    /\ Task.status t = completed
    /\ Task.progress t = 100%Z
    /\ Task.error t = None
    /\ Task.result t
       = Some (PDFAnalysisResponse.mk (UploadFile.filename file) (strip sections.1)
                 analysis model (Z.of_nat (length fps)) (Some task_id)).
Proof.
  intros Hne Hpdf Hu Hf Hp Hparsed sections Ho.
  unfold analyze_pdf_async_and_run. rewrite bind_run.
  rewrite (analyze_pdf_async_run ollama_generate _ _ _ _ _ Hpdf).
  set (t0 := Task.mk task_id processing 0 (u "PDF 분석 시작") None None
               (UploadFile.filename file) model).
  set (w0 := mkWorld _ _ _).
  assert (Hcalm : calm (Some task_id) (generate_count (trace w)) w0).
  { split; [reflexivity |]. intros c s [= ->]. split; [| exact Hu].
    exists t0. split; [apply lookup_insert_eq | reflexivity]. }
  destruct (calm_extract ollama_generate model (Some task_id) file fps pps parsed
              (generate_count (trace w)) Hf Hp Hparsed w0 Hcalm)
    as (w1 & He & Hk1 & H1).
  fold sections in He, Hk1.
  destruct task_id as [| c s]; [contradiction |].
  destruct (H1 c s eq_refl) as [(t1 & Ht1 & Hs1) Hu1].
  assert (Hinv : task_invariant (c :: s)
                   (fun t => Task.result t = None /\ Task.error t = None) w1).
  { pose proof (preserves_extract ollama_generate model (Some (c :: s)) _
                  (task_invariant_steps ollama_generate (c :: s) _
                     no_result_no_error_stable (Some (c :: s))) file w0) as H.
    rewrite He in H. apply H.
    intros t. subst w0. cbn [processing_tasks]. rewrite lookup_insert_eq.
    intros [= <-]. split; reflexivity. }
  destruct (Hinv _ Ht1) as [_ Herr].
  destruct (process_after_extract ollama_generate (c :: s) file model custom_prompt
              w0 w1 _ _ t1 He Ht1)
    as (w3 & t3 & Ht3 & [_ Herr3] & _ & _ & _ & Hrun);
    [rewrite Hs1; discriminate |].
  rewrite Hk1, Ho in Hrun. rewrite (update_completed_run _ _ _ _ Ht3) in Hrun.
  rewrite Hrun. cbn [snd processing_tasks].
  eexists. split; [apply lookup_insert_eq |].
  cbn [Task.status Task.progress Task.error Task.result Task.set_result
         Task.set_current_step Task.set_progress Task.set_status].
  rewrite Herr3, Herr. repeat split.
Qed.

Transparent u.

(* ================================================================= *)
(** ** Counting the page-boundary markers of a text *)

Lemma after_prefix_line (p a y : pystr) :
  10%N ∉ p ->
  after_prefix p (a ++ nl ++ y) = (fun r => r ++ nl ++ y) <$> after_prefix p a.
Proof.
  revert a. induction p as [| c p IH]; intros a Hp; [reflexivity |].
  apply not_elem_of_cons in Hp as [Hc Hp].
  destruct a as [| b a]; cbn [app after_prefix nl].
  - destruct (N.eqb_spec c 10); [congruence | reflexivity].
  - destruct (c =? b)%N; [apply IH, Hp | reflexivity].
Qed.

Lemma after_prefix_app (p a t r : pystr) :
  after_prefix p a = Some r -> after_prefix p (a ++ t) = Some (r ++ t).
Proof.
  revert a. induction p as [| c p IH]; intros a; cbn [after_prefix].
  - intros [= ->]. reflexivity.
  - destruct a as [| b a]; [discriminate |]. cbn [app after_prefix].
    destruct (c =? b)%N; [apply IH | discriminate].
Qed.

Lemma skip_digits_line (r y : pystr) :
  skip_digits (r ++ nl ++ y) = skip_digits r ++ nl ++ y.
Proof.
  induction r as [| c r IH]; [reflexivity |].
  cbn [app skip_digits]. destruct (is_digit c); [exact IH | reflexivity].
Qed.

Lemma skip_digits_app (r t : pystr) (c : N) (r' : pystr) :
  skip_digits r = c :: r' -> skip_digits (r ++ t) = c :: r' ++ t.
Proof.
  induction r as [| b r IH]; [discriminate |].
  cbn [app skip_digits]. destruct (is_digit b); [exact IH |].
  intros [= <- <-]. reflexivity.
Qed.

Lemma skip_digits_digits (digits rest : pystr) :
  Forall (fun c => is_digit c = true) digits ->
  skip_digits (digits ++ rest) = skip_digits rest.
Proof.
  induction 1 as [| c digits Hc _ IH]; [reflexivity |].
  cbn [app skip_digits]. rewrite Hc. exact IH.
Qed.

Lemma startswith_line (p t y : pystr) :
  10%N ∉ p -> startswith (t ++ nl ++ y) p = startswith t p.
Proof.
  revert t. induction p as [| c p IH]; intros t Hp.
  - destruct t; reflexivity.
  - apply not_elem_of_cons in Hp as [Hc Hp].
    destruct t as [| b t]; cbn [app startswith nl].
    + destruct (N.eqb_spec c 10); [congruence | reflexivity].
    + f_equal. apply (IH t Hp).
Qed.

Lemma startswith_app (p t y : pystr) :
  startswith t p = true -> startswith (t ++ y) p = true.
Proof.
  revert t. induction p as [| c p IH]; intros t.
  - intros _. destruct (t ++ y); reflexivity.
  - destruct t as [| b t]; [discriminate |]. cbn [app startswith].
    rewrite !andb_true_iff. intros [H1 H2]. split; [exact H1 | apply IH, H2].
Qed.

Lemma opening_has_no_newline : 10%N ∉ u "--- 페이지 ".
Proof. vm_compute. intros H. repeat (apply elem_of_cons in H as [H | H]; [discriminate |]). inversion H. Qed.

Lemma closing_has_no_newline : 10%N ∉ u " ---".
Proof. vm_compute. intros H. repeat (apply elem_of_cons in H as [H | H]; [discriminate |]). inversion H. Qed.

(** A marker does not reach over the end of a line. *)
Lemma marker_here_line (a y : pystr) : marker_here (a ++ nl ++ y) = marker_here a.
Proof.
  unfold marker_here. rewrite (after_prefix_line _ _ _ opening_has_no_newline).
  destruct (after_prefix (u "--- 페이지 ") a) as [[| c r] |]; cbn [fmap option_fmap option_map];
    [reflexivity | | reflexivity].
  cbn [app]. rewrite skip_digits_line, (startswith_line _ _ _ closing_has_no_newline).
  reflexivity.
Qed.

Lemma marker_here_app (a t : pystr) :
  marker_here a = true -> marker_here (a ++ t) = true.
Proof.
  unfold marker_here.
  destruct (after_prefix (u "--- 페이지 ") a) as [[| c r] |] eqn:E; try discriminate.
  rewrite (after_prefix_app _ _ t _ E). cbn [app].
  rewrite !andb_true_iff. intros [Hc Hs]. split; [exact Hc |].
  destruct (skip_digits r) as [| c' r'] eqn:Er; [discriminate Hs |].
  rewrite (skip_digits_app _ t _ _ Er).
  apply (startswith_app _ (c' :: r') t), Hs.
Qed.

Lemma marker_here_first (c : N) (r : pystr) : marker_here (c :: r) = true -> c = 45%N.
Proof.
  unfold marker_here.
  change (u "--- 페이지 ") with (45%N :: tl (u "--- 페이지 ")).
  cbn [after_prefix]. destruct (N.eqb_spec 45 c); [congruence | discriminate].
Qed.

Lemma count_markers_line (x y : pystr) :
  count_markers (x ++ nl ++ y) = (count_markers x + count_markers y)%nat.
Proof.
  induction x as [| c x IH].
  - cbn [app nl count_markers].
    destruct (marker_here (10%N :: y)) eqn:E; [| reflexivity].
    apply marker_here_first in E. discriminate.
  - cbn [app count_markers]. rewrite IH.
    change (c :: x ++ nl ++ y) with ((c :: x) ++ nl ++ y).
    rewrite marker_here_line. lia.
Qed.

Lemma count_markers_suffix (pre s : pystr) :
  (count_markers s <= count_markers (pre ++ s))%nat.
Proof. induction pre as [| c pre IH]; [reflexivity |]. cbn [app count_markers]. lia. Qed.

Lemma count_markers_prefix (s post : pystr) :
  (count_markers s <= count_markers (s ++ post))%nat.
Proof.
  induction s as [| c s IH]; [apply Nat.le_0_l |].
  cbn [app count_markers].
  destruct (marker_here (c :: s)) eqn:E.
  - change (c :: s ++ post) with ((c :: s) ++ post).
    rewrite (marker_here_app _ post E). lia.
  - destruct (marker_here (c :: s ++ post)); lia.
Qed.

Lemma lstrip_suffix (s : pystr) : exists pre, s = pre ++ lstrip s.
Proof.
  induction s as [| c r IH]; [exists []; reflexivity |].
  cbn [lstrip]. destruct (is_space c).
  - destruct IH as [pre Hpre]. exists (c :: pre). cbn [app]. f_equal. exact Hpre.
  - exists []. reflexivity.
Qed.

Lemma count_markers_strip (s : pystr) : (count_markers (strip s) <= count_markers s)%nat.
Proof.
  unfold strip, rstrip.
  destruct (lstrip_suffix s) as [pre Hpre].
  destruct (lstrip_suffix (rev (lstrip s))) as [post Hpost].
  apply (f_equal (@rev N)) in Hpost. rewrite rev_involutive, rev_app_distr in Hpost.
  transitivity (count_markers (lstrip s)).
  - pose proof (count_markers_prefix (rev (lstrip (rev (lstrip s)))) (rev post)) as H.
    rewrite <- Hpost in H. exact H.
  - pose proof (count_markers_suffix pre (lstrip s)) as H.
    rewrite <- Hpre in H. exact H.
Qed.

(** *** The marker of a page *)

Lemma uint_digits_digits (d : Decimal.uint) :
  Forall (fun c => is_digit c = true) (uint_digits d).
Proof. induction d; cbn [uint_digits]; constructor; (reflexivity || assumption). Qed.

Lemma uint_digits_nonempty (d : Decimal.uint) : d <> Decimal.Nil -> uint_digits d <> [].
Proof. destruct d; (contradiction || discriminate). Qed.

Lemma str_int_digits (n : Z) :
  (0 <= n)%Z ->
  exists c r, str_int n = c :: r /\ Forall (fun c => is_digit c = true) (c :: r).
Proof.
  intros Hn. unfold str_int. destruct n as [| p | p]; [| | lia].
  - exists 48%N, []. split; [reflexivity | repeat constructor].
  - cbn [Z.to_int].
    pose proof (uint_digits_digits (Pos.to_uint p)) as Hd.
    pose proof (uint_digits_nonempty (Pos.to_uint p)
                  (DecimalPos.Unsigned.to_uint_nonnil p)) as Hne.
    destruct (uint_digits (Pos.to_uint p)) as [| c r]; [contradiction |].
    exists c, r. split; [reflexivity | exact Hd].
Qed.

Lemma marker_here_page_marker (n : Z) (rest : pystr) :
  (0 <= n)%Z -> marker_here (page_marker n ++ rest) = true.
Proof.
  intros Hn. destruct (str_int_digits n Hn) as (c & r & E & Hd).
  unfold page_marker, marker_here. rewrite E, <- !app_assoc.
  assert (Ha : forall p s, after_prefix p (p ++ s) = Some s).
  { intros p s. induction p as [| a p IH]; [reflexivity |].
    cbn [app after_prefix]. rewrite N.eqb_refl. exact IH. }
  rewrite Ha. cbn [app]. inversion Hd as [| ? ? Hc Hr]; subst.
  rewrite Hc, (skip_digits_digits _ _ Hr). destruct rest; vm_compute; reflexivity.
Qed.

Lemma count_markers_digits (digits : pystr) :
  Forall (fun c => is_digit c = true) digits ->
  count_markers (digits ++ u " ---") = 0%nat.
Proof.
  induction 1 as [| c digits Hc _ IH]; [vm_compute; reflexivity |].
  cbn [app count_markers]. rewrite IH.
  destruct (marker_here (c :: digits ++ u " ---")) eqn:E; [| reflexivity].
  apply marker_here_first in E. subst c. discriminate Hc.
Qed.

Lemma count_markers_opening (s : pystr) :
  count_markers (u "--- 페이지 " ++ s)
  = ((if marker_here (u "--- 페이지 " ++ s) then 1 else 0) + count_markers s)%nat.
Proof. vm_compute. reflexivity. Qed.

(** The marker of a page shows one marker. *)
Lemma count_markers_page_marker (n : Z) :
  (0 <= n)%Z -> count_markers (page_marker n) = 1%nat.
Proof.
  intros Hn. pose proof (marker_here_page_marker n [] Hn) as Hm.
  rewrite app_nil_r in Hm.
  destruct (str_int_digits n Hn) as (c & r & E & Hd).
  unfold page_marker in *. rewrite count_markers_opening, Hm, E.
  rewrite (count_markers_digits _ Hd). reflexivity.
Qed.

Lemma count_markers_plain_pages (pages : list ParsedPage) :
  Forall (fun pp => count_markers (page_body (page_text pp) (tables pp)) = 0%nat) pages ->
  forall page_num, (0 <= page_num)%Z ->
    count_markers (plain_pages page_num pages) = length pages.
Proof.
  induction 1 as [| pp rest Hpp _ IH]; intros page_num Hn; [reflexivity |].
  cbn [plain_pages length]. rewrite <- !app_assoc.
  rewrite count_markers_line, count_markers_line.
  rewrite (count_markers_page_marker _ Hn), Hpp, IH by lia. reflexivity.
Qed.

Lemma in_order_count_markers (numbers : list Z) (s : pystr) :
  Forall (fun n => (0 <= n)%Z) numbers ->
  in_order (map page_marker numbers) s ->
  (length numbers <= count_markers s)%nat.
Proof.
  intros Hn. revert s. induction Hn as [| n numbers Hn0 _ IH]; intros s H;
    [apply Nat.le_0_l |].
  cbn [map] in H. inversion H as [| seg segs pre rest Hrest]; subst.
  etransitivity; [| apply count_markers_suffix].
  pose proof (marker_here_page_marker n rest Hn0) as Hm.
  destruct (page_marker n ++ rest) as [| c r] eqn:E; [discriminate Hm |].
  cbn [count_markers length]. rewrite Hm.
  assert (Hr : (count_markers rest <= count_markers r)%nat).
  { destruct (page_marker_solid n) as [(c' & m' & Em & _) _].
    rewrite Em in E. cbn [app] in E. injection E as <- <-. apply count_markers_suffix. }
  specialize (IH rest Hrest). lia.
Qed.

Lemma page_numbers_nonnegative (n : nat) :
  forall page_num, (0 <= page_num)%Z ->
    Forall (fun k => (0 <= k)%Z) (page_numbers page_num n).
Proof.
  induction n as [| n IH]; intros page_num H; cbn [page_numbers]; constructor;
    [exact H | apply IH; lia].
Qed.

Lemma page_numbers_length (n : nat) :
  forall page_num, length (page_numbers page_num n) = n.
Proof. induction n as [| n IH]; intros page_num; cbn [page_numbers length]; [| rewrite IH]; reflexivity. Qed.

(** ** Markers and failure notes in the result *)

(** C6, as the code has it. A document without images that both parsers
    read, P being the number of pages that both of them report: the
    extraction returns the text of these P pages, each opened by its marker,
    and the markers of pages 1 to P occur in it in this order; when no page
    shows a marker in its own text or tables, the text shows exactly P
    markers.  The page count returned is the number of pages that PyMuPDF
    reports, which is P when the two parsers agree.  The job of an
    undisturbed task stores this text and this page count in its result. *)
Theorem image_free_document_markers
    (ollama_generate : nat -> GenerateRequest.t -> Outcome pystr)
    (model : pystr) (file : UploadFile.t)
    (fps : list FitzPage) (pps : list PlumberPage) (parsed : list ParsedPage) :
  UploadFile.fitz_open file = Return fps ->
  UploadFile.pdfplumber_open file = Return pps ->
  Forall2 parsed_as (zip fps pps) parsed ->
  Forall (fun pp => image_list pp = []) parsed ->
  let text := strip (plain_pages 1 parsed) in
  let P := length parsed in
  P = (length fps `min` length pps)%nat
  /\ in_order (map page_marker (page_numbers 1 P)) text
  /\ (Forall (fun pp => count_markers (page_body (page_text pp) (tables pp)) = 0%nat)
        parsed ->
      count_markers text = P)
  /\ (forall running k,
        returns (calm running k)
          (extract_images_from_pdf_and_analyze ollama_generate model running file)
          (text, Z.of_nat (length fps)) (calm running k))
  /\ (forall task_id custom_prompt w analysis,
        task_id <> [] -> is_pdf file = true -> undisturbed task_id w ->
        ollama_generate (generate_count (trace w))
          (summary_request text model custom_prompt) = Return analysis ->
        exists t,
          processing_tasks
            (analyze_pdf_async_and_run ollama_generate task_id file model
               custom_prompt w).2 !! task_id = Some t
          /\ Task.status t = completed
          /\ Task.result t
             = Some (PDFAnalysisResponse.mk (UploadFile.filename file) text analysis
                       model (Z.of_nat (length fps)) (Some task_id))).
Proof.
  intros Hf Hp Hparsed Hplain text P.
  assert (Hmarkers : in_order (map page_marker (page_numbers 1 P)) text).
  { subst text P. apply in_order_strip.
    - apply Forall_map, Forall_forall. intros n _. apply page_marker_solid.
    - apply plain_pages_markers. }
  split; [| split; [exact Hmarkers | split; [| split]]].
  - subst P. rewrite <- (Forall2_length _ _ _ Hparsed). apply length_zip.
  - intros Hbodies. apply Nat.le_antisymm.
    + subst text. etransitivity; [apply count_markers_strip |].
      rewrite (count_markers_plain_pages _ Hbodies) by lia. reflexivity.
    + pose proof (in_order_count_markers (page_numbers 1 P) text
                    (page_numbers_nonnegative P 1 ltac:(lia)) Hmarkers) as H.
      rewrite page_numbers_length in H. exact H.
  - intros running k.
    pose proof (calm_extract ollama_generate model running file fps pps parsed k
                  Hf Hp Hparsed) as H.
    rewrite (page_sections_plain ollama_generate model parsed Hplain) in H. exact H.
  - intros task_id custom_prompt w analysis Hne Hpdf Hu Ho.
    pose proof (undisturbed_run_completes ollama_generate task_id file model
                  custom_prompt w fps pps parsed analysis Hne Hpdf Hu Hf Hp Hparsed) as H.
    cbn zeta in H.
    rewrite (page_sections_plain ollama_generate model parsed Hplain) in H.
    destruct (H Ho) as (t & Ht & Hs & _ & _ & Hr). eauto.
Qed.

Lemma image_free_document_markers_witness :
  let text :=
    strip (plain_pages 1 [Sample.parsed "alpha" []; Sample.parsed "beta" [];
                          Sample.parsed "gamma" []]) in
  in_order (map page_marker [1; 2; 3]%Z) text
  /\ count_markers text = 3%nat
  /\ exists t,
       processing_tasks (Sample.run Sample.answers Sample.three_pages [])
         !! Sample.task_id = Some t
       /\ Task.status t = completed
       /\ Task.result t
          = Some (PDFAnalysisResponse.mk (u "report.pdf") text (u "answer 0")
                    Sample.model 3 (Some Sample.task_id)).
Proof.
  intros text.
  pose proof (image_free_document_markers Sample.answers Sample.model Sample.three_pages
                (map Sample.fitz_page [Sample.parsed "alpha" []; Sample.parsed "beta" [];
                                       Sample.parsed "gamma" []])
                (map Sample.plumber_page [Sample.parsed "alpha" []; Sample.parsed "beta" [];
                                          Sample.parsed "gamma" []])
                [Sample.parsed "alpha" []; Sample.parsed "beta" []; Sample.parsed "gamma" []]
                eq_refl eq_refl) as H.
  destruct H as (_ & H1 & H2 & _ & H3).
  - repeat constructor.
  - repeat constructor.
  - split; [exact H1 |]. split.
    + apply H2. repeat constructor.
    + apply (H3 Sample.task_id None (Sample.idle []) (u "answer 0")).
      * vm_compute. discriminate.
      * vm_compute. reflexivity.
      * constructor.
      * reflexivity.
Defined.

(** C6, as stated, fails twice.  A document of one page whose text is the
    line of a marker gives page count 1 and a text that shows two markers.
    And when PyMuPDF reports three pages of a document and pdfplumber one,
    the page count is 3 and the text shows the marker of page 1 only. *)
Lemma page_count_and_markers_can_differ :
  let marker_page := Sample.upload [Sample.parsed "--- 페이지 1 ---" []] in
  let page := Sample.parsed "alpha" [] in
  let three_and_one :=
    UploadFile.mk (u "report.pdf") (Return (map Sample.fitz_page [page; page; page]))
      (Return [Sample.plumber_page page]) in
  let result file :=
    t ← processing_tasks (Sample.run Sample.answers file []) !! Sample.task_id;
    r ← Task.result t;
    Some (PDFAnalysisResponse.page_count r, PDFAnalysisResponse.text_content r) in
  result marker_page
  = Some (1%Z, u "--- 페이지 1 ---" ++ nl ++ u "--- 페이지 1 ---")
  /\ count_markers (u "--- 페이지 1 ---" ++ nl ++ u "--- 페이지 1 ---") = 2%nat
  /\ result three_and_one = Some (3%Z, u "--- 페이지 1 ---" ++ nl ++ u "alpha")
  /\ count_markers (u "--- 페이지 1 ---" ++ nl ++ u "alpha") = 1%nat.
Proof. vm_compute. repeat split; reflexivity. Qed.

(** C7, as the code has it. When the model fails on every image and answers
    the summary, the job of an undisturbed task over a document that both
    parsers read runs to completion: the task is completed and its text holds,
    in the order of the pages and images, a failure note for every image that
    has fewer than four colour components. An image of four or more
    components is skipped and leaves no note. *)
Theorem image_failures_are_noted
    (ollama_generate : nat -> GenerateRequest.t -> Outcome pystr)
    (task_id : pystr) (file : UploadFile.t) (model : pystr)
    (custom_prompt : option pystr) (w : World)
    (fps : list FitzPage) (pps : list PlumberPage) (parsed : list ParsedPage) :
  task_id <> [] -> is_pdf file = true -> undisturbed task_id w ->
  UploadFile.fitz_open file = Return fps ->
  UploadFile.pdfplumber_open file = Return pps ->
  Forall2 parsed_as (zip fps pps) parsed ->
  (forall k req, GenerateRequest.images req <> [] ->
                 exists e, ollama_generate k req = Raise e) ->
  (forall k req, GenerateRequest.images req = [] ->
                 exists analysis, ollama_generate k req = Return analysis) ->
  exists t r,
    processing_tasks
      (analyze_pdf_async_and_run ollama_generate task_id file model custom_prompt w).2
      !! task_id = Some t
    /\ Task.status t = completed
    /\ Task.result t = Some r
    /\ PDFAnalysisResponse.page_count r = Z.of_nat (length fps)
    /\ in_order (all_failure_notes parsed) (PDFAnalysisResponse.text_content r).
Proof.
  intros Hne Hpdf Hu Hf Hp Hparsed Hfails Hanswers.
  set (sections := page_sections ollama_generate model (generate_count (trace w)) 1 parsed).
  destruct (Hanswers sections.2 (summary_request (strip sections.1) model custom_prompt)
              eq_refl) as [analysis Ho].
  destruct (undisturbed_run_completes ollama_generate task_id file model custom_prompt w
              fps pps parsed analysis Hne Hpdf Hu Hf Hp Hparsed Ho)
    as (t & Ht & Hs & _ & _ & Hr).
  eexists t, _. split; [exact Ht |]. split; [exact Hs |]. split; [exact Hr |].
  cbn [PDFAnalysisResponse.page_count PDFAnalysisResponse.text_content].
  split; [reflexivity |].
  apply in_order_strip; [apply all_failure_notes_solid |].
  apply page_sections_notes, Hfails.
Qed.

Lemma image_failures_are_noted_witness :
  exists t r,
    processing_tasks (Sample.run Sample.fails_on_images Sample.mixed_page [])
      !! Sample.task_id = Some t
    /\ Task.status t = completed
    /\ Task.result t = Some r
    /\ PDFAnalysisResponse.page_count r = 1%Z
    /\ in_order [model_failure_note 0; read_failure_note 2]
         (PDFAnalysisResponse.text_content r).
Proof.
  apply (image_failures_are_noted Sample.fails_on_images Sample.task_id Sample.mixed_page
           Sample.model None (Sample.idle [])
           [Sample.fitz_page (Sample.parsed "alpha" [Sample.rgb; Sample.cmyk; Sample.broken])]
           [Sample.plumber_page (Sample.parsed "alpha" [Sample.rgb; Sample.cmyk; Sample.broken])]
           [Sample.parsed "alpha" [Sample.rgb; Sample.cmyk; Sample.broken]]).
  - vm_compute. discriminate.
  - vm_compute. reflexivity.
  - constructor.
  - reflexivity.
  - reflexivity.
  - repeat constructor.
  - intros k req Hreq. unfold Sample.fails_on_images.
    destruct (GenerateRequest.images req); [contradiction | eauto].
  - intros k req Hreq. unfold Sample.fails_on_images. rewrite Hreq. eauto.
Defined.

(** C7, as stated, fails: a page with one CMYK image, a model that fails on
    every image. The task is completed and its text has no failure note. *)
Lemma skipped_image_has_no_failure_note :
  match processing_tasks (Sample.run Sample.fails_on_images Sample.cmyk_page [])
          !! Sample.task_id with
  | Some t =>
    Task.status t = completed
    /\ match Task.result t with
       | Some r =>
         PDFAnalysisResponse.text_content r
         = u "--- 페이지 1 ---" ++ nl ++ u "alpha" ++ nl ++ nl ++ u "[이미지 1개 분석 결과]"
         /\ contains (PDFAnalysisResponse.text_content r) (u "실패") = false
       | None => False
       end
  | None => False
  end.
Proof. vm_compute. repeat split; reflexivity. Qed.

(* ================================================================= *)
(** ** The task endpoints and the two upload requests *)

Lemma get_task_status_missing (w : World) (task_id : pystr) :
  absent task_id w ->
  get_task_status task_id w = (Raise (HTTPException 404 (u "Task not found")), w).
Proof. intros H. unfold get_task_status. rewrite H. reflexivity. Qed.

Lemma delete_task_missing (w : World) (task_id : pystr) :
  absent task_id w ->
  delete_task task_id w = (Raise (HTTPException 404 (u "Task not found")), w).
Proof. intros H. unfold delete_task. rewrite H. reflexivity. Qed.

(** X1 ([delete_task]): deleting an unknown task is refused with 404 and
    changes nothing.  Deleting a known task removes its entry and only its
    entry, leaves the run's record and the pending requests alone, and from
    then on the status, cancel and delete endpoints all answer 404 for the
    task. *)
Theorem delete_task_forgets_the_task (w : World) (task_id : pystr) :
  match processing_tasks w !! task_id with
  | None =>
    delete_task task_id w = (Raise (HTTPException 404 (u "Task not found")), w)
  | Some _ =>
    exists w',
      delete_task task_id w = (Return (u "Task deleted successfully"), w')
      /\ absent task_id w'
      /\ (forall other, other <> task_id ->
          processing_tasks w' !! other = processing_tasks w !! other)
      /\ trace w' = trace w /\ inbox w' = inbox w
      /\ get_task_status task_id w'
         = (Raise (HTTPException 404 (u "Task not found")), w')
      /\ cancel_task task_id w'
         = (Raise (HTTPException 404 (u "Task not found")), w')
      /\ delete_task task_id w'
         = (Raise (HTTPException 404 (u "Task not found")), w')
  end.
Proof.
  destruct (processing_tasks w !! task_id) as [t |] eqn:Ht.
  - eexists. split; [unfold delete_task; rewrite Ht; reflexivity |].
    assert (Ha : absent task_id
                   (mkWorld (delete task_id (processing_tasks w)) (trace w) (inbox w)))
      by apply lookup_delete_eq.
    split; [exact Ha |]. split.
    { intros other Hne. cbn [processing_tasks]. apply lookup_delete_ne. congruence. }
    split; [reflexivity |]. split; [reflexivity |].
    split; [apply get_task_status_missing, Ha |].
    split; [apply cancel_task_missing, Ha | apply delete_task_missing, Ha].
  - apply delete_task_missing, Ht.
Qed.

(** X2 ([analyze_pdf_async], [get_task_status]): a request for a file whose
    name passes the check registers the task under the new id and answers
    with the id; the status endpoint then answers with the six fields of a
    [TaskStatus]: the id, processing, progress 0, the first step, no result
    and no error.  The name of the file and of the model stay in the entry
    of the registry; the answer of the status endpoint does not carry them.
    No other entry is touched. *)
Theorem registered_task_reads_back (w : World) (task_id : pystr)
    (file : UploadFile.t) (model : pystr) (custom_prompt : option pystr) :
  is_pdf file = true ->
  exists w',
    analyze_pdf_async task_id file model custom_prompt w = (Return task_id, w')
    /\ get_task_status task_id w'
       = (Return (TaskStatus.mk task_id processing 0 (u "PDF 분석 시작") None None), w')
    /\ processing_tasks w' !! task_id
       = Some (Task.mk task_id processing 0 (u "PDF 분석 시작") None None
                 (UploadFile.filename file) model)
    /\ (forall other, other <> task_id ->
        processing_tasks w' !! other = processing_tasks w !! other)
    /\ inbox w' = inbox w.
Proof.
  intros Hpdf. eexists. split.
  { unfold analyze_pdf_async. rewrite Hpdf. reflexivity. }
  split.
  { unfold get_task_status. cbn [processing_tasks]. rewrite lookup_insert_eq. reflexivity. }
  split; [cbn [processing_tasks]; apply lookup_insert_eq |].
  split; [| reflexivity].
  intros other Hne. cbn [processing_tasks]. apply lookup_insert_ne. congruence.
Qed.

Lemma registered_task_reads_back_witness :
  exists w',
    analyze_pdf_async Sample.task_id Sample.one_page Sample.model None (Sample.idle [])
    = (Return Sample.task_id, w')
    /\ get_task_status Sample.task_id w'
       = (Return (TaskStatus.mk Sample.task_id processing 0 (u "PDF 분석 시작") None None),
          w')
    /\ processing_tasks w' !! Sample.task_id
       = Some (Task.mk Sample.task_id processing 0 (u "PDF 분석 시작") None None
                 (UploadFile.filename Sample.one_page) Sample.model)
    /\ (forall other, other <> Sample.task_id ->
        processing_tasks w' !! other = processing_tasks (Sample.idle []) !! other)
    /\ inbox w' = inbox (Sample.idle []).
Proof.
  apply (registered_task_reads_back (Sample.idle []) Sample.task_id Sample.one_page
           Sample.model None).
  vm_compute. reflexivity.
Defined.

(** X3 ([analyze_pdf_async], [analyze_pdf]): a file whose name does not pass
    the check is refused by both upload requests with status 400; the
    refusal is raised inside the [try] of the request, so its detail is the
    text of the first refusal and not the bare message.  Nothing happens
    before the refusal: no task is registered, the upload is not read, no
    request goes to the model. *)
Theorem other_files_are_refused
    (ollama_generate : nat -> GenerateRequest.t -> Outcome pystr)
    (w : World) (task_id : pystr) (file : UploadFile.t) (model : pystr)
    (custom_prompt : option pystr) :
  is_pdf file = false ->
  let refusal :=
    HTTPException 400 (str_exc (HTTPException 400 (u "Only PDF files are allowed"))) in
  analyze_pdf_async task_id file model custom_prompt w = (Raise refusal, w)
  /\ analyze_pdf ollama_generate file model custom_prompt w = (Raise refusal, w).
Proof.
  intros Hpdf refusal. unfold analyze_pdf_async, analyze_pdf, try_except.
  rewrite Hpdf. split; reflexivity.
Qed.

Lemma other_files_are_refused_witness :
  let file := UploadFile.mk (u "notes.txt") (Return []) (Return []) in
  let refusal :=
    HTTPException 400 (str_exc (HTTPException 400 (u "Only PDF files are allowed"))) in
  analyze_pdf_async Sample.task_id file Sample.model None (Sample.idle [])
  = (Raise refusal, Sample.idle [])
  /\ analyze_pdf Sample.answers file Sample.model None (Sample.idle [])
     = (Raise refusal, Sample.idle []).
Proof.
  apply (other_files_are_refused Sample.answers (Sample.idle []) Sample.task_id
           (UploadFile.mk (u "notes.txt") (Return []) (Return [])) Sample.model None).
  vm_compute. reflexivity.
Defined.

Lemma startswith_prefix (p : pystr) :
  forall s, startswith s p = true <-> exists r, s = p ++ r.
Proof.
  induction p as [| a p IH]; intros s.
  - split; [intros _; exists s; reflexivity | intros _; destruct s; reflexivity].
  - destruct s as [| b s].
    + split; [discriminate | intros [r Hr]; discriminate].
    + cbn [startswith]. rewrite andb_true_iff, N.eqb_eq, IH. split.
      * intros [-> [r ->]]. exists r. reflexivity.
      * intros [r [= -> ->]]. split; [reflexivity | exists r; reflexivity].
Qed.

Lemma endswith_suffix (s suffix : pystr) :
  endswith s suffix = true <-> exists stem, s = stem ++ suffix.
Proof.
  unfold endswith. rewrite startswith_prefix. split.
  - intros [r Hr]. exists (rev r).
    rewrite <- (rev_involutive s), Hr, rev_app_distr, rev_involutive. reflexivity.
  - intros [stem ->]. exists (rev stem). apply rev_app_distr.
Qed.

(** X4 ([analyze_pdf], [analyze_pdf_async]): the check of the file name
    accepts exactly the names that end in [.pdf] written in any mix of upper
    and lower case; what comes before the extension does not matter. *)
Theorem pdf_names_are_accepted_in_any_case (file : UploadFile.t) :
  is_pdf file = true <->
  exists stem ext, UploadFile.filename file = stem ++ ext /\ lower ext = u ".pdf".
Proof.
  unfold is_pdf. rewrite endswith_suffix. unfold lower. split.
  - intros [stem Hs]. apply map_eq_app in Hs.
    destruct Hs as (stem' & ext & Hname & _ & Hext).
    exists stem', ext. split; assumption.
  - intros (stem & ext & -> & Hext). rewrite map_app.
    eexists. f_equal. exact Hext.
Qed.

(** X5 ([get_all_tasks], [delete_task]): the listing holds the entries of
    the registry, one for each task id, and asking for it changes nothing.
    After a task is deleted the listing is the former one without the entry
    of that task. *)
Theorem listing_follows_the_registry (w : World) :
  exists listing,
    get_all_tasks w = (Return listing, w)
    /\ length listing = size (processing_tasks w)
    /\ (forall t, t ∈ listing <-> exists task_id, processing_tasks w !! task_id = Some t)
    /\ (forall task_id t, processing_tasks w !! task_id = Some t ->
        exists w' listing',
          delete_task task_id w = (Return (u "Task deleted successfully"), w')
          /\ get_all_tasks w' = (Return listing', w')
          /\ listing ≡ₚ t :: listing').
Proof.
  eexists. split; [reflexivity |]. split.
  { rewrite length_fmap. apply length_map_to_list. }
  split.
  { intros t. rewrite list_elem_of_fmap. split.
    - intros ([task_id t'] & -> & Hin). exists task_id.
      apply elem_of_map_to_list in Hin. exact Hin.
    - intros [task_id Ht]. exists (task_id, t). split; [reflexivity |].
      apply elem_of_map_to_list. exact Ht. }
  intros task_id t Ht. eexists. eexists.
  split; [unfold delete_task; rewrite Ht; reflexivity |].
  split; [reflexivity |].
  cbn [processing_tasks].
  rewrite <- (map_to_list_delete (processing_tasks w) task_id t Ht).
  reflexivity.
Qed.

Lemma listing_follows_the_registry_witness :
  exists w' listing listing',
    get_all_tasks (Sample.world processing) = (Return listing, Sample.world processing)
    /\ delete_task Sample.task_id (Sample.world processing)
       = (Return (u "Task deleted successfully"), w')
    /\ get_all_tasks w' = (Return listing', w')
    /\ listing ≡ₚ Sample.task processing :: listing'.
Proof.
  destruct (listing_follows_the_registry (Sample.world processing))
    as (listing & Hl & _ & _ & Hd).
  destruct (Hd Sample.task_id (Sample.task processing)) as (w' & listing' & H1 & H2 & H3);
    [vm_compute; reflexivity |].
  exists w', listing, listing'.
  split; [exact Hl |]. split; [exact H1 |]. split; [exact H2 | exact H3].
Defined.

(* ================================================================= *)
(** ** The model adapters and the background job *)

(** X6 ([analyze_text_with_ollama]): a custom prompt that is not empty is
    sent as it is, in place of the built-in prompt and of the text that the
    built-in prompt ends with: the request, and so the analysis, no longer
    depends on the text of the document.  Without a custom prompt, or with
    an empty one, the request is the built-in prompt followed by the text. *)
Theorem custom_prompt_replaces_the_text
    (ollama_generate : nat -> GenerateRequest.t -> Outcome pystr)
    (text text' model_name : pystr) (c : N) (p : pystr) (w : World) :
  analyze_text_with_ollama ollama_generate text model_name (Some (c :: p)) w
  = analyze_text_with_ollama ollama_generate text' model_name (Some (c :: p)) w
  /\ requests_sent
       (trace (analyze_text_with_ollama ollama_generate text model_name
                 (Some (c :: p)) w).2)
     = requests_sent (trace w) ++ [GenerateRequest.mk model_name (c :: p) []]
  /\ (forall prompt, truthy prompt = false ->
      requests_sent
        (trace (analyze_text_with_ollama ollama_generate text model_name prompt w).2)
      = requests_sent (trace w)
          ++ [GenerateRequest.mk model_name (summary_prompt text) []]).
Proof.
  split; [reflexivity |]. split.
  - unfold analyze_text_with_ollama, try_except, generate.
    destruct (ollama_generate _ _); reflexivity.
  - intros prompt Hp. unfold analyze_text_with_ollama, try_except, generate.
    destruct prompt as [[| c' p'] |]; try discriminate Hp;
      destruct (ollama_generate _ _); reflexivity.
Qed.

Lemma custom_prompt_replaces_the_text_witness :
  requests_sent
    (trace (analyze_text_with_ollama Sample.answers (u "alpha") Sample.model (Some [])
              (Sample.idle [])).2)
  = requests_sent (trace (Sample.idle []))
      ++ [GenerateRequest.mk Sample.model (summary_prompt (u "alpha")) []].
Proof.
  apply (custom_prompt_replaces_the_text Sample.answers (u "alpha") (u "beta")
           Sample.model 63%N (u "who wrote this") (Sample.idle [])).
  reflexivity.
Defined.

(** X7 ([analyze_image_with_ollama], [analyze_text_with_ollama]): each
    adapter sends one request.  The image adapter never raises: when the
    model fails it returns the failure as the description of the image.  The
    text adapter returns the model's answer, and raises an [HTTPException]
    with status 500 that carries the model's error when the model fails. *)
Theorem adapters_report_model_failures
    (ollama_generate : nat -> GenerateRequest.t -> Outcome pystr)
    (image_base64 text model : pystr) (prompt : option pystr) (w : World) :
  let sent req := mkWorld (processing_tasks w) (Generate req :: trace w) (inbox w) in
  analyze_image_with_ollama ollama_generate image_base64 model w
  = (Return
       match ollama_generate (generate_count (trace w))
               (image_request image_base64 model) with
       | Return response => response
       | Raise e => u "이미지 분석 실패: " ++ str_exc e
       end,
     sent (image_request image_base64 model))
  /\ analyze_text_with_ollama ollama_generate text model prompt w
     = (match ollama_generate (generate_count (trace w))
                (summary_request text model prompt) with
        | Return response => Return response
        | Raise e =>
          Raise (HTTPException 500
                   (u "Failed to analyze text with Ollama: " ++ str_exc e))
        end,
        sent (summary_request text model prompt)).
Proof.
  intros sent. split.
  - unfold analyze_image_with_ollama, try_except, generate, image_request.
    destruct (ollama_generate _ _); reflexivity.
  - unfold analyze_text_with_ollama, try_except, generate, summary_request.
    destruct (ollama_generate _ _); reflexivity.
Qed.

Lemma bind_returns_inv {A B : Type} (m : M A) (k : A -> M B) (w w' : World) (b : B) :
  (m ≫= k) w = (Return b, w') ->
  exists a w0, m w = (Return a, w0) /\ k a w0 = (Return b, w').
Proof.
  rewrite bind_run. destruct (m w) as [[a | e] w0]; [| discriminate].
  intros H. exists a, w0. split; [reflexivity | exact H].
Qed.

Lemma update_completed_returns (w w' : World) (task_id : pystr)
    (result : PDFAnalysisResponse.t) :
  update_completed task_id result w = (Return (), w') ->
  is_Some (processing_tasks w' !! task_id).
Proof.
  destruct (processing_tasks w !! task_id) as [t |] eqn:Ht.
  - rewrite (update_completed_run _ _ _ _ Ht). intros [= <-].
    cbn [processing_tasks]. rewrite lookup_insert_eq. eauto.
  - rewrite (update_completed_missing _ _ _ Ht). discriminate.
Qed.

(** X8 ([process_pdf_async]): the background job catches every exception of
    the analysis, so it ends in one of two ways.  Either it returns, and the
    task is still registered; or it raises [KeyError] for its own task id,
    and this happens exactly when the task was deleted from the registry
    before the job could record how it ended. *)
Theorem background_job_raises_only_without_its_task
    (ollama_generate : nat -> GenerateRequest.t -> Outcome pystr)
    (task_id : pystr) (file : UploadFile.t) (model : pystr)
    (custom_prompt : option pystr) (w : World) :
  let r := process_pdf_async ollama_generate task_id file model custom_prompt w in
  (r.1 = Return () /\ is_Some (processing_tasks r.2 !! task_id))
  \/ (r.1 = Raise (KeyError task_id) /\ absent task_id r.2).
Proof.
  intros r. subst r. unfold process_pdf_async.
  match goal with
  | |- context [try_except ?b ?h w] => set (body := b); set (handler := h)
  end.
  unfold try_except. destruct (body w) as [[[] | e] w1] eqn:Hbody.
  - left. split; [reflexivity |]. cbn [snd]. subst body.
    apply bind_returns_inv in Hbody. destruct Hbody as ([text n] & wa & _ & Hrest).
    apply bind_returns_inv in Hrest. destruct Hrest as (st & wb & Hst & Hrest).
    unfold get_status in Hst. injection Hst as <- <-.
    destruct (decide _) as [Hc | Hc].
    + rewrite mret_run in Hrest. injection Hrest as <-.
      destruct (processing_tasks wa !! task_id); [eauto | discriminate Hc].
    + apply bind_returns_inv in Hrest. destruct Hrest as (_ & wc & _ & Hrest).
      apply bind_returns_inv in Hrest. destruct Hrest as (_ & wd & _ & Hrest).
      apply bind_returns_inv in Hrest. destruct Hrest as (analysis & we & _ & Hrest).
      apply (update_completed_returns _ _ _ _ Hrest).
  - subst handler. cbn beta.
    destruct (processing_tasks w1 !! task_id) as [t |] eqn:Ht.
    + left. rewrite (update_failed_run _ _ _ _ Ht). split; [reflexivity |].
      cbn [snd processing_tasks]. rewrite lookup_insert_eq. eauto.
    + right. rewrite (update_failed_missing _ _ _ Ht). split; [reflexivity | exact Ht].
Qed.

Lemma absent_serve_request (task_id : pystr) (r : Request) :
  preserves (absent task_id) (serve_request r).
Proof.
  intros w Ha. unfold absent in *. destruct r as [tid | tid]; cbn [serve_request snd].
  - destruct (decide (task_id = tid)) as [-> | Hne].
    + rewrite (cancel_task_missing _ _ Ha). exact Ha.
    + destruct (cancel_task_effect w tid) as (_ & _ & Ho & _). rewrite Ho; auto.
  - destruct (decide (task_id = tid)) as [-> | Hne].
    + apply (delete_task_effect w tid).
    + destruct (delete_task_effect w tid) as (_ & _ & Ho & _). rewrite Ho; auto.
Qed.

Lemma absent_serve (task_id : pystr) (rs : list Request) :
  preserves (absent task_id) (serve rs).
Proof. apply preserves_serve. intros r _. apply absent_serve_request. Qed.

Lemma serve_deletes (task_id : pystr) (rs : list Request) (w : World) :
  DELETE_task task_id ∈ rs -> absent task_id (serve rs w).2.
Proof.
  revert w. induction rs as [| r rest IH]; intros w Hin.
  - apply elem_of_nil in Hin. contradiction.
  - cbn [serve]. rewrite bind_run.
    destruct (serve_request r w) as [[[] | e] w1] eqn:Hr.
    2:{ destruct r; discriminate Hr. }
    apply elem_of_cons in Hin. destruct Hin as [<- | Hin].
    + apply absent_serve. cbn [serve_request] in Hr. injection Hr as <-.
      apply (delete_task_effect w task_id).
    + apply IH, Hin.
Qed.

Lemma await_point_returns (w : World) : await_point w = (Return (), (await_point w).2).
Proof.
  destruct (await_point_frame w) as [H _].
  destruct (await_point w) as [o w']. cbn [fst] in H. subst o. reflexivity.
Qed.

Lemma extract_fails_at_open
    (ollama_generate : nat -> GenerateRequest.t -> Outcome pystr)
    (model : pystr) (running : option pystr) (file : UploadFile.t) (w : World)
    (e : PyExc) :
  UploadFile.fitz_open file = Raise e ->
  extract_images_from_pdf_and_analyze ollama_generate model running file w
  = (Raise (if contains (str_exc e) (u "cancelled") then e
            else HTTPException 400
                   (u "Failed to extract and analyze PDF: " ++ str_exc e)),
     (await_point w).2).
Proof.
  intros Hf. unfold extract_images_from_pdf_and_analyze.
  pose proof (await_point_returns w) as Haw. set (w0 := (await_point w).2) in *.
  match goal with
  | |- try_except ?body ?h w = _ => assert (Hbody : body w = (Raise e, w0))
  end.
  { unfold await. rewrite !bind_run, Haw.
    unfold UploadFile_read. rewrite mret_run, bind_run, Hf. reflexivity. }
  rewrite (try_except_raise _ _ _ _ _ Hbody).
  destruct (contains _ _); reflexivity.
Qed.

Lemma extract_fails_without_task
    (ollama_generate : nat -> GenerateRequest.t -> Outcome pystr)
    (model task_id : pystr) (file : UploadFile.t) (w : World) :
  task_id <> [] -> absent task_id (await_point w).2 ->
  exists e,
    extract_images_from_pdf_and_analyze ollama_generate model (Some task_id) file w
    = (Raise e, (await_point w).2).
Proof.
  intros Hne Ha.
  destruct (UploadFile.fitz_open file) as [fps | e] eqn:Hf.
  - unfold extract_images_from_pdf_and_analyze.
    pose proof (await_point_returns w) as Haw. set (w0 := (await_point w).2) in *.
    match goal with
    | |- exists e', try_except ?body ?h w = _ =>
      assert (Hbody : body w = (Raise (KeyError task_id), w0))
    end.
    { unfold await. rewrite !bind_run, Haw.
      unfold UploadFile_read. rewrite mret_run, bind_run, Hf. unfold lift at 1.
      rewrite bind_run. destruct task_id as [| c s]; [contradiction |].
      cbn [if_task_id]. rewrite bind_run.
      rewrite (setitem_current_step_missing _ _ _ Ha). reflexivity. }
    rewrite (try_except_raise _ _ _ _ _ Hbody).
    destruct (contains _ _); eexists; reflexivity.
  - eexists. apply extract_fails_at_open, Hf.
Qed.

(** X9 ([process_pdf_async], [delete_task]): when the task is deleted while
    the upload is read, the job stops at its first report.  It sends nothing
    to the model and writes no progress; it raises [KeyError] for its task
    id out of the handler that should record the failure, and the registry
    keeps no entry for the task. *)
Theorem task_deleted_while_reading_stops_the_job
    (ollama_generate : nat -> GenerateRequest.t -> Outcome pystr)
    (task_id : pystr) (file : UploadFile.t) (model : pystr)
    (custom_prompt : option pystr) (w : World) :
  task_id <> [] -> DELETE_task task_id ∈ next_requests w ->
  exists w',
    process_pdf_async ollama_generate task_id file model custom_prompt w
    = (Raise (KeyError task_id), w')
    /\ absent task_id w'
    /\ trace w' = trace w
    /\ inbox w' = tl (inbox w).
Proof.
  intros Hne Hd.
  assert (Ha : absent task_id (await_point w).2).
  { rewrite await_point_run. cbn [snd]. apply serve_deletes, Hd. }
  destruct (extract_fails_without_task ollama_generate model task_id file w Hne Ha)
    as [e He].
  exists (await_point w).2. split.
  - unfold process_pdf_async.
    match goal with
    | |- try_except ?body ?h w = _ =>
      assert (Hbody : body w = (Raise e, (await_point w).2))
    end.
    { rewrite bind_run, He. reflexivity. }
    rewrite (try_except_raise _ _ _ _ _ Hbody).
    apply update_failed_missing, Ha.
  - split; [exact Ha |]. destruct (await_point_frame w) as (_ & Htr & Hin & _).
    split; assumption.
Qed.

Lemma task_deleted_while_reading_stops_the_job_witness :
  exists w',
    process_pdf_async Sample.answers Sample.task_id Sample.one_page Sample.model None
      (mkWorld {[ Sample.task_id := Sample.task processing ]} []
         [[DELETE_task Sample.task_id]])
    = (Raise (KeyError Sample.task_id), w')
    /\ absent Sample.task_id w'
    /\ trace w' = []
    /\ inbox w' = [].
Proof.
  apply (task_deleted_while_reading_stops_the_job Sample.answers Sample.task_id
           Sample.one_page Sample.model None
           (mkWorld {[ Sample.task_id := Sample.task processing ]} []
              [[DELETE_task Sample.task_id]])).
  - vm_compute. discriminate.
  - cbn [next_requests inbox hd]. apply list_elem_of_singleton. reflexivity.
Defined.

(** X10 ([extract_images_from_pdf_and_analyze], [process_pdf_async]): a
    document that PyMuPDF cannot open fails the task: status failed,
    progress 0, no result, and no request sent to the model.  The recorded
    error is the text of an [HTTPException] with status 400 that carries the
    parser's message, unless that message contains the word [cancelled]: then
    the parser's exception is passed on as it is and its bare message is
    recorded, as for a cancellation. *)
Theorem unreadable_document_fails_the_task
    (ollama_generate : nat -> GenerateRequest.t -> Outcome pystr)
    (task_id : pystr) (file : UploadFile.t) (model : pystr)
    (custom_prompt : option pystr) (w : World) (e : PyExc) :
  is_pdf file = true -> UploadFile.fitz_open file = Raise e ->
  DELETE_task task_id ∉ next_requests w ->
  let w' :=
    (analyze_pdf_async_and_run ollama_generate task_id file model custom_prompt w).2 in
  exists t,
    processing_tasks w' !! task_id = Some t
    /\ Task.status t = failed
    /\ Task.progress t = 0%Z
    /\ Task.result t = None
    /\ Task.error t
       = Some (if contains (str_exc e) (u "cancelled") then str_exc e
               else str_exc (HTTPException 400
                               (u "Failed to extract and analyze PDF: " ++ str_exc e)))
    /\ requests_sent (trace w') = requests_sent (trace w).
Proof.
  intros Hpdf Hf Hd w'. subst w'.
  unfold analyze_pdf_async_and_run. rewrite bind_run.
  rewrite (analyze_pdf_async_run ollama_generate _ _ _ _ _ Hpdf).
  set (t0 := Task.mk task_id processing 0 (u "PDF 분석 시작") None None
               (UploadFile.filename file) model).
  set (w0 := mkWorld _ _ _).
  destruct (await_point_keeps w0 task_id t0 Hd) as
    (w1 & t1 & Ha & Htr & _ & Ht1 & Hsame & _); [apply lookup_insert_eq |].
  destruct Hsame as (_ & _ & Hres & _).
  pose proof (extract_fails_at_open ollama_generate model (Some task_id) file w0 e Hf)
    as He.
  rewrite Ha in He. cbn [snd] in He.
  unfold process_pdf_async.
  match goal with
  | |- context [try_except ?body ?h w0] =>
    assert (Hbody : body w0
                    = (Raise (if contains (str_exc e) (u "cancelled") then e
                              else HTTPException 400
                                     (u "Failed to extract and analyze PDF: "
                                        ++ str_exc e)), w1))
  end.
  { rewrite bind_run, He. reflexivity. }
  rewrite (try_except_raise _ _ _ _ _ Hbody).
  rewrite (update_failed_run _ _ _ _ Ht1). cbn [snd processing_tasks trace].
  eexists. split; [apply lookup_insert_eq |].
  cbn [Task.status Task.progress Task.result Task.error Task.set_error
         Task.set_current_step Task.set_progress Task.set_status].
  split; [reflexivity |]. split; [reflexivity |]. split; [exact Hres |].
  split; [destruct (contains _ _); reflexivity |].
  cbn [requests_sent]. rewrite Htr. reflexivity.
Qed.

Lemma unreadable_document_fails_the_task_witness :
  let file :=
    UploadFile.mk (u "report.pdf") (Raise (Exception (u "cannot open broken document")))
      (Return []) in
  exists t,
    processing_tasks (Sample.run Sample.answers file []) !! Sample.task_id = Some t
    /\ Task.status t = failed
    /\ Task.progress t = 0%Z
    /\ Task.result t = None
    /\ Task.error t
       = Some (if contains (str_exc (Exception (u "cannot open broken document")))
                    (u "cancelled")
               then str_exc (Exception (u "cannot open broken document"))
               else str_exc (HTTPException 400
                               (u "Failed to extract and analyze PDF: "
                                  ++ str_exc (Exception (u "cannot open broken document")))))
    /\ requests_sent (trace (Sample.run Sample.answers file [])) = requests_sent [].
Proof.
  apply (unreadable_document_fails_the_task Sample.answers Sample.task_id
           (UploadFile.mk (u "report.pdf")
              (Raise (Exception (u "cannot open broken document"))) (Return []))
           Sample.model None (Sample.idle [])
           (Exception (u "cannot open broken document"))).
  - vm_compute. reflexivity.
  - reflexivity.
  - cbn [next_requests Sample.idle inbox hd]. apply not_elem_of_nil.
Defined.

(* ================================================================= *)
(** ** The synchronous request *)

Lemma step_invariant_without_task
    (ollama_generate : nat -> GenerateRequest.t -> Outcome pystr) (I : World -> Prop) :
  preserves I await_point ->
  (forall req, preserves I (generate ollama_generate req)) ->
  step_invariant ollama_generate None I.
Proof. intros Ha Hg. split; [discriminate | discriminate | exact Ha | exact Hg]. Qed.

Lemma preserves_analyze_pdf
    (ollama_generate : nat -> GenerateRequest.t -> Outcome pystr) (I : World -> Prop)
    (file : UploadFile.t) (model : pystr) (custom_prompt : option pystr) :
  step_invariant ollama_generate None I ->
  preserves I (analyze_pdf ollama_generate file model custom_prompt).
Proof.
  intros HI. unfold analyze_pdf.
  apply preserves_try; [| intros e; apply preserves_raise].
  destruct (is_pdf file); [| apply preserves_raise].
  apply preserves_bind; [apply preserves_extract; exact HI | intros [text_content n]].
  destruct (decide _); [apply preserves_raise |].
  apply preserves_bind; [| intros analysis; apply preserves_mret].
  apply (preserves_analyze_text _ _ _ HI).
Qed.

Lemma only_requests_since_steps
    (ollama_generate : nat -> GenerateRequest.t -> Outcome pystr) (w0 : World) :
  step_invariant ollama_generate None (only_requests_since w0).
Proof.
  apply step_invariant_without_task.
  - intros w [reqs Hw]. exists reqs.
    destruct (await_point_frame w) as (_ & Htr & _). rewrite Htr. exact Hw.
  - intros req w [reqs Hw]. exists (req :: reqs).
    unfold generate. cbn [snd trace map]. rewrite Hw. reflexivity.
Qed.

Lemma untouched_steps_without_task
    (ollama_generate : nat -> GenerateRequest.t -> Outcome pystr)
    (task_id : pystr) (entry : option Task.t) :
  step_invariant ollama_generate None (untouched task_id entry).
Proof.
  apply step_invariant_without_task.
  - apply untouched_await.
  - intros req w H. exact H.
Qed.

(** X11 ([analyze_pdf]): the synchronous request works without a task.
    Whatever the upload, the model and the requests that arrive in the
    meantime, it writes no progress, its only record are the requests it
    sends to the model, and the entry of every task that no arriving request
    names is the same after it as before. *)
Theorem synchronous_request_leaves_tasks_alone
    (ollama_generate : nat -> GenerateRequest.t -> Outcome pystr)
    (file : UploadFile.t) (model : pystr) (custom_prompt : option pystr) (w : World) :
  let w' := (analyze_pdf ollama_generate file model custom_prompt w).2 in
  only_requests_since w w'
  /\ values_written (trace w') = values_written (trace w)
  /\ (forall task_id, undisturbed task_id w ->
      processing_tasks w' !! task_id = processing_tasks w !! task_id).
Proof.
  intros w'. subst w'.
  assert (Hreq : only_requests_since w
                   (analyze_pdf ollama_generate file model custom_prompt w).2).
  { apply (preserves_analyze_pdf _ _ _ _ _ (only_requests_since_steps _ w)).
    exists []. reflexivity. }
  split; [exact Hreq |]. split.
  - destruct Hreq as [reqs ->]. induction reqs as [| req reqs IH]; [reflexivity | exact IH].
  - intros task_id Hu.
    apply (preserves_analyze_pdf _ _ _ _ _
             (untouched_steps_without_task _ task_id (processing_tasks w !! task_id))).
    split; [reflexivity | exact Hu].
Qed.

Lemma synchronous_request_leaves_tasks_alone_witness :
  processing_tasks
    (analyze_pdf Sample.answers Sample.mixed_page Sample.model None
       (mkWorld {[ Sample.task_id := Sample.task processing ]} []
          [[POST_cancel (u "another")]])).2
    !! Sample.task_id
  = processing_tasks
      (mkWorld {[ Sample.task_id := Sample.task processing ]} []
         [[POST_cancel (u "another")]])
      !! Sample.task_id.
Proof.
  pose proof (synchronous_request_leaves_tasks_alone Sample.answers Sample.mixed_page
                Sample.model None
                (mkWorld {[ Sample.task_id := Sample.task processing ]} []
                   [[POST_cancel (u "another")]])) as H.
  cbn zeta in H. destruct H as (_ & _ & H). apply H.
  constructor; [| constructor]. constructor; [| constructor].
  vm_compute. discriminate.
Defined.

(** X12 ([analyze_pdf]): every failure of the synchronous request reaches
    the client as an [HTTPException] with status 400, whatever raised it: the
    request either returns a response or raises with status 400. *)
Theorem synchronous_request_fails_with_400
    (ollama_generate : nat -> GenerateRequest.t -> Outcome pystr)
    (file : UploadFile.t) (model : pystr) (custom_prompt : option pystr) (w : World) :
  (exists response,
     (analyze_pdf ollama_generate file model custom_prompt w).1 = Return response
     /\ PDFAnalysisResponse.task_id response = None
     /\ PDFAnalysisResponse.filename response = UploadFile.filename file
     /\ PDFAnalysisResponse.model_used response = model)
  \/ (exists detail,
        (analyze_pdf ollama_generate file model custom_prompt w).1
        = Raise (HTTPException 400 detail)).
Proof.
  unfold analyze_pdf.
  match goal with
  | |- context [try_except ?b ?h w] => set (body := b); set (handler := h)
  end.
  unfold try_except. destruct (body w) as [[response | e] w1] eqn:Hbody.
  - left. exists response. split; [reflexivity |]. subst body.
    destruct (is_pdf file); [| discriminate Hbody].
    apply bind_returns_inv in Hbody. destruct Hbody as ([text n] & wa & _ & Hrest).
    destruct (decide _); [discriminate Hrest |].
    apply bind_returns_inv in Hrest. destruct Hrest as (analysis & wb & _ & Hrest).
    rewrite mret_run in Hrest. injection Hrest as <- _. repeat split.
  - right. eexists. reflexivity.
Qed.

Lemma analyze_text_run
    (ollama_generate : nat -> GenerateRequest.t -> Outcome pystr)
    (text model : pystr) (prompt : option pystr) (w : World) :
  analyze_text_with_ollama ollama_generate text model prompt w
  = (match ollama_generate (generate_count (trace w))
             (summary_request text model prompt) with
     | Return response => Return response
     | Raise e =>
       Raise (HTTPException 500 (u "Failed to analyze text with Ollama: " ++ str_exc e))
     end,
     mkWorld (processing_tasks w)
       (Generate (summary_request text model prompt) :: trace w) (inbox w)).
Proof.
  unfold analyze_text_with_ollama, try_except, generate, summary_request.
  destruct (ollama_generate _ _); reflexivity.
Qed.

Lemma in_order_nonempty (seg s : pystr) : solid seg -> in_order [seg] s -> s <> [].
Proof.
  intros [(c & r & -> & _) _] H. inversion H as [| ? ? pre rest _ ]; subst.
  intros E. apply app_eq_nil in E. destruct E as [_ E]. discriminate E.
Qed.

Lemma page_sections_first_marker
    (ollama_generate : nat -> GenerateRequest.t -> Outcome pystr) (model : pystr)
    (k : nat) (page_num : Z) (pp : ParsedPage) (rest : list ParsedPage) :
  exists tail,
    (page_sections ollama_generate model k page_num (pp :: rest)).1
    = page_marker page_num ++ tail.
Proof.
  rewrite page_sections_cons. cbn [fst].
  destruct (image_list pp) as [| img imgs] eqn:Himgs.
  - rewrite (page_section_plain _ _ _ _ _ Himgs). cbn [fst].
    rewrite <- !app_assoc. eexists. reflexivity.
  - rewrite page_section_images by (rewrite Himgs; discriminate). cbn [fst].
    rewrite <- !app_assoc. eexists. reflexivity.
Qed.

Lemma stripped_sections_nonempty
    (ollama_generate : nat -> GenerateRequest.t -> Outcome pystr) (model : pystr)
    (k : nat) (parsed : list ParsedPage) :
  parsed <> [] ->
  strip (strip (page_sections ollama_generate model k 1 parsed).1) <> [].
Proof.
  intros Hne. destruct parsed as [| pp rest]; [contradiction |].
  destruct (page_sections_first_marker ollama_generate model k 1 pp rest) as [tail ->].
  apply (in_order_nonempty (page_marker 1)); [apply page_marker_solid |].
  assert (Hs : Forall solid [page_marker 1]).
  { constructor; [apply page_marker_solid | constructor]. }
  apply in_order_strip; [exact Hs |]. apply in_order_strip; [exact Hs |].
  apply in_order_one.
Qed.

Lemma analyze_pdf_run
    (ollama_generate : nat -> GenerateRequest.t -> Outcome pystr)
    (file : UploadFile.t) (model : pystr) (custom_prompt : option pystr) (w : World)
    (fps : list FitzPage) (pps : list PlumberPage) (parsed : list ParsedPage) :
  is_pdf file = true ->
  UploadFile.fitz_open file = Return fps ->
  UploadFile.pdfplumber_open file = Return pps ->
  Forall2 parsed_as (zip fps pps) parsed -> parsed <> [] ->
  let sections := page_sections ollama_generate model (generate_count (trace w)) 1 parsed in
  (analyze_pdf ollama_generate file model custom_prompt w).1
  = match ollama_generate sections.2
            (summary_request (strip sections.1) model custom_prompt) with
    | Return analysis =>
      Return (PDFAnalysisResponse.mk (UploadFile.filename file) (strip sections.1)
                analysis model (Z.of_nat (length fps)) None)
    | Raise e =>
      Raise (HTTPException 400
               (str_exc (HTTPException 500
                           (u "Failed to analyze text with Ollama: " ++ str_exc e))))
    end.
Proof.
  intros Hpdf Hf Hp Hparsed Hne sections.
  assert (Hcalm : calm None (generate_count (trace w)) w).
  { split; [reflexivity | intros c s [=]]. }
  destruct (calm_extract ollama_generate model None file fps pps parsed
              (generate_count (trace w)) Hf Hp Hparsed w Hcalm)
    as (w1 & He & Hk1 & _).
  fold sections in He, Hk1.
  pose proof (analyze_text_run ollama_generate (strip sections.1) model custom_prompt w1)
    as Ht.
  rewrite Hk1 in Ht.
  unfold analyze_pdf. rewrite Hpdf.
  destruct (ollama_generate sections.2 _) as [analysis | e] eqn:Ho.
  - match goal with
    | |- (try_except ?body ?h w).1 = Return ?r =>
      assert (Hbody : body w
                      = (Return r,
                         mkWorld (processing_tasks w1)
                           (Generate (summary_request (strip sections.1) model custom_prompt)
                              :: trace w1) (inbox w1)))
    end.
    { rewrite bind_run, He.
      destruct (decide _) as [Hempty | _].
      { exfalso. revert Hempty. apply stripped_sections_nonempty, Hne. }
      rewrite bind_run, Ht. reflexivity. }
    rewrite (try_except_return _ _ _ _ _ Hbody). reflexivity.
  - match goal with
    | |- (try_except ?body ?h w).1 = _ =>
      assert (Hbody : body w
                      = (Raise (HTTPException 500
                                  (u "Failed to analyze text with Ollama: " ++ str_exc e)),
                         mkWorld (processing_tasks w1)
                           (Generate (summary_request (strip sections.1) model custom_prompt)
                              :: trace w1) (inbox w1)))
    end.
    { rewrite bind_run, He.
      destruct (decide _) as [Hempty | _].
      { exfalso. revert Hempty. apply stripped_sections_nonempty, Hne. }
      rewrite bind_run, Ht. reflexivity. }
    rewrite (try_except_raise _ _ _ _ _ Hbody). reflexivity.
Qed.

(** X13 ([analyze_pdf], [analyze_text_with_ollama]): for a document of at
    least one page that both parsers read, the synchronous request never
    answers that no text could be extracted, since the text starts with the
    marker of page 1.  It sends the text to the model and returns the
    analysis with the number of pages and no task id; when the model fails,
    the status 500 of the text adapter is not passed on: the client gets
    status 400, with the text of the inner exception as its detail. *)
Theorem synchronous_request_on_a_readable_document
    (ollama_generate : nat -> GenerateRequest.t -> Outcome pystr)
    (file : UploadFile.t) (model : pystr) (custom_prompt : option pystr) (w : World)
    (fps : list FitzPage) (pps : list PlumberPage) (parsed : list ParsedPage) :
  is_pdf file = true ->
  UploadFile.fitz_open file = Return fps ->
  UploadFile.pdfplumber_open file = Return pps ->
  Forall2 parsed_as (zip fps pps) parsed -> parsed <> [] ->
  let sections := page_sections ollama_generate model (generate_count (trace w)) 1 parsed in
  (exists tail, sections.1 = page_marker 1 ++ tail)
  /\ strip sections.1 <> []
  /\ (analyze_pdf ollama_generate file model custom_prompt w).1
     = match ollama_generate sections.2
               (summary_request (strip sections.1) model custom_prompt) with
       | Return analysis =>
         Return (PDFAnalysisResponse.mk (UploadFile.filename file) (strip sections.1)
                   analysis model (Z.of_nat (length fps)) None)
       | Raise e =>
         Raise (HTTPException 400
                  (str_exc (HTTPException 500
                              (u "Failed to analyze text with Ollama: " ++ str_exc e))))
       end.
Proof.
  intros Hpdf Hf Hp Hparsed Hne sections. split; [| split].
  - subst sections. destruct parsed as [| pp rest]; [contradiction |].
    apply page_sections_first_marker.
  - intros E.
    apply (stripped_sections_nonempty ollama_generate model (generate_count (trace w))
             parsed Hne).
    fold sections. rewrite E. reflexivity.
  - apply (analyze_pdf_run ollama_generate file model custom_prompt w fps pps parsed);
      assumption.
Qed.

Lemma synchronous_request_on_a_readable_document_witness :
  let sections :=
    page_sections Sample.fails Sample.model 0 1 [Sample.parsed "alpha" []] in
  (exists tail, sections.1 = page_marker 1 ++ tail)
  /\ strip sections.1 <> []
  /\ (analyze_pdf Sample.fails Sample.one_page Sample.model None (Sample.idle [])).1
     = match Sample.fails sections.2
               (summary_request (strip sections.1) Sample.model None) with
       | Return analysis =>
         Return (PDFAnalysisResponse.mk (UploadFile.filename Sample.one_page)
                   (strip sections.1) analysis Sample.model 1 None)
       | Raise e =>
         Raise (HTTPException 400
                  (str_exc (HTTPException 500
                              (u "Failed to analyze text with Ollama: " ++ str_exc e))))
       end.
Proof.
  apply (synchronous_request_on_a_readable_document Sample.fails Sample.one_page
           Sample.model None (Sample.idle [])
           (map Sample.fitz_page [Sample.parsed "alpha" []])
           (map Sample.plumber_page [Sample.parsed "alpha" []])
           [Sample.parsed "alpha" []]).
  - vm_compute. reflexivity.
  - reflexivity.
  - reflexivity.
  - repeat constructor.
  - discriminate.
Defined.

(** X14 ([analyze_pdf], [process_pdf_async]): the two ways of asking give the
    same analysis.  For a document of at least one page that both parsers
    read and a model that answers the summary, the response of the
    synchronous request and the result that the background job of an
    undisturbed task stores, started from the same state, have the same file
    name, text, analysis, model and number of pages; only the stored result
    carries the task id. *)
Theorem both_requests_give_the_same_analysis
    (ollama_generate : nat -> GenerateRequest.t -> Outcome pystr)
    (task_id : pystr) (file : UploadFile.t) (model : pystr)
    (custom_prompt : option pystr) (w : World)
    (fps : list FitzPage) (pps : list PlumberPage) (parsed : list ParsedPage)
    (analysis : pystr) :
  task_id <> [] -> is_pdf file = true -> undisturbed task_id w ->
  UploadFile.fitz_open file = Return fps ->
  UploadFile.pdfplumber_open file = Return pps ->
  Forall2 parsed_as (zip fps pps) parsed -> parsed <> [] ->
  let sections := page_sections ollama_generate model (generate_count (trace w)) 1 parsed in
  ollama_generate sections.2 (summary_request (strip sections.1) model custom_prompt)
  = Return analysis ->
  exists response t result,
    (analyze_pdf ollama_generate file model custom_prompt w).1 = Return response
    /\ processing_tasks
         (analyze_pdf_async_and_run ollama_generate task_id file model custom_prompt w).2
         !! task_id = Some t
    /\ Task.result t = Some result
    /\ same_analysis response result
    /\ PDFAnalysisResponse.task_id response = None
    /\ PDFAnalysisResponse.task_id result = Some task_id.
Proof.
  intros Hne Hpdf Hu Hf Hp Hparsed Hpages sections Ho.
  pose proof (analyze_pdf_run ollama_generate file model custom_prompt w fps pps parsed
                Hpdf Hf Hp Hparsed Hpages) as Hsync.
  cbn zeta in Hsync. fold sections in Hsync. rewrite Ho in Hsync.
  destruct (undisturbed_run_completes ollama_generate task_id file model custom_prompt w
              fps pps parsed analysis Hne Hpdf Hu Hf Hp Hparsed Ho)
    as (t & Ht & _ & _ & _ & Hr).
  eexists. exists t. eexists.
  split; [exact Hsync |]. split; [exact Ht |]. split; [exact Hr |].
  repeat split.
Qed.

Lemma both_requests_give_the_same_analysis_witness :
  exists response t result,
    (analyze_pdf Sample.answers Sample.mixed_page Sample.model None (Sample.idle [])).1
    = Return response
    /\ processing_tasks (Sample.run Sample.answers Sample.mixed_page [])
         !! Sample.task_id = Some t
    /\ Task.result t = Some result
    /\ same_analysis response result
    /\ PDFAnalysisResponse.task_id response = None
    /\ PDFAnalysisResponse.task_id result = Some Sample.task_id.
Proof.
  apply (both_requests_give_the_same_analysis Sample.answers Sample.task_id
           Sample.mixed_page Sample.model None (Sample.idle [])
           (map Sample.fitz_page
              [Sample.parsed "alpha" [Sample.rgb; Sample.cmyk; Sample.broken]])
           (map Sample.plumber_page
              [Sample.parsed "alpha" [Sample.rgb; Sample.cmyk; Sample.broken]])
           [Sample.parsed "alpha" [Sample.rgb; Sample.cmyk; Sample.broken]]
           (u "answer 1")).
  - vm_compute. discriminate.
  - vm_compute. reflexivity.
  - constructor.
  - reflexivity.
  - reflexivity.
  - repeat constructor.
  - discriminate.
  - vm_compute. reflexivity.
Defined.

Lemma extract_without_pages
    (ollama_generate : nat -> GenerateRequest.t -> Outcome pystr)
    (model : pystr) (file : UploadFile.t) (w : World) (pps : list PlumberPage) :
  UploadFile.fitz_open file = Return [] ->
  UploadFile.pdfplumber_open file = Return pps ->
  extract_images_from_pdf_and_analyze ollama_generate model None file w
  = (Return ([], 0%Z), (await_point w).2).
Proof.
  intros Hf Hp. unfold extract_images_from_pdf_and_analyze.
  pose proof (await_point_returns w) as Haw. set (w0 := (await_point w).2) in *.
  apply try_except_return.
  unfold await. rewrite !bind_run, Haw.
  unfold UploadFile_read. rewrite mret_run, bind_run, Hf. unfold lift at 1.
  cbn [if_task_id]. rewrite bind_run, mret_run, bind_run, Hp. unfold lift at 1.
  cbn [zip zip_with page_loop]. rewrite bind_run, mret_run. rewrite bind_run, mret_run.
  reflexivity.
Qed.

(** X15 ([analyze_pdf], [process_pdf_async]): the check for an empty text
    exists in the synchronous request only.  A document without pages is
    refused there, before anything is sent to the model; the background job
    of an undisturbed task sends the empty text to the model and completes
    the task with an empty text and a page count of 0. *)
Theorem empty_document_is_refused_by_the_synchronous_request_only
    (ollama_generate : nat -> GenerateRequest.t -> Outcome pystr)
    (task_id : pystr) (file : UploadFile.t) (model : pystr)
    (custom_prompt : option pystr) (w : World) (pps : list PlumberPage)
    (analysis : pystr) :
  task_id <> [] -> is_pdf file = true -> undisturbed task_id w ->
  UploadFile.fitz_open file = Return [] ->
  UploadFile.pdfplumber_open file = Return pps ->
  ollama_generate (generate_count (trace w)) (summary_request [] model custom_prompt)
  = Return analysis ->
  (let r := analyze_pdf ollama_generate file model custom_prompt w in
   r.1 = Raise (HTTPException 400
                  (str_exc (HTTPException 400
                              (u "No text could be extracted from the PDF"))))
   /\ trace r.2 = trace w)
  /\ exists t,
       processing_tasks
         (analyze_pdf_async_and_run ollama_generate task_id file model custom_prompt w).2
         !! task_id = Some t
       /\ Task.status t = completed
       /\ Task.result t
          = Some (PDFAnalysisResponse.mk (UploadFile.filename file) [] analysis model 0
                    (Some task_id)).
Proof.
  intros Hne Hpdf Hu Hf Hp Ho. split.
  - cbn zeta. unfold analyze_pdf. rewrite Hpdf.
    match goal with
    | |- (try_except ?body ?h w).1 = _ /\ _ =>
      assert (Hbody : body w
                      = (Raise (HTTPException 400
                                  (u "No text could be extracted from the PDF")),
                         (await_point w).2))
    end.
    { rewrite bind_run, (extract_without_pages _ _ _ _ _ Hf Hp).
      destruct (decide _) as [_ | Hn]; [reflexivity | contradiction Hn; reflexivity]. }
    rewrite (try_except_raise _ _ _ _ _ Hbody). cbn [fst snd raise].
    split; [reflexivity | apply (await_point_frame w)].
  - destruct (undisturbed_run_completes ollama_generate task_id file model custom_prompt w
                [] pps [] analysis Hne Hpdf Hu Hf Hp)
      as (t & Ht & Hs & _ & _ & Hr); [constructor | exact Ho |].
    exists t. split; [exact Ht |]. split; [exact Hs | exact Hr].
Qed.

Lemma empty_document_is_refused_by_the_synchronous_request_only_witness :
  (let r := analyze_pdf Sample.answers (Sample.upload []) Sample.model None
              (Sample.idle []) in
   r.1 = Raise (HTTPException 400
                  (str_exc (HTTPException 400
                              (u "No text could be extracted from the PDF"))))
   /\ trace r.2 = trace (Sample.idle []))
  /\ exists t,
       processing_tasks (Sample.run Sample.answers (Sample.upload []) [])
         !! Sample.task_id = Some t
       /\ Task.status t = completed
       /\ Task.result t
          = Some (PDFAnalysisResponse.mk (UploadFile.filename (Sample.upload [])) []
                    (u "answer 0") Sample.model 0 (Some Sample.task_id)).
Proof.
  apply (empty_document_is_refused_by_the_synchronous_request_only Sample.answers
           Sample.task_id (Sample.upload []) Sample.model None (Sample.idle []) []
           (u "answer 0")).
  - vm_compute. discriminate.
  - vm_compute. reflexivity.
  - constructor.
  - reflexivity.
  - reflexivity.
  - reflexivity.
Defined.

(* ================================================================= *)
(** ** The values of the progress and the calls of the model *)

(** X16 ([extract_images_from_pdf_and_analyze], the page loop): the progress
    that the loop over the pages reports, [int(10 + (page_num / page_count)
    * 60)] in floating point, starts at 10 or above, never goes down from one
    page to a later one, never exceeds 70, and is exactly 70 at the last
    page, for every number of pages. *)
Theorem page_progress_runs_from_10_to_70 (p q page_count : Z) :
  (1 <= p)%Z -> (p <= q)%Z -> (q <= page_count)%Z ->
  (10 <= page_progress p page_count)%Z
  /\ (page_progress p page_count <= page_progress q page_count)%Z
  /\ (page_progress q page_count <= 70)%Z
  /\ page_progress page_count page_count = 70%Z.
Proof.
  intros Hp Hpq Hq.
  split; [apply page_progress_bounds; lia |].
  split; [apply page_progress_mono; lia |].
  split; [apply page_progress_bounds; lia |].
  apply Z.le_antisymm; [apply page_progress_bounds; lia |].
  unfold page_progress, Float.add, Float.mul.
  assert (H1 : (1 <= Float.truediv page_count page_count)%Q).
  { unfold Float.truediv.
    apply FloatFacts.rnd64_ge_const; [discriminate | | exact FloatFacts.rnd64_1].
    assert (Hn : (0 < inject_Z page_count)%Q).
    { change 0%Q with (inject_Z 0). rewrite <- Zlt_Qlt. lia. }
    apply Qle_shift_div_l; [exact Hn | lra]. }
  pose proof FloatFacts.of_int_60 as H60. pose proof FloatFacts.of_int_10 as H10.
  assert (H2 : (60 <= Float.rnd64
                        (Float.truediv page_count page_count * Float.of_int 60))%Q).
  { apply FloatFacts.rnd64_ge_const; [discriminate | nra | exact FloatFacts.rnd64_60]. }
  apply FloatFacts.to_int_ge; [lia |]. change (inject_Z 70) with 70%Q.
  apply FloatFacts.rnd64_ge_const; [discriminate | lra | exact FloatFacts.rnd64_70].
Qed.

Lemma page_progress_runs_from_10_to_70_witness :
  (10 <= page_progress 1 3)%Z
  /\ (page_progress 1 3 <= page_progress 2 3)%Z
  /\ (page_progress 2 3 <= 70)%Z
  /\ page_progress 3 3 = 70%Z.
Proof. apply (page_progress_runs_from_10_to_70 1 2 3); lia. Defined.

(** X17 ([extract_images_from_pdf_and_analyze], the image loop): the progress
    that the loop over the images of a page reports lies between 70 and 90
    and does not go down from one image of the page to the next. *)
Theorem image_progress_runs_from_70_to_90
    (page_num page_count i j len_image_list : Z) :
  (1 <= page_num)%Z -> (page_num <= page_count)%Z ->
  (0 <= i)%Z -> (i <= j)%Z -> (j < len_image_list)%Z ->
  (70 <= img_progress page_num page_count i len_image_list)%Z
  /\ (img_progress page_num page_count i len_image_list
      <= img_progress page_num page_count j len_image_list)%Z
  /\ (img_progress page_num page_count j len_image_list <= 90)%Z.
Proof.
  intros Hp HP Hi Hij Hj.
  split; [apply img_progress_lower; lia |].
  split; [apply img_progress_mono; lia | apply img_progress_upper; lia].
Qed.

Lemma image_progress_runs_from_70_to_90_witness :
  (70 <= img_progress 1 2 0 3)%Z
  /\ (img_progress 1 2 0 3 <= img_progress 1 2 2 3)%Z
  /\ (img_progress 1 2 2 3 <= 90)%Z.
Proof. apply (image_progress_runs_from_70_to_90 1 2 0 2 3); lia. Defined.

(** *** Invariants that depend on what is written and on what is asked *)

Section Measured.

Variable ollama_generate : nat -> GenerateRequest.t -> Outcome pystr.
Variables (model : pystr) (running : option pystr).
Variable I : World -> Prop.
Hypothesis Hprogress :
  forall tid value, percent value -> preserves I (setitem_progress tid value).
Hypothesis Hstep : forall tid step, preserves I (setitem_current_step tid step).
Hypothesis Hawait : preserves I await_point.
Hypothesis Himage :
  forall image_base64,
    preserves I (generate ollama_generate (image_request image_base64 model)).

Lemma measured_report (value : Z) (step : pystr) :
  percent value ->
  preserves I
    (if_task_id running (fun tid =>
       setitem_progress tid value;; setitem_current_step tid step)).
Proof.
  intros Hv. apply preserves_if_task_id. intros tid _ _.
  apply preserves_bind; [apply Hprogress, Hv | intros _; apply Hstep].
Qed.

Lemma measured_report' (value : Z) (step : pystr) :
  percent value ->
  preserves I
    (if_task_id running (fun tid =>
       setitem_current_step tid step;; setitem_progress tid value)).
Proof.
  intros Hv. apply preserves_if_task_id. intros tid _ _.
  apply preserves_bind; [apply Hstep | intros _; apply Hprogress, Hv].
Qed.

Lemma measured_analyze_image (image_base64 : pystr) :
  preserves I (analyze_image_with_ollama ollama_generate image_base64 model).
Proof.
  apply preserves_try; [apply Himage | intros e; apply preserves_mret].
Qed.

Lemma measured_image_loop (page_num page_count len_image_list : Z) :
  (1 <= page_num)%Z -> (page_num <= page_count)%Z ->
  forall (images : list Image) (img_index : Z) (all_text : pystr),
    (0 <= img_index)%Z ->
    (img_index + Z.of_nat (length images) <= len_image_list)%Z ->
    preserves I
      (image_loop ollama_generate model running page_num page_count len_image_list
         img_index images all_text).
Proof.
  intros Hp HP images.
  induction images as [| img rest IH]; intros img_index all_text Hi Hlen; cbn [image_loop].
  - apply preserves_mret.
  - cbn [length] in Hlen.
    apply preserves_bind; [apply preserves_check_cancelled | intros _].
    apply preserves_bind.
    { apply measured_report.
      pose proof (img_progress_lower page_num page_count img_index len_image_list).
      pose proof (img_progress_upper page_num page_count img_index len_image_list).
      unfold percent. lia. }
    intros _. apply preserves_bind; [| intros txt; apply IH; lia].
    apply preserves_try; [| intros e; apply preserves_mret].
    apply preserves_bind; [apply preserves_lift | intros pix].
    destruct (decide _); [| apply preserves_mret].
    apply preserves_bind; [apply preserves_lift | intros b64].
    apply preserves_bind; [| intros a; apply preserves_mret].
    apply measured_analyze_image.
Qed.

Lemma measured_page_loop (page_count : Z) :
  forall (pages : list (FitzPage * PlumberPage)) (page_num : Z) (all_text : pystr),
    (1 <= page_num)%Z ->
    (page_num + Z.of_nat (length pages) - 1 <= page_count)%Z ->
    preserves I
      (page_loop ollama_generate model running page_count page_num pages all_text).
Proof.
  intros pages.
  induction pages as [| [fitz_page plumber_page] rest IH];
    intros page_num all_text Hp Hlen; cbn [page_loop].
  - apply preserves_mret.
  - cbn [length] in Hlen.
    apply preserves_bind; [apply preserves_check_cancelled | intros _].
    apply preserves_bind.
    { apply measured_report.
      pose proof (page_progress_bounds page_num page_count).
      unfold percent. lia. }
    intros _. apply preserves_bind; [apply preserves_lift | intros page_text].
    apply preserves_bind; [apply preserves_lift | intros tables].
    apply preserves_bind; [apply preserves_lift | intros images].
    apply preserves_bind; [| intros txt; apply IH; lia].
    destruct images as [| img imgs]; [apply preserves_mret |].
    apply measured_image_loop; lia.
Qed.

Lemma measured_extract (file : UploadFile.t) :
  preserves I
    (extract_images_from_pdf_and_analyze ollama_generate model running file).
Proof.
  unfold extract_images_from_pdf_and_analyze.
  apply preserves_try; [| intros e; destruct (contains _ _); apply preserves_raise].
  apply preserves_bind.
  { unfold await. apply preserves_bind; [apply Hawait | intros _]. apply preserves_mret. }
  intros _. apply preserves_bind; [apply preserves_lift | intros pdf_document].
  apply preserves_bind; [apply measured_report'; unfold percent; lia | intros _].
  apply preserves_bind; [apply preserves_lift | intros pdf_pages].
  apply preserves_bind.
  { apply measured_page_loop; [lia |]. rewrite length_zip. lia. }
  intros txt. apply preserves_bind; [| intros _; apply preserves_mret].
  apply measured_report'. unfold percent. lia.
Qed.

End Measured.

Lemma measured_run
    (ollama_generate : nat -> GenerateRequest.t -> Outcome pystr)
    (task_id : pystr) (file : UploadFile.t) (model : pystr)
    (custom_prompt : option pystr) (I : World -> Prop) :
  (forall tid value, percent value -> preserves I (setitem_progress tid value)) ->
  (forall tid step, preserves I (setitem_current_step tid step)) ->
  preserves I await_point ->
  (forall image_base64,
     preserves I (generate ollama_generate (image_request image_base64 model))) ->
  (forall text,
     preserves I (generate ollama_generate (summary_request text model custom_prompt))) ->
  (forall value before at_write t w,
     percent value -> I w ->
     I (mkWorld (<[task_id := t]> (processing_tasks w))
          (ProgressWrite task_id value before at_write :: trace w) (inbox w))) ->
  preserves I
    (analyze_pdf_async_and_run ollama_generate task_id file model custom_prompt).
Proof.
  intros Hprogress Hstep Hawait Himage Hsummary Hlog.
  unfold analyze_pdf_async_and_run.
  apply preserves_bind; [| intros _].
  - destruct (is_pdf file) eqn:Hpdf.
    + intros w Hw. rewrite (analyze_pdf_async_run ollama_generate _ _ _ _ _ Hpdf).
      apply Hlog; [unfold percent; lia | exact Hw].
    + unfold analyze_pdf_async. rewrite Hpdf.
      apply preserves_try; intros; apply preserves_raise.
  - unfold process_pdf_async. apply preserves_try.
    + apply preserves_bind;
        [apply measured_extract; assumption | intros [text n]].
      apply preserves_bind; [apply preserves_get_status | intros st].
      destruct (decide _); [apply preserves_mret |].
      apply preserves_bind; [apply Hstep | intros _].
      apply preserves_bind; [apply Hprogress; unfold percent; lia | intros _].
      apply preserves_bind.
      { apply preserves_try; [apply Hsummary | intros e; apply preserves_raise]. }
      intros analysis w1 Hw1.
      destruct (processing_tasks w1 !! task_id) as [t |] eqn:Ht.
      * rewrite (update_completed_run _ _ _ _ Ht). cbn [snd].
        apply Hlog; [unfold percent; lia | exact Hw1].
      * rewrite (update_completed_missing _ _ _ Ht). exact Hw1.
    + intros e w1 Hw1.
      destruct (processing_tasks w1 !! task_id) as [t |] eqn:Ht.
      * rewrite (update_failed_run _ _ _ _ Ht). cbn [snd].
        apply Hlog; [unfold percent; lia | exact Hw1].
      * rewrite (update_failed_missing _ _ _ Ht). exact Hw1.
Qed.

Lemma same_values_written {A : Type} (I : list Z -> Prop) (m : M A) :
  (forall w, values_written (trace (m w).2) = values_written (trace w)) ->
  preserves (fun w => I (values_written (trace w))) m.
Proof. intros H w Hw. rewrite H. exact Hw. Qed.

(** X18 ([analyze_pdf_async], [process_pdf_async],
    [extract_images_from_pdf_and_analyze]): every value that a request and
    its background job write to a ["progress"] lies between 0 and 100,
    whatever the document, whatever the model answers, and whatever requests
    arrive while the job runs. *)
Theorem progress_is_a_percentage
    (ollama_generate : nat -> GenerateRequest.t -> Outcome pystr)
    (task_id : pystr) (file : UploadFile.t) (model : pystr)
    (custom_prompt : option pystr) (w : World) :
  within_percent w ->
  within_percent
    (analyze_pdf_async_and_run ollama_generate task_id file model custom_prompt w).2.
Proof.
  revert w. change (preserves within_percent
                      (analyze_pdf_async_and_run ollama_generate task_id file model
                         custom_prompt)).
  apply measured_run.
  - intros tid value Hv w Hw. unfold within_percent.
    destruct (processing_tasks w !! tid) as [t |] eqn:Ht.
    + rewrite (setitem_progress_run _ _ _ _ Ht). cbn [snd trace values_written].
      constructor; assumption.
    + rewrite (setitem_progress_missing _ _ _ Ht). exact Hw.
  - intros tid step. apply (same_values_written (Forall percent)). intros w.
    destruct (setitem_current_step_calls tid step w) as [-> _]. reflexivity.
  - apply (same_values_written (Forall percent)). intros w.
    destruct (await_point_frame w) as (_ & -> & _). reflexivity.
  - intros image_base64. apply (same_values_written (Forall percent)). reflexivity.
  - intros text. apply (same_values_written (Forall percent)). reflexivity.
  - intros value before at_write t w Hv Hw. unfold within_percent.
    cbn [trace values_written]. constructor; assumption.
Qed.

Lemma progress_is_a_percentage_witness :
  within_percent
    (Sample.run Sample.answers Sample.image_on_first_page [[POST_cancel Sample.task_id]]).
Proof.
  apply (progress_is_a_percentage Sample.answers Sample.task_id
           Sample.image_on_first_page Sample.model None
           (Sample.idle [[POST_cancel Sample.task_id]])).
  constructor.
Defined.

Lemma same_requests_sent {A : Type} (I : list GenerateRequest.t -> Prop) (m : M A) :
  (forall w, requests_sent (trace (m w).2) = requests_sent (trace w)) ->
  preserves (fun w => I (requests_sent (trace w))) m.
Proof. intros H w Hw. rewrite H. exact Hw. Qed.

Lemma job_request_sent
    (ollama_generate : nat -> GenerateRequest.t -> Outcome pystr)
    (model : pystr) (custom_prompt : option pystr) (w0 : World)
    (req : GenerateRequest.t) :
  job_request model custom_prompt req ->
  preserves (only_job_requests_since model custom_prompt w0)
    (generate ollama_generate req).
Proof.
  intros Hreq w (reqs & Hw & Hall). exists (reqs ++ [req]). split.
  - unfold generate. cbn [snd trace requests_sent]. rewrite Hw, app_assoc. reflexivity.
  - apply Forall_app. split; [exact Hall |]. constructor; [exact Hreq | constructor].
Qed.

(** X19 ([process_pdf_async], [analyze_image_with_ollama],
    [analyze_text_with_ollama]): whatever the document and whatever happens
    during the run, the only requests that a job sends to the model are
    descriptions of one image each, with the built-in image prompt, and
    summaries of a text, with the prompt of the request; every one of them
    names the model that the request chose. *)
Theorem job_asks_only_the_chosen_model
    (ollama_generate : nat -> GenerateRequest.t -> Outcome pystr)
    (task_id : pystr) (file : UploadFile.t) (model : pystr)
    (custom_prompt : option pystr) (w : World) :
  exists reqs,
    requests_sent
      (trace (analyze_pdf_async_and_run ollama_generate task_id file model
                custom_prompt w).2)
    = requests_sent (trace w) ++ reqs
    /\ Forall (job_request model custom_prompt) reqs
    /\ Forall (fun req => GenerateRequest.model req = model) reqs.
Proof.
  assert (H : only_job_requests_since model custom_prompt w
                (analyze_pdf_async_and_run ollama_generate task_id file model
                   custom_prompt w).2).
  { apply (measured_run ollama_generate task_id file model custom_prompt
             (only_job_requests_since model custom_prompt w)).
    - intros tid value _.
      apply (same_requests_sent
               (fun sent => exists reqs, sent = requests_sent (trace w) ++ reqs
                                         /\ Forall (job_request model custom_prompt) reqs)).
      intros w1. destruct (processing_tasks w1 !! tid) as [t |] eqn:Ht.
      + rewrite (setitem_progress_run _ _ _ _ Ht). reflexivity.
      + rewrite (setitem_progress_missing _ _ _ Ht). reflexivity.
    - intros tid step.
      apply (same_requests_sent
               (fun sent => exists reqs, sent = requests_sent (trace w) ++ reqs
                                         /\ Forall (job_request model custom_prompt) reqs)).
      intros w1. destruct (setitem_current_step_calls tid step w1) as [-> _]. reflexivity.
    - apply (same_requests_sent
               (fun sent => exists reqs, sent = requests_sent (trace w) ++ reqs
                                         /\ Forall (job_request model custom_prompt) reqs)).
      intros w1. destruct (await_point_frame w1) as (_ & -> & _). reflexivity.
    - intros image_base64. apply job_request_sent. left. eexists. reflexivity.
    - intros text. apply job_request_sent. right. eexists. reflexivity.
    - intros value before at_write t w1 _ Hw1. exact Hw1.
    - exists []. split; [symmetry; apply app_nil_r | constructor]. }
  destruct H as (reqs & Hsent & Hall). exists reqs.
  split; [exact Hsent |]. split; [exact Hall |].
  apply (Forall_impl _ _ _ Hall). intros req [[b ->] | [text ->]]; reflexivity.
Qed.

(** *** How often the model is asked *)

Lemma image_sections_count
    (ollama_generate : nat -> GenerateRequest.t -> Outcome pystr) (model : pystr)
    (images : list Image) :
  forall (k : nat) (img_index : Z),
    (image_sections ollama_generate model k img_index images).2
    = (k + length (omap describable images))%nat.
Proof.
  induction images as [| img rest IH]; intros k img_index; cbn [image_sections].
  - change (omap describable []) with (@nil pystr). cbn [snd length]. lia.
  - change (omap describable (img :: rest))
      with (match describable img with
            | Some b64 => b64 :: omap describable rest
            | None => omap describable rest
            end).
    destruct (image_section ollama_generate model k img_index img) as [s k1] eqn:Hs.
    specialize (IH k1 (img_index + 1)%Z).
    destruct (image_sections ollama_generate model k1 (img_index + 1) rest) as [ss k2].
    cbn [snd] in *. subst k2.
    unfold image_section in Hs. unfold describable.
    destruct (pixmap img) as [pix | e].
    + destruct (decide _).
      * destruct (Pixmap.png_base64 pix); injection Hs as _ <-; cbn [length]; lia.
      * injection Hs as _ <-. lia.
    + injection Hs as _ <-. lia.
Qed.

Lemma page_sections_count
    (ollama_generate : nat -> GenerateRequest.t -> Outcome pystr) (model : pystr)
    (pages : list ParsedPage) :
  forall (k : nat) (page_num : Z),
    (page_sections ollama_generate model k page_num pages).2
    = (k + length (described_images pages))%nat.
Proof.
  unfold described_images.
  induction pages as [| pp rest IH]; intros k page_num.
  - change (omap describable (concat (map image_list []))) with (@nil pystr).
    cbn [page_sections snd length]. lia.
  - rewrite page_sections_cons. cbn [snd map concat].
    rewrite IH, omap_app, length_app.
    destruct (image_list pp) as [| img imgs] eqn:Himgs.
    + rewrite (page_section_plain _ _ _ _ _ Himgs).
      change (omap describable []) with (@nil pystr). cbn [snd length]. lia.
    + rewrite page_section_images by (rewrite Himgs; discriminate).
      cbn [snd]. rewrite image_sections_count, Himgs. lia.
Qed.

(** X20 ([extract_images_from_pdf_and_analyze], [analyze_image_with_ollama]):
    in a run that no request disturbs, over a document that both parsers
    read, the extraction returns with the number of pages and has asked the
    model exactly once for every image that can be read, has fewer than four
    colour components and can be encoded, and not at all for the other
    images. *)
Theorem model_is_asked_once_for_each_described_image
    (ollama_generate : nat -> GenerateRequest.t -> Outcome pystr)
    (model : pystr) (running : option pystr) (file : UploadFile.t) (w : World)
    (fps : list FitzPage) (pps : list PlumberPage) (parsed : list ParsedPage) :
  UploadFile.fitz_open file = Return fps ->
  UploadFile.pdfplumber_open file = Return pps ->
  Forall2 parsed_as (zip fps pps) parsed ->
  calm running (generate_count (trace w)) w ->
  exists text w',
    extract_images_from_pdf_and_analyze ollama_generate model running file w
    = (Return (text, Z.of_nat (length fps)), w')
    /\ generate_count (trace w')
       = (generate_count (trace w) + length (described_images parsed))%nat.
Proof.
  intros Hf Hp Hparsed Hcalm.
  destruct (calm_extract ollama_generate model running file fps pps parsed
              (generate_count (trace w)) Hf Hp Hparsed w Hcalm)
    as (w' & He & Hk & _).
  eexists. exists w'. split; [exact He |].
  rewrite Hk. apply page_sections_count.
Qed.

Lemma model_is_asked_once_for_each_described_image_witness :
  exists text w',
    extract_images_from_pdf_and_analyze Sample.answers Sample.model None
      Sample.mixed_page (Sample.idle [])
    = (Return (text, 1%Z), w')
    /\ generate_count (trace w') = 1%nat.
Proof.
  apply (model_is_asked_once_for_each_described_image Sample.answers Sample.model None
           Sample.mixed_page (Sample.idle [])
           (map Sample.fitz_page
              [Sample.parsed "alpha" [Sample.rgb; Sample.cmyk; Sample.broken]])
           (map Sample.plumber_page
              [Sample.parsed "alpha" [Sample.rgb; Sample.cmyk; Sample.broken]])
           [Sample.parsed "alpha" [Sample.rgb; Sample.cmyk; Sample.broken]]).
  - reflexivity.
  - reflexivity.
  - repeat constructor.
  - split; [reflexivity | intros c s [=]].
Defined.

(* ================================================================= *)
(** ** The item endpoints *)

Lemma create_items_numbered (items : list Item.t) :
  forall items_db,
    create_items items items_db = items_db ++ numbered_from (length items_db) items.
Proof.
  induction items as [| item rest IH]; intros items_db; cbn [create_items numbered_from].
  - rewrite app_nil_r. reflexivity.
  - unfold create_item. cbn [snd]. rewrite IH, length_app, <- app_assoc.
    cbn [length]. rewrite Nat.add_1_r. reflexivity.
Qed.

Lemma get_item_numbered (items : list Item.t) :
  forall (n k : nat) (item : Item.t),
    items !! k = Some item ->
    get_item (Z.of_nat (n + k) + 1) (numbered_from n items)
    = ItemDict (Item.set_id (Some (Z.of_nat (n + k) + 1)%Z) item).
Proof.
  induction items as [| first rest IH]; intros n k item Hk; [discriminate Hk |].
  cbn [numbered_from get_item Item.set_id Item.id].
  destruct k as [| k].
  - injection Hk as ->. rewrite Nat.add_0_r.
    destruct (decide _) as [_ | Hn]; [reflexivity | contradiction Hn; reflexivity].
  - destruct (decide _) as [Heq | _]; [injection Heq as Heq; lia |].
    replace (n + S k)%nat with (S n + k)%nat by lia. apply IH. exact Hk.
Qed.

Lemma get_item_numbered_outside (items : list Item.t) :
  forall (n : nat) (item_id : Z),
    (item_id <= Z.of_nat n \/ Z.of_nat (n + length items) < item_id)%Z ->
    get_item item_id (numbered_from n items) = ItemNotFound.
Proof.
  induction items as [| first rest IH]; intros n item_id Hout; [reflexivity |].
  cbn [numbered_from get_item Item.set_id Item.id]. cbn [length] in Hout.
  destruct (decide _) as [Heq | _]; [injection Heq as Heq; lia |].
  apply IH. lia.
Qed.

(** X21 ([create_item], [get_item]): while items are only created, the list
    numbers them 1, 2, 3, ... in the order of creation, and an item is found
    again under its number, as it was sent but for the id; any other id is
    answered with the error dictionary. *)
Theorem created_items_are_numbered_from_one (items : list Item.t) (item_id : Z) :
  get_item item_id (create_items items [])
  = match (if decide (1 <= item_id)%Z then items !! Z.to_nat (item_id - 1) else None) with
    | Some item => ItemDict (Item.set_id (Some item_id) item)
    | None => ItemNotFound
    end.
Proof.
  rewrite create_items_numbered. cbn [app length].
  destruct (decide (1 <= item_id)%Z) as [Hpos | Hneg].
  - destruct (items !! Z.to_nat (item_id - 1)) as [item |] eqn:Hk.
    + pose proof (get_item_numbered items 0 _ item Hk) as H.
      replace (Z.of_nat (0 + Z.to_nat (item_id - 1)) + 1)%Z with item_id in H by lia.
      exact H.
    + apply get_item_numbered_outside. apply lookup_ge_None in Hk. lia.
  - apply get_item_numbered_outside. lia.
Qed.

Lemma get_item_app (item_id : Z) (front back : list Item.t) :
  get_item item_id (front ++ back)
  = match get_item item_id front with
    | ItemNotFound => get_item item_id back
    | reply => reply
    end.
Proof.
  induction front as [| item rest IH]; cbn [app get_item]; [reflexivity |].
  destruct (decide _); [reflexivity | exact IH].
Qed.

(** X22 ([update_item], [get_item]): an update replaces the first item that
    has the id, and only that one: the list keeps its length, every other id
    is answered as before, and the id itself is answered with the new
    content under the old id.  When no item has the id, the list is left as
    it is and the error dictionary is returned. *)
Theorem update_item_replaces_the_first_match
    (item_id : Z) (item : Item.t) (items_db : list Item.t) :
  let updated := update_item item_id item items_db in
  length updated.2 = length items_db
  /\ (forall other, other <> item_id ->
      get_item other updated.2 = get_item other items_db)
  /\ match get_item item_id items_db with
     | ItemNotFound => updated = (ItemNotFound, items_db)
     | _ =>
       updated.1 = ItemDict (Item.set_id (Some item_id) item)
       /\ get_item item_id updated.2 = ItemDict (Item.set_id (Some item_id) item)
     end.
Proof.
  induction items_db as [| existing_item rest IH]; cbn [update_item get_item].
  - cbn zeta. repeat split.
  - destruct (decide (Item.id existing_item = Some item_id)) as [Hid | Hid].
    + cbn zeta. cbn [fst snd length get_item Item.set_id Item.id].
      split; [reflexivity |]. split.
      * intros other Hne.
        destruct (decide (Some item_id = Some other)) as [[= Heq] | _];
          [congruence |].
        destruct (decide (Item.id existing_item = Some other)) as [Heq | _];
          [congruence | reflexivity].
      * split; [reflexivity |].
        destruct (decide _) as [_ | Hn]; [reflexivity | contradiction Hn; reflexivity].
    + cbn zeta in IH. destruct (update_item item_id item rest) as [reply rest'].
      cbn [fst snd] in IH. destruct IH as (Hlen & Hother & Hself).
      cbn zeta. cbn [fst snd length get_item]. split; [rewrite Hlen; reflexivity |].
      split.
      * intros other Hne. rewrite (Hother other Hne). reflexivity.
      * destruct (decide _) as [Heq | _]; [contradiction |].
        destruct (get_item item_id rest).
        -- exact Hself.
        -- exact Hself.
        -- injection Hself as -> ->. reflexivity.
Qed.

(** X23 ([delete_item], [get_item]): a deletion removes the first item that
    has the id and returns it with the message; the list gets shorter by
    one, and every other id is answered as before.  When no item has the
    id, the list is left as it is and the error dictionary is returned. *)
Theorem delete_item_removes_the_first_match (item_id : Z) (items_db : list Item.t) :
  let deleted := delete_item item_id items_db in
  (forall other, other <> item_id ->
   get_item other deleted.2 = get_item other items_db)
  /\ match get_item item_id items_db with
     | ItemDict item =>
       deleted.1 = ItemDeleted (u "Item " ++ str_int item_id ++ u " deleted") item
       /\ S (length deleted.2) = length items_db
     | _ => deleted = (ItemNotFound, items_db)
     end.
Proof.
  induction items_db as [| item rest IH]; cbn [delete_item get_item].
  - cbn zeta. split; [reflexivity | reflexivity].
  - destruct (decide (Item.id item = Some item_id)) as [Hid | Hid].
    + cbn zeta. cbn [fst snd length]. split; [| split; reflexivity].
      intros other Hne. cbn [get_item].
      destruct (decide (Item.id item = Some other)) as [Heq | _];
        [congruence | reflexivity].
    + cbn zeta in IH. destruct (delete_item item_id rest) as [reply rest'].
      cbn [fst snd] in IH. destruct IH as (Hother & Hself).
      cbn zeta. cbn [fst snd length get_item]. split.
      * intros other Hne. rewrite (Hother other Hne). reflexivity.
      * destruct (get_item item_id rest).
        -- destruct Hself as [-> Hlen]. split; [reflexivity | rewrite Hlen; reflexivity].
        -- injection Hself as -> ->. reflexivity.
        -- injection Hself as -> ->. reflexivity.
Qed.

Lemma numbered_from_length (items : list Item.t) :
  forall n, length (numbered_from n items) = length items.
Proof.
  induction items as [| item rest IH]; intros n; [reflexivity |].
  cbn [numbered_from length]. rewrite IH. reflexivity.
Qed.

Lemma delete_item_found (item_id : Z) (items_db : list Item.t) (found : Item.t) :
  get_item item_id items_db = ItemDict found ->
  (forall other, other <> item_id ->
   get_item other (delete_item item_id items_db).2 = get_item other items_db)
  /\ S (length (delete_item item_id items_db).2) = length items_db.
Proof.
  induction items_db as [| item rest IH]; cbn [get_item delete_item]; [discriminate |].
  destruct (decide (Item.id item = Some item_id)) as [Hid | Hid].
  - intros _. cbn [snd length]. split; [| reflexivity].
    intros other Hne. cbn [get_item].
    destruct (decide (Item.id item = Some other)); [congruence | reflexivity].
  - intros Hg. destruct (IH Hg) as [Hother Hlen].
    destruct (delete_item item_id rest) as [reply rest']. cbn [snd length] in *.
    split; [| rewrite Hlen; reflexivity].
    intros other Hne. cbn [get_item]. rewrite (Hother other Hne). reflexivity.
Qed.

Lemma get_item_created (items : list Item.t) (item_id : Z) (item : Item.t) :
  (1 <= item_id)%Z -> items !! Z.to_nat (item_id - 1) = Some item ->
  get_item item_id (create_items items []) = ItemDict (Item.set_id (Some item_id) item).
Proof.
  intros Hpos Hk. rewrite create_items_numbered. cbn [app length].
  pose proof (get_item_numbered items 0 _ item Hk) as H.
  replace (Z.of_nat (0 + Z.to_nat (item_id - 1)) + 1)%Z with item_id in H by lia.
  exact H.
Qed.

(** X24 ([create_item], [delete_item], [get_item]): ids are not unique once
    an item has been deleted.  After items were created and one of them,
    not the last, was deleted, the next item gets the id of the last item,
    which is [len(items_db) + 1]; it is stored, but asking for that id still
    answers with the older item. *)
Theorem item_id_is_reused_after_a_deletion
    (items : list Item.t) (item : Item.t) (k : Z) :
  (1 <= k < Z.of_nat (length items))%Z ->
  let n := Z.of_nat (length items) in
  let items_db := create_items items [] in
  let created := create_item item (delete_item k items_db).2 in
  created.1 = ItemDict (Item.set_id (Some n) item)
  /\ Item.set_id (Some n) item ∈ created.2
  /\ exists older,
       last items = Some older
       /\ get_item n created.2 = ItemDict (Item.set_id (Some n) older).
Proof.
  intros Hk n items_db created.
  destruct (lookup_lt_is_Some_2 items (Z.to_nat (n - 1))) as [older Hn];
    [subst n; lia |].
  assert (Hl : last items = Some older).
  { rewrite last_lookup, <- Hn. f_equal. subst n. lia. }
  destruct (lookup_lt_is_Some_2 items (Z.to_nat (k - 1))) as [gone Hgone]; [lia |].
  destruct (delete_item_found k items_db (Item.set_id (Some k) gone)) as [Hother Hlen].
  { apply get_item_created; [lia | exact Hgone]. }
  assert (Hdb : length items_db = length items).
  { subst items_db. rewrite create_items_numbered. cbn [app length].
    apply numbered_from_length. }
  subst created. unfold create_item. cbn [fst snd].
  replace (Z.of_nat (length (delete_item k items_db).2) + 1)%Z with n
    by (subst n; lia).
  split; [reflexivity |].
  split; [apply elem_of_app; right; apply list_elem_of_here |].
  exists older. split; [exact Hl |].
  rewrite get_item_app, Hother by (subst n; lia).
  subst items_db. rewrite (get_item_created items n older) by (subst n; first [lia | exact Hn]).
  reflexivity.
Qed.

Lemma item_id_is_reused_after_a_deletion_witness :
  let first := Item.mk None (u "pen") None 1 in
  let second := Item.mk None (u "ink") None 2 in
  let third := Item.mk None (u "nib") None 3 in
  let created := create_item third (delete_item 1 (create_items [first; second] [])).2 in
  created.1 = ItemDict (Item.set_id (Some 2%Z) third)
  /\ Item.set_id (Some 2%Z) third ∈ created.2
  /\ exists older,
       last [first; second] = Some older
       /\ get_item 2 created.2 = ItemDict (Item.set_id (Some 2%Z) older).
Proof.
  apply (item_id_is_reused_after_a_deletion
           [Item.mk None (u "pen") None 1; Item.mk None (u "ink") None 2]
           (Item.mk None (u "nib") None 3) 1).
  cbn [length]. lia.
Defined.

(* ================================================================= *)
(** ** Text extraction with PyMuPDF alone *)

Lemma text_loop_run (pages : list FitzTextPage) :
  forall (page_num : Z) (text : pystr) (w : World),
    exists o,
      text_loop page_num pages text w = (o, w)
      /\ match o with
         | Return text' =>
           exists tail,
             text' = text ++ tail
             /\ in_order (map page_marker (page_numbers (page_num + 1) (length pages)))
                  tail
         | Raise _ => True
         end.
Proof.
  induction pages as [| page rest IH]; intros page_num text w; cbn [text_loop].
  - exists (Return text). split; [reflexivity |].
    exists []. split; [symmetry; apply app_nil_r | apply in_order_nil].
  - rewrite bind_run. unfold lift at 1.
    destruct (get_text page) as [page_text | e].
    + destruct (IH (page_num + 1)%Z
                  (text ++ u "--- 페이지 " ++ str_int (page_num + 1) ++ u " ---" ++ nl
                     ++ page_text ++ nl ++ nl) w) as (o & Hrun & Ho).
      exists o. split; [exact Hrun |].
      destruct o as [text' | e]; [| exact I].
      destruct Ho as (tail & -> & Hin).
      exists ((page_marker (page_num + 1) ++ nl ++ page_text ++ nl ++ nl) ++ tail).
      split.
      { unfold page_marker. rewrite <- !app_assoc. reflexivity. }
      cbn [length page_numbers map]. rewrite <- app_assoc.
      apply (in_order_cons _ _ []). apply in_order_prefix. exact Hin.
    + exists (Raise e). split; [reflexivity | exact I].
Qed.

Lemma from_path_run (fitz_open : Outcome (list FitzTextPage)) (w : World) :
  exists o,
    extract_text_from_pdf_with_pymupdf_from_path fitz_open w = (o, w)
    /\ match o with
       | Return (text, page_count) =>
         exists pages,
           fitz_open = Return pages /\ page_count = Z.of_nat (length pages)
           /\ in_order (map page_marker (page_numbers 1 (length pages))) text
       | Raise e =>
         exists e0, e = HTTPException 400
                          (u "Failed to extract text from PDF: " ++ str_exc e0)
       end.
Proof.
  unfold extract_text_from_pdf_with_pymupdf_from_path, try_except.
  rewrite bind_run. unfold lift at 1.
  destruct fitz_open as [pages | e].
  - rewrite bind_run.
    destruct (text_loop_run pages 0 [] w) as (o & Hrun & Ho). rewrite Hrun.
    destruct o as [text | e].
    + eexists. split; [reflexivity |]. exists pages.
      split; [reflexivity |]. split; [reflexivity |].
      destruct Ho as (tail & -> & Hin). cbn [app]. apply in_order_strip; [| exact Hin].
      apply Forall_map, Forall_forall. intros n _. apply page_marker_solid.
    + eexists. split; [reflexivity |]. exists e. reflexivity.
  - eexists. split; [reflexivity |]. exists e. reflexivity.
Qed.

(** X25 ([extract_text_from_pdf_with_pymupdf],
    [extract_text_from_pdf_with_pymupdf_from_path]): the two text extractors
    differ in the suspension of the read only: on an upload the extraction
    is what the extraction from a path is once the read has resumed.  They
    touch neither the tasks nor the model.  When they return, the document
    was opened, the page count is its number of pages and the text holds the
    page markers 1, 2, ... in order; whatever fails is raised as an
    [HTTPException] with status 400 that carries the message of the
    failure. *)
Theorem text_extraction_with_pymupdf
    (fitz_open : Outcome (list FitzTextPage)) (w : World) :
  let r := extract_text_from_pdf_with_pymupdf fitz_open w in
  r = extract_text_from_pdf_with_pymupdf_from_path fitz_open (await_point w).2
  /\ r.2 = (await_point w).2
  /\ trace r.2 = trace w
  /\ match r.1 with
     | Return (text, page_count) =>
       exists pages,
         fitz_open = Return pages /\ page_count = Z.of_nat (length pages)
         /\ in_order (map page_marker (page_numbers 1 (length pages))) text
     | Raise e =>
       exists e0, e = HTTPException 400
                        (u "Failed to extract text from PDF: " ++ str_exc e0)
     end.
Proof.
  intros r.
  assert (Hr : r = extract_text_from_pdf_with_pymupdf_from_path fitz_open
                     (await_point w).2).
  { subst r.
    unfold extract_text_from_pdf_with_pymupdf,
      extract_text_from_pdf_with_pymupdf_from_path, try_except, await.
    rewrite !bind_run, (await_point_returns w), mret_run.
    rewrite <- !bind_run. reflexivity. }
  destruct (from_path_run fitz_open (await_point w).2) as (o & Hrun & Ho).
  rewrite Hrun in Hr. rewrite Hr. cbn [fst snd].
  split; [symmetry; exact Hrun |]. split; [reflexivity |].
  split; [apply (await_point_frame w) | exact Ho].
Qed.

(* ================================================================= *)
(** ** How a job leaves its task, and the text it returns *)

Lemma pending_stable (task_id : pystr) (file : UploadFile.t) (model : pystr) :
  stable (pending task_id file model).
Proof.
  intros t H. split; [| split]; intros; exact H.
Qed.

Lemma process_settles
    (ollama_generate : nat -> GenerateRequest.t -> Outcome pystr)
    (task_id : pystr) (file : UploadFile.t) (model : pystr)
    (custom_prompt : option pystr) :
  hoare (task_invariant task_id (pending task_id file model))
    (process_pdf_async ollama_generate task_id file model custom_prompt)
    (fun _ => task_invariant task_id (settled task_id file model)).
Proof.
  set (I := task_invariant task_id (pending task_id file model)).
  set (Q := fun (o : Outcome unit) (w : World) =>
              match o with
              | Raise _ => I w
              | Return _ => task_invariant task_id (settled task_id file model) w
              end).
  pose proof (task_invariant_steps ollama_generate task_id _
                (pending_stable task_id file model) (Some task_id)) as Hsteps.
  fold I in Hsteps.
  assert (Hraise : forall e w, I w -> Q (Raise e) w) by (intros e w Hw; exact Hw).
  unfold process_pdf_async.
  apply (hoare_try I Q).
  - apply hoare_bind_invariant;
      [apply preserves_extract; exact Hsteps | exact Hraise | intros [text n]].
    intros w Hw. rewrite bind_run. unfold get_status. cbn beta iota.
    destruct (decide _) as [Hc | _].
    + rewrite mret_run. cbn [fst snd Q]. intros t Ht.
      rewrite Ht in Hc. injection Hc as Hc.
      destruct (Hw t Ht) as (H1 & H2 & H3 & H4 & H5).
      split; [exact H1 |]. split; [exact H2 |]. split; [exact H3 |].
      right. right. split; [exact Hc |]. split; assumption.
    + revert w Hw.
      apply hoare_bind_invariant;
        [apply (inv_current_step _ _ _ Hsteps); reflexivity | exact Hraise | intros _].
      apply hoare_bind_invariant;
        [apply (inv_progress _ _ _ Hsteps); reflexivity | exact Hraise | intros _].
      apply hoare_bind_invariant; [| exact Hraise | intros analysis].
      { apply (preserves_analyze_text _ _ _ Hsteps). }
      intros w Hw. destruct (processing_tasks w !! task_id) as [t |] eqn:Ht.
      * rewrite (update_completed_run _ _ _ _ Ht). cbn [fst snd Q]. intros t'.
        cbn [processing_tasks]. rewrite lookup_insert_eq. intros [= <-].
        destruct (Hw t Ht) as (H1 & H2 & H3 & H4 & H5).
        split; [exact H1 |]. split; [exact H2 |]. split; [exact H3 |].
        left. split; [reflexivity |]. split; [reflexivity |]. split; [exact H5 |].
        eexists. split; [reflexivity |]. repeat split.
      * rewrite (update_completed_missing _ _ _ Ht). exact Hw.
  - intros a w Hw. exact Hw.
  - intros e w Hw. cbn [Q] in Hw.
    destruct (processing_tasks w !! task_id) as [t |] eqn:Ht.
    + rewrite (update_failed_run _ _ _ _ Ht). cbn [snd]. intros t'.
      cbn [processing_tasks]. rewrite lookup_insert_eq. intros [= <-].
      destruct (Hw t Ht) as (H1 & H2 & H3 & H4 & H5).
      split; [exact H1 |]. split; [exact H2 |]. split; [exact H3 |].
      right. left. split; [reflexivity |]. split; [reflexivity |]. split; [exact H4 |].
      eexists. reflexivity.
    + rewrite (update_failed_missing _ _ _ Ht). cbn [snd]. intros t' Ht'.
      rewrite Ht in Ht'. discriminate Ht'.
Qed.

(** X26 ([analyze_pdf_async], [process_pdf_async], [cancel_task]): a job
    never leaves its task processing.  Whatever the document, the model and
    the requests that arrive during the run, when the job of an accepted
    upload has ended and the task was not deleted, the task is completed at
    progress 100 with a result for this task, file and model and no error;
    or failed at progress 0 with an error and no result; or cancelled with
    neither a result nor an error.  Its id, file name and model are those of
    the request. *)
Theorem job_leaves_its_task_settled
    (ollama_generate : nat -> GenerateRequest.t -> Outcome pystr)
    (task_id : pystr) (file : UploadFile.t) (model : pystr)
    (custom_prompt : option pystr) (w : World) :
  is_pdf file = true ->
  match processing_tasks
          (analyze_pdf_async_and_run ollama_generate task_id file model custom_prompt w).2
          !! task_id with
  | Some t => settled task_id file model t /\ terminal (Task.status t) = true
  | None => True
  end.
Proof.
  intros Hpdf. unfold analyze_pdf_async_and_run. rewrite bind_run.
  rewrite (analyze_pdf_async_run ollama_generate _ _ _ _ _ Hpdf).
  set (w0 := mkWorld _ _ _).
  assert (H0 : task_invariant task_id (pending task_id file model) w0).
  { intros t. subst w0. cbn [processing_tasks]. rewrite lookup_insert_eq.
    intros [= <-]. repeat split. }
  pose proof (process_settles ollama_generate task_id file model custom_prompt w0 H0)
    as H.
  destruct (processing_tasks _ !! task_id) as [t |] eqn:Ht; [| exact I].
  specialize (H t Ht). split; [exact H |].
  destruct H as (_ & _ & _ & [(-> & _) | [(-> & _) | (-> & _)]]); reflexivity.
Qed.

Lemma job_leaves_its_task_settled_witness :
  match processing_tasks
          (Sample.run Sample.fails_on_images Sample.mixed_page
             [[]; [POST_cancel Sample.task_id]])
          !! Sample.task_id with
  | Some t =>
    settled Sample.task_id Sample.mixed_page Sample.model t
    /\ terminal (Task.status t) = true
  | None => True
  end.
Proof.
  apply (job_leaves_its_task_settled Sample.fails_on_images Sample.task_id
           Sample.mixed_page Sample.model None
           (Sample.idle [[]; [POST_cancel Sample.task_id]])).
  vm_compute. reflexivity.
Defined.

(** *** The text has no white space at its ends *)

Lemma lstrip_head (s : pystr) :
  lstrip s = [] \/ exists c r, lstrip s = c :: r /\ is_space c = false.
Proof.
  induction s as [| c r IH]; [left; reflexivity |].
  cbn [lstrip]. destruct (is_space c) eqn:Hc; [exact IH |].
  right. exists c, r. split; [reflexivity | exact Hc].
Qed.

Lemma lstrip_solid (s : pystr) : trimmed s -> lstrip s = s.
Proof.
  intros [-> | [(c & r & -> & Hc) _]]; [reflexivity |].
  cbn [lstrip]. rewrite Hc. reflexivity.
Qed.

Lemma trimmed_rev (s : pystr) : trimmed s -> trimmed (rev s).
Proof.
  intros [-> | H]; [left; reflexivity | right; apply solid_rev, H].
Qed.

Lemma strip_trimmed (s : pystr) : trimmed (strip s).
Proof.
  unfold strip, rstrip.
  destruct (lstrip_head s) as [-> | (c & r & -> & Hc)]; [left; reflexivity |].
  destruct (lstrip_head (rev (c :: r))) as [He | (c' & r' & He & Hc')].
  - destruct (lstrip_suffix (rev (c :: r))) as [pre Hpre]. rewrite He in Hpre |- *.
    left. reflexivity.
  - rewrite He. right.
    destruct (lstrip_suffix (rev (c :: r))) as [pre Hpre]. rewrite He in Hpre.
    split.
    + apply (f_equal (@rev N)) in Hpre. rewrite rev_involutive, rev_app_distr in Hpre.
      destruct (rev (c' :: r')) as [| x y] eqn:Hx.
      * apply (f_equal (@length N)) in Hx. rewrite length_rev in Hx. discriminate Hx.
      * cbn [app] in Hpre. injection Hpre as <- _. exists c, y. split; [reflexivity | exact Hc].
    + exists (rev r'), c'. split; [reflexivity | exact Hc'].
Qed.

Lemma strip_fixed (s : pystr) : trimmed s -> strip s = s.
Proof.
  intros H. unfold strip, rstrip.
  rewrite (lstrip_solid s H), (lstrip_solid (rev s) (trimmed_rev s H)).
  apply rev_involutive.
Qed.

Lemma try_except_returns_inv {A : Type} (body : M A) (h : PyExc -> M A)
    (w w' : World) (a : A) :
  (forall e w1, (h e w1).1 <> Return a) ->
  try_except body h w = (Return a, w') -> body w = (Return a, w').
Proof.
  intros Hh. unfold try_except. destruct (body w) as [[b | e] w1]; [auto |].
  intros H. exfalso. apply (Hh e w1). rewrite H. reflexivity.
Qed.

(** X27 ([extract_images_from_pdf_and_analyze], [analyze_pdf]): the text
    that the extraction returns has no white space at its beginning or at
    its end: it is empty, or its first and last characters are not white
    space.  Stripping it again, as the synchronous request does before it
    checks for an empty text, changes nothing. *)
Theorem extracted_text_is_trimmed
    (ollama_generate : nat -> GenerateRequest.t -> Outcome pystr)
    (model : pystr) (running : option pystr) (file : UploadFile.t) (w : World) :
  match (extract_images_from_pdf_and_analyze ollama_generate model running file w).1 with
  | Return (text, page_count) => trimmed text /\ strip text = text
  | Raise _ => True
  end.
Proof.
  destruct (extract_images_from_pdf_and_analyze ollama_generate model running file w)
    as [[[text n] | e] w'] eqn:He; [| exact I].
  cbn [fst].
  assert (Ht : trimmed text); [| split; [exact Ht | apply strip_fixed, Ht]].
  unfold extract_images_from_pdf_and_analyze in He.
  apply try_except_returns_inv in He.
  2:{ intros e w1. destruct (contains _ _); discriminate. }
  apply bind_returns_inv in He. destruct He as (_ & w1 & _ & He).
  apply bind_returns_inv in He. destruct He as (pdf_document & w2 & _ & He).
  apply bind_returns_inv in He. destruct He as (_ & w3 & _ & He).
  apply bind_returns_inv in He. destruct He as (pdf_pages & w4 & _ & He).
  apply bind_returns_inv in He. destruct He as (all_text & w5 & _ & He).
  apply bind_returns_inv in He. destruct He as (_ & w6 & _ & He).
  rewrite mret_run in He. injection He as <- _ _.
  apply strip_trimmed.
Qed.
